(** * News recommendation service: cache layer, provider aggregator and
      recommendation engine

    A shallow embedding of [api/db/cache.py], [api/services/news_fetcher.py]
    and [api/services/recommendation.py], with the properties the design
    document states about them.

    Conventions of the embedding.
    - A Python object that travels through the cache or is returned by an
      algorithm is a [value] (the JSON-shaped fragment of Python's objects).
    - Python floats are exact rationals ([Q]); rounding is not modelled.
    - A raised exception is [None] in an [option] result; the state reached
      before the raise is kept.
    - The clock is a field of the world and does not move during one call. *)

From Stdlib Require Import ZArith QArith Qminmax List Ascii String Bool Lia.
From Stdlib Require Import DecimalString DecimalZ DecimalPos Sorted Permutation.
From stdpp Require Import gmap strings.

Import ListNotations.
Set Warnings "-register-all".
Local Open Scope string_scope.
Local Open Scope Z_scope.

(** ** Python objects *)

Module Py.

Inductive value : Type :=
| VNone
| VBool (b : bool)
| VInt (z : Z)
| VFloat (q : Q)
| VStr (s : string)
| VList (l : list value)
| VDict (d : list (string * value)).

(** [bool(v)] *)
Definition truthy (v : value) : bool :=
  match v with
  | VNone => false
  | VBool b => b
  | VInt z => negb (z =? 0)
  | VFloat q => negb (Qeq_bool q 0)
  | VStr s => negb (String.eqb s "")
  | VList l => match l with [] => false | _ => true end
  | VDict d => match d with [] => false | _ => true end
  end.

(** [bool(s)] for [s : Optional[str]] *)
Definition truthy_str (o : option string) : bool :=
  match o with
  | Some s => negb (String.eqb s "")
  | None => false
  end.

(** [d.get(k)] on an association list: the first binding of [k]. *)
Fixpoint assoc (k : string) (d : list (string * value)) : option value :=
  match d with
  | [] => None
  | (k', v) :: d' => if String.eqb k k' then Some v else assoc k d'
  end.

(** [article['id']]: a [KeyError] or [TypeError] is [None]. *)
Definition getitem (v : value) (k : string) : option value :=
  match v with
  | VDict d => assoc k d
  | _ => None
  end.

(** [l[start:end]] for integers of either sign. *)
Definition clamp_index (len i : Z) : Z :=
  if i <? 0 then Z.max 0 (len + i) else Z.min len i.

Definition slice {A} (l : list A) (start stop : Z) : list A :=
  let len := Z.of_nat (length l) in
  let s := clamp_index len start in
  let e := clamp_index len stop in
  firstn (Z.to_nat (e - s)) (skipn (Z.to_nat s) l).

(** [str(n)] for an [int] *)
Definition str_of_Z (z : Z) : string := NilZero.string_of_int (Z.to_int z).

(** [int(s)] on a decimal literal *)
Definition Z_of_str (s : string) : option Z :=
  match NilZero.int_of_string s with
  | Some d => Some (Z.of_int d)
  | None => None
  end.

(** [s.replace(c, r)] for a one-character pattern [c] *)
Fixpoint replace_char (c : ascii) (r : string) (s : string) : string :=
  match s with
  | EmptyString => EmptyString
  | String a s' =>
      if Ascii.eqb a c then r ++ replace_char c r s'
      else String a (replace_char c r s')
  end.

(** [s.split(c)] for a one-character separator *)
Fixpoint split_char (c : ascii) (s : string) : list string :=
  match s with
  | EmptyString => [EmptyString]
  | String a s' =>
      if Ascii.eqb a c then EmptyString :: split_char c s'
      else match split_char c s' with
           | w :: ws => String a w :: ws
           | [] => [String a EmptyString]
           end
  end.

(** The character [c] does not occur in [s]. *)
Definition free_of (c : ascii) (s : string) : Prop := ~ In c (list_ascii_of_string s).

(** [s[len(p):]] when [s.startswith(p)] *)
Fixpoint strip_prefix (p s : string) : option string :=
  match p, s with
  | EmptyString, _ => Some s
  | String a p', String b s' =>
      if Ascii.eqb a b then strip_prefix p' s' else None
  | String _ _, EmptyString => None
  end.

(** [p in s] for strings *)
Fixpoint contains (p s : string) : bool :=
  match strip_prefix p s with
  | Some _ => true
  | None => match s with
            | EmptyString => false
            | String _ s' => contains p s'
            end
  end.

(** [s.lower()] on the ASCII range *)
Definition lower_ascii (a : ascii) : ascii :=
  let n := nat_of_ascii a in
  if (65 <=? n)%nat && (n <=? 90)%nat then ascii_of_nat (n + 32) else a.

Fixpoint lower (s : string) : string :=
  match s with
  | EmptyString => EmptyString
  | String a s' => String (lower_ascii a) (lower s')
  end.

(** The [json] module of the standard library, as far as the cache uses
    it.  [json_dumps] is [None] where [json.dumps] raises [TypeError];
    [json_loads] is [None] where [json.loads] raises. *)
Class JsonLib := {
  json_dumps : value -> option string;
  json_loads : string -> option value
}.

(** [datetime.isoformat] of a time in seconds *)
Class Datetime := {
  isoformat : Z -> string
}.

End Py.

Import Py.

(** ** A JSON codec

    One instance of [JsonLib], used to run the embedding on examples:
    [json.dumps] with its default separators and [json.loads] on the
    text it produces.  A float prints with sixteen decimals at most, as
    Python's shortest representation does for the values used here. *)

Module Json.

Definition dquote : ascii := ascii_of_nat 34.
Definition bslash : ascii := ascii_of_nat 92.

Definition hex_digit (n : nat) : ascii :=
  if (n <? 10)%nat then ascii_of_nat (48 + n) else ascii_of_nat (87 + n).

Definition hex_value (a : ascii) : option nat :=
  let n := nat_of_ascii a in
  if (48 <=? n)%nat && (n <=? 57)%nat then Some (n - 48)%nat
  else if (97 <=? n)%nat && (n <=? 102)%nat then Some (n - 87)%nat
  else if (65 <=? n)%nat && (n <=? 70)%nat then Some (n - 55)%nat
  else None.

Definition escape_char (a : ascii) : string :=
  let n := nat_of_ascii a in
  if Ascii.eqb a dquote then String bslash (String dquote EmptyString)
  else if Ascii.eqb a bslash then String bslash (String bslash EmptyString)
  else if (n =? 10)%nat then String bslash "n"
  else if (n =? 13)%nat then String bslash "r"
  else if (n =? 9)%nat then String bslash "t"
  else if (n =? 8)%nat then String bslash "b"
  else if (n =? 12)%nat then String bslash "f"
  else if (n <? 32)%nat || (128 <=? n)%nat
       then String bslash
              (String "u" (String "0" (String "0"
                 (String (hex_digit (n / 16)) (String (hex_digit (n mod 16)) EmptyString)))))
       else String a EmptyString.

Fixpoint escape (s : string) : string :=
  match s with
  | EmptyString => EmptyString
  | String a s' => escape_char a ++ escape s'
  end.

Definition quote (s : string) : string :=
  String dquote (escape s ++ String dquote EmptyString).

Fixpoint join (sep : string) (l : list string) : string :=
  match l with
  | [] => EmptyString
  | [x] => x
  | x :: l' => x ++ sep ++ join sep l'
  end.

(** The decimals of [r / d], [n] of them, for [0 <= r < d]. *)
Fixpoint decimals (n : nat) (r d : Z) : string :=
  match n with
  | O => EmptyString
  | S n' =>
      if r =? 0 then EmptyString
      else String (ascii_of_nat (48 + Z.to_nat (10 * r / d))) (decimals n' ((10 * r) mod d) d)
  end.

Definition float_repr (q : Q) : string :=
  let n := Qnum q in
  let d := Z.pos (Qden q) in
  let a := Z.abs n in
  let frac := decimals 16 (a mod d) d in
  (if n <? 0 then "-" else "") ++ str_of_Z (a / d) ++ "." ++
  (if String.eqb frac "" then "0" else frac).

Fixpoint dumps (v : value) : string :=
  match v with
  | VNone => "null"
  | VBool true => "true"
  | VBool false => "false"
  | VInt z => str_of_Z z
  | VFloat q => float_repr q
  | VStr s => quote s
  | VList l => "[" ++ join ", " (map dumps l) ++ "]"
  | VDict d =>
      "{" ++ join ", " (map (fun kv => quote (fst kv) ++ ": " ++ dumps (snd kv)) d) ++ "}"
  end.

Definition is_ws (a : ascii) : bool :=
  let n := nat_of_ascii a in
  (n =? 32)%nat || (n =? 9)%nat || (n =? 10)%nat || (n =? 13)%nat.

Fixpoint skip_ws (s : string) : string :=
  match s with
  | String a s' => if is_ws a then skip_ws s' else s
  | EmptyString => s
  end.

Definition is_digit (a : ascii) : bool :=
  let n := nat_of_ascii a in (48 <=? n)%nat && (n <=? 57)%nat.

(** The digits at the front of [s], and the rest. *)
Fixpoint span_digits (s : string) : string * string :=
  match s with
  | String a s' =>
      if is_digit a then let '(ds, r) := span_digits s' in (String a ds, r)
      else (EmptyString, s)
  | EmptyString => (EmptyString, s)
  end.

(** A number literal without exponent. *)
Definition parse_number (s : string) : option (value * string) :=
  let '(neg, s1) :=
    match s with
    | String "-" r => (true, r)
    | _ => (false, s)
    end in
  let '(ip, s2) := span_digits s1 in
  match Z_of_str ip with
  | None => None
  | Some i =>
      match s2 with
      | String "." r =>
          let '(fp, s3) := span_digits r in
          match Z_of_str fp with
          | None => None
          | Some f =>
              let den := Z.to_pos (10 ^ Z.of_nat (String.length fp)) in
              let num := i * Z.pos den + f in
              Some (VFloat ((if neg then - num else num) # den), s3)
          end
      | _ => Some (VInt (if neg then - i else i), s2)
      end
  end.

(** The rest of a string literal after its opening quote. *)
Fixpoint parse_chars (s : string) : option (string * string) :=
  match s with
  | EmptyString => None
  | String a s' =>
      if Ascii.eqb a dquote then Some (EmptyString, s')
      else if Ascii.eqb a bslash then
        match s' with
        | String "u" (String h1 (String h2 (String h3 (String h4 r)))) =>
            match hex_value h1, hex_value h2, hex_value h3, hex_value h4, parse_chars r with
            | Some 0%nat, Some 0%nat, Some x, Some y, Some (t, r') =>
                Some (String (ascii_of_nat (16 * x + y)) t, r')
            | _, _, _, _, _ => None
            end
        | String e r =>
            let c :=
              if Ascii.eqb e "n" then Some (ascii_of_nat 10)
              else if Ascii.eqb e "r" then Some (ascii_of_nat 13)
              else if Ascii.eqb e "t" then Some (ascii_of_nat 9)
              else if Ascii.eqb e "b" then Some (ascii_of_nat 8)
              else if Ascii.eqb e "f" then Some (ascii_of_nat 12)
              else if Ascii.eqb e "/" then Some "/"%char
              else if Ascii.eqb e dquote then Some dquote
              else if Ascii.eqb e bslash then Some bslash
              else None in
            match c, parse_chars r with
            | Some c, Some (t, r') => Some (String c t, r')
            | _, _ => None
            end
        | EmptyString => None
        end
      else
        match parse_chars s' with
        | Some (t, r') => Some (String a t, r')
        | None => None
        end
  end.

Fixpoint parse_value (fuel : nat) (s : string) {struct fuel} : option (value * string) :=
  match fuel with
  | O => None
  | S f =>
      match skip_ws s with
      | EmptyString => None
      | String a r as s0 =>
          if Ascii.eqb a dquote then
            match parse_chars r with
            | Some (t, r') => Some (VStr t, r')
            | None => None
            end
          else if Ascii.eqb a "[" then
            match skip_ws r with
            | String "]" r' => Some (VList [], r')
            | _ => parse_items f r []
            end
          else if Ascii.eqb a "{" then
            match skip_ws r with
            | String "}" r' => Some (VDict [], r')
            | _ => parse_members f r []
            end
          else
            match strip_prefix "null" s0, strip_prefix "true" s0, strip_prefix "false" s0 with
            | Some r', _, _ => Some (VNone, r')
            | _, Some r', _ => Some (VBool true, r')
            | _, _, Some r' => Some (VBool false, r')
            | None, None, None => parse_number s0
            end
      end
  end
with parse_items (fuel : nat) (s : string) (acc : list value) {struct fuel}
  : option (value * string) :=
  match fuel with
  | O => None
  | S f =>
      match parse_value f s with
      | None => None
      | Some (v, r) =>
          match skip_ws r with
          | String "," r' => parse_items f r' (acc ++ [v])
          | String "]" r' => Some (VList (acc ++ [v]), r')
          | _ => None
          end
      end
  end
with parse_members (fuel : nat) (s : string) (acc : list (string * value)) {struct fuel}
  : option (value * string) :=
  match fuel with
  | O => None
  | S f =>
      match skip_ws s with
      | String a r =>
          if Ascii.eqb a dquote then
            match parse_chars r with
            | None => None
            | Some (k, r1) =>
                match skip_ws r1 with
                | String ":" r2 =>
                    match parse_value f r2 with
                    | None => None
                    | Some (v, r3) =>
                        match skip_ws r3 with
                        | String "," r' => parse_members f r' (acc ++ [(k, v)])
                        | String "}" r' => Some (VDict (acc ++ [(k, v)]), r')
                        | _ => None
                        end
                    end
                | _ => None
                end
            end
          else None
      | EmptyString => None
      end
  end.

Definition loads (s : string) : option value :=
  match parse_value (2 * String.length s + 2) s with
  | Some (v, r) =>
      match skip_ws r with
      | EmptyString => Some v
      | _ => None
      end
  | None => None
  end.

#[export] Instance python_json : JsonLib := {
  json_dumps := fun v => Some (dumps v);
  json_loads := loads
}.

End Json.

(** ** Cache layer ([api/db/cache.py]) *)

Module Cache.

(** [class InMemoryCache]: two dictionaries, values and deadlines. *)
Record InMemoryCache := {
  cache : gmap string string;
  expiry : gmap string Q
}.

(** [class UpstashRedisClient].  [__init__] returns before [self.headers]
    is assigned when a credential is missing. *)
Record UpstashRedisClient := {
  base_url : option string;
  token : option string
}.

Inductive client :=
| Upstash (c : UpstashRedisClient)
| InMemory (c : InMemoryCache).

(** The key-value REST service the Upstash client talks to: one entry per
    key, the payload and its deadline when it has one. *)
Record Remote := {
  r_base : string;
  r_token : string;
  r_up : bool;
  r_store : gmap string (string * option Q)
}.

(** Process state the cache functions read and write: the module global
    [redis_client], the two environment variables, the remote service and
    the event-loop clock. *)
Record World := {
  redis_client : option client;
  REDIS_REST_URL : option string;
  REDIS_REST_TOKEN : option string;
  remote : Remote;
  loop_time : Q
}.

Definition with_client (w : World) (c : option client) : World :=
  {| redis_client := c;
     REDIS_REST_URL := REDIS_REST_URL w;
     REDIS_REST_TOKEN := REDIS_REST_TOKEN w;
     remote := remote w;
     loop_time := loop_time w |}.

Definition with_remote (w : World) (r : Remote) : World :=
  {| redis_client := redis_client w;
     REDIS_REST_URL := REDIS_REST_URL w;
     REDIS_REST_TOKEN := REDIS_REST_TOKEN w;
     remote := r;
     loop_time := loop_time w |}.

(** The simulated clock: [t] seconds pass. *)
Definition advance (t : Q) (w : World) : World :=
  {| redis_client := redis_client w;
     REDIS_REST_URL := REDIS_REST_URL w;
     REDIS_REST_TOKEN := REDIS_REST_TOKEN w;
     remote := remote w;
     loop_time := (loop_time w + t)%Q |}.

Definition with_store (r : Remote) (s : gmap string (string * option Q)) : Remote :=
  {| r_base := r_base r; r_token := r_token r; r_up := r_up r; r_store := s |}.

(** *** The remote service *)

Record response := { status : Z; result : value }.

Definition live (now : Q) (e : string * option Q) : bool :=
  match snd e with
  | Some d => negb (Qle_bool d now)
  | None => true
  end.

(** One HTTP GET, as the service answers it.  [None]: the connection
    fails and the client library raises.  A wrong bearer token is refused;
    the path after the base url is split at ["/"] into a command and its
    arguments, [get/{key}], [set/{key}/{value}[/ex/{ttl}]], [del/{key}]
    and [ping]; an entry is gone once its deadline is reached. *)
Definition rest (r : Remote) (now : Q) (url auth : string) : option response * Remote :=
  if negb (r_up r) then (None, r)
  else if negb (String.eqb auth ("Bearer " ++ r_token r))
  then (Some {| status := 401; result := VNone |}, r)
  else
    match strip_prefix (r_base r ++ "/") url with
    | None => (Some {| status := 404; result := VNone |}, r)
    | Some path =>
        match split_char "/" path with
        | [cmd] =>
            if String.eqb cmd "ping"
            then (Some {| status := 200; result := VStr "PONG" |}, r)
            else (Some {| status := 400; result := VNone |}, r)
        | [cmd; k] =>
            if String.eqb cmd "get" then
              match r_store r !! k with
              | Some e =>
                  if live now e
                  then (Some {| status := 200; result := VStr (fst e) |}, r)
                  else (Some {| status := 200; result := VNone |},
                        with_store r (delete k (r_store r)))
              | None => (Some {| status := 200; result := VNone |}, r)
              end
            else if String.eqb cmd "del" then
              match r_store r !! k with
              | Some e =>
                  (Some {| status := 200;
                           result := VInt (if live now e then 1 else 0) |},
                   with_store r (delete k (r_store r)))
              | None => (Some {| status := 200; result := VInt 0 |}, r)
              end
            else (Some {| status := 400; result := VNone |}, r)
        | [cmd; k; v] =>
            if String.eqb cmd "set"
            then (Some {| status := 200; result := VStr "OK" |},
                  with_store r (<[k := (v, None)]> (r_store r)))
            else (Some {| status := 400; result := VNone |}, r)
        | [cmd; k; v; opt; ttl] =>
            if String.eqb cmd "set" && String.eqb opt "ex" then
              match Z_of_str ttl with
              | Some n =>
                  if 0 <? n
                  then (Some {| status := 200; result := VStr "OK" |},
                        with_store r
                          (<[k := (v, Some (now + inject_Z n)%Q)]> (r_store r)))
                  else (Some {| status := 400; result := VNone |}, r)
              | None => (Some {| status := 400; result := VNone |}, r)
              end
            else (Some {| status := 400; result := VNone |}, r)
        | _ => (Some {| status := 400; result := VNone |}, r)
        end
    end.

(** *** [UpstashRedisClient] *)

(** [self.headers], an [AttributeError] ([None]) when [__init__] returned
    early. *)
Definition headers (c : UpstashRedisClient) : option string :=
  if truthy_str (base_url c) && truthy_str (token c)
  then match token c with
       | Some t => Some ("Bearer " ++ t)
       | None => None
       end
  else None.

Definition fmt_opt (o : option string) : string :=
  match o with Some s => s | None => "None" end.

(** [UpstashRedisClient.get]; the outer [None] is a raised exception,
    the inner one Python's [None]. *)
Definition upstash_get (c : UpstashRedisClient) (key : string) (r : Remote) (now : Q)
  : option (option string) * Remote :=
  let url := fmt_opt (base_url c) ++ "/get/" ++ key in
  match headers c with
  | None => (None, r)
  | Some h =>
      match rest r now url h with
      | (None, r') => (None, r')
      | (Some resp, r') =>
          if negb (status resp =? 200) then (Some None, r')
          else match result resp with
               | VStr s => (Some (Some s), r')
               | _ => (Some None, r')
               end
      end
  end.

(** [UpstashRedisClient.set] *)
Definition upstash_set (c : UpstashRedisClient) (key value : string) (ex : Z)
  (r : Remote) (now : Q) : option bool * Remote :=
  let encoded_value := replace_char "/" "_SLASH_" value in
  let url := fmt_opt (base_url c) ++ "/set/" ++ key ++ "/" ++ encoded_value in
  let url := if negb (ex =? 0) then url ++ "/ex/" ++ str_of_Z ex else url in
  match headers c with
  | None => (None, r)
  | Some h =>
      match rest r now url h with
      | (None, r') => (None, r')
      | (Some resp, r') => (Some (status resp =? 200), r')
      end
  end.

(** [UpstashRedisClient.delete] *)
Definition upstash_delete (c : UpstashRedisClient) (key : string) (r : Remote) (now : Q)
  : option Z * Remote :=
  let url := fmt_opt (base_url c) ++ "/del/" ++ key in
  match headers c with
  | None => (None, r)
  | Some h =>
      match rest r now url h with
      | (None, r') => (None, r')
      | (Some resp, r') =>
          if negb (status resp =? 200) then (Some 0, r')
          else match result resp with
               | VInt n => (Some n, r')
               | _ => (None, r')
               end
      end
  end.

(** *** [InMemoryCache] *)

(** [InMemoryCache.get]; [del self.cache[key]] raises [KeyError] when the
    key has a deadline and no payload. *)
Definition mem_get (m : InMemoryCache) (key : string) (current_time : Q)
  : option (option string) * InMemoryCache :=
  match expiry m !! key with
  | Some d =>
      if negb (Qle_bool current_time d) then
        match cache m !! key with
        | Some _ =>
            (Some None,
             {| cache := delete key (cache m); expiry := delete key (expiry m) |})
        | None => (None, m)
        end
      else (Some (cache m !! key), m)
  | None => (Some (cache m !! key), m)
  end.

(** [InMemoryCache.set]: the deadline is written only when [ex] is truthy. *)
Definition mem_set (m : InMemoryCache) (key value : string) (ex : Z) (current_time : Q)
  : bool * InMemoryCache :=
  let c := <[key := value]> (cache m) in
  if negb (ex =? 0)
  then (true, {| cache := c;
                 expiry := <[key := (current_time + inject_Z ex)%Q]> (expiry m) |})
  else (true, {| cache := c; expiry := expiry m |}).

(** [InMemoryCache.delete] *)
Definition mem_delete (m : InMemoryCache) (key : string) : Z * InMemoryCache :=
  match cache m !! key with
  | Some _ => (1, {| cache := delete key (cache m); expiry := delete key (expiry m) |})
  | None => (0, m)
  end.

(** *** Module functions *)

(** [get_redis_client]: the constructor call always yields an object, so
    the [client is None] branch that would install [InMemoryCache] is not
    taken; an in-process cache is used when one is already installed in
    [redis_client]. *)
Definition get_redis_client (w : World) : client * World :=
  match redis_client w with
  | Some c => (c, w)
  | None =>
      let c := Upstash {| base_url := REDIS_REST_URL w; token := REDIS_REST_TOKEN w |} in
      (c, with_client w (Some c))
  end.

Definition client_get (c : client) (key : string) (w : World)
  : option (option string) * World :=
  match c with
  | Upstash u =>
      let '(res, r') := upstash_get u key (remote w) (loop_time w) in
      (res, with_remote w r')
  | InMemory m =>
      let '(res, m') := mem_get m key (loop_time w) in
      (res, with_client w (Some (InMemory m')))
  end.

Definition client_set (c : client) (key value : string) (ex : Z) (w : World)
  : option bool * World :=
  match c with
  | Upstash u =>
      let '(res, r') := upstash_set u key value ex (remote w) (loop_time w) in
      (res, with_remote w r')
  | InMemory m =>
      let '(res, m') := mem_set m key value ex (loop_time w) in
      (Some res, with_client w (Some (InMemory m')))
  end.

Definition client_delete (c : client) (key : string) (w : World)
  : option Z * World :=
  match c with
  | Upstash u =>
      let '(res, r') := upstash_delete u key (remote w) (loop_time w) in
      (res, with_remote w r')
  | InMemory m =>
      let '(res, m') := mem_delete m key in
      (Some res, with_client w (Some (InMemory m')))
  end.

Section WithJson.
Context `{JsonLib}.

(** [get_cache]: [VNone] is Python's [None]. *)
Definition get_cache (key : string) (w : World) : value * World :=
  let '(c, w1) := get_redis_client w in
  match client_get c key w1 with
  | (None, w2) => (VNone, w2)
  | (Some cached_data, w2) =>
      if truthy_str cached_data then
        match cached_data with
        | Some s =>
            match json_loads s with
            | Some v => (v, w2)
            | None => (VStr s, w2)
            end
        | None => (VNone, w2)
        end
      else (VNone, w2)
  end.

(** [set_cache] *)
Definition set_cache (key : string) (v : value) (expire : Z) (w : World)
  : bool * World :=
  let '(c, w1) := get_redis_client w in
  let serialized_value :=
    match v with
    | VStr s => Some s
    | _ => json_dumps v
    end in
  match serialized_value with
  | None => (false, w1)
  | Some s =>
      match client_set c key s expire w1 with
      | (None, w2) => (false, w2)
      | (Some b, w2) => (b, w2)
      end
  end.

(** [delete_cache] *)
Definition delete_cache (key : string) (w : World) : bool * World :=
  let '(c, w1) := get_redis_client w in
  match client_delete c key w1 with
  | (None, w2) => (false, w2)
  | (Some n, w2) => (0 <? n, w2)
  end.

(** The payload [set_cache] stores for a value. *)
Definition serialize (v : value) : option string :=
  match v with
  | VStr s => Some s
  | _ => json_dumps v
  end.

(** What [get_cache] makes of a non-empty payload. *)
Definition deserialize (s : string) : value :=
  match json_loads s with
  | Some v => v
  | None => VStr s
  end.

(** The serialization gives [v] back: its payload is not empty and
    decodes to [v]. *)
Definition round_trips (v : value) : Prop :=
  exists s, serialize v = Some s /\ s <> "" /\ deserialize s = v.

End WithJson.

(** Every key of [self.expiry] is a key of [self.cache]. *)
Definition mem_ok (m : InMemoryCache) : Prop := dom (expiry m) ⊆ dom (cache m).

(** The client the process uses, or would create, has no [headers]: an
    environment variable is missing or empty. *)
Definition uncredentialed (w : World) : Prop :=
  match redis_client w with
  | Some (Upstash c) => headers c = None
  | Some (InMemory _) => False
  | None => truthy_str (REDIS_REST_URL w) && truthy_str (REDIS_REST_TOKEN w) = false
  end.

(** The process talks to the remote service. *)
Definition remote_backed (w : World) : Prop :=
  match redis_client w with
  | Some (Upstash _) => True
  | Some (InMemory _) => False
  | None => True
  end.

(** The remote cache cannot be used: a credential is missing, or the
    service cannot be reached. *)
Definition cache_off (w : World) : Prop :=
  uncredentialed w \/ (remote_backed w /\ r_up (remote w) = false).

End Cache.

(** ** Provider aggregator ([api/services/news_fetcher.py]) *)

Module NewsFetcher.

Record article := {
  id : string;
  title : string;
  url : string;
  source : string;
  publishedAt : string;
  imageUrl : string;
  summary : string;
  topic : string;
  readTime : string
}.

Record counter := { calls : Z; limit : Z }.

(** The module global [api_usage] *)
Record usage := {
  u_newsapi : counter;
  u_gnews : counter;
  u_nytimes : counter;
  u_duckduckgo : counter
}.

Definition bump (c : counter) : counter := {| calls := calls c + 1; limit := limit c |}.

(** The providers: what each endpoint answers to a request, already in
    the article shape (an adapter's loop over the items), and empty where
    the request fails. *)
Record Net := {
  newsapi_everything : string -> Z -> Z -> list article * Z;
  newsapi_top_headlines : option string -> Z -> Z -> list article * Z;
  gnews_search : string -> Z -> list article;
  gnews_top_headlines : option string -> Z -> list article;
  nytimes_article_search : option string -> list article;
  nytimes_top_stories : string -> list article;
  duckduckgo_news : string -> list article
}.

Record World := {
  api_usage : usage;
  newsapi : bool;
  GNEWS_API_KEY : string;
  NEWYORK_TIMES_API_KEY : string;
  net : Net;
  now : Z
}.

Definition set_usage (w : World) (u : usage) : World :=
  {| api_usage := u; newsapi := newsapi w; GNEWS_API_KEY := GNEWS_API_KEY w;
     NEWYORK_TIMES_API_KEY := NEWYORK_TIMES_API_KEY w; net := net w; now := now w |}.

Definition below_limit (c : counter) : bool := calls c <? limit c.

Definition nonempty (s : string) : bool := negb (String.eqb s "").

Definition NEWS_CATEGORIES : list string :=
  ["business"; "entertainment"; "general"; "health"; "science"; "sports"; "technology"].

(** *** Adapters *)

Definition fetch_from_duckduckgo (query : string) (max_results : Z) (w : World)
  : list article * World :=
  let u := api_usage w in
  let w := set_usage w {| u_newsapi := u_newsapi u; u_gnews := u_gnews u;
                          u_nytimes := u_nytimes u;
                          u_duckduckgo := bump (u_duckduckgo u) |} in
  (slice (duckduckgo_news (net w) query) 0 max_results, w).

Definition bump_gnews (w : World) : World :=
  let u := api_usage w in
  set_usage w {| u_newsapi := u_newsapi u; u_gnews := bump (u_gnews u);
                 u_nytimes := u_nytimes u; u_duckduckgo := u_duckduckgo u |}.

Definition bump_nytimes (w : World) : World :=
  let u := api_usage w in
  set_usage w {| u_newsapi := u_newsapi u; u_gnews := u_gnews u;
                 u_nytimes := bump (u_nytimes u); u_duckduckgo := u_duckduckgo u |}.

Definition bump_newsapi (w : World) : World :=
  let u := api_usage w in
  set_usage w {| u_newsapi := bump (u_newsapi u); u_gnews := u_gnews u;
                 u_nytimes := u_nytimes u; u_duckduckgo := u_duckduckgo u |}.

(** [fetch_from_gnews] on its search endpoint ([is_headline] false) *)
Definition fetch_from_gnews (query : option string) (max_results : Z) (w : World)
  : list article * World :=
  if negb (nonempty (GNEWS_API_KEY w)) then ([], w)
  else
    let w := bump_gnews w in
    let q := match query with Some q => if nonempty q then q else "news" | None => "news" end in
    (slice (gnews_search (net w) q max_results) 0 max_results, w).

Definition valid_sections : list string :=
  ["arts"; "automobiles"; "books"; "business"; "fashion"; "food";
   "health"; "home"; "insider"; "magazine"; "movies"; "nyregion";
   "obituaries"; "opinion"; "politics"; "realestate"; "science";
   "sports"; "sundayreview"; "technology"; "theater"; "t-magazine";
   "travel"; "upshot"; "us"; "world"].

(** [fetch_from_nytimes] *)
Definition fetch_from_nytimes (query section : option string) (max_results : Z)
  (is_top_stories : bool) (w : World) : list article * World :=
  if negb (nonempty (NEWYORK_TIMES_API_KEY w)) then ([], w)
  else
    let w := bump_nytimes w in
    if is_top_stories then
      let section := match section with
                     | Some x => if nonempty x then x else "home"
                     | None => "home"
                     end in
      let section := if existsb (String.eqb (lower section)) valid_sections
                     then section else "home" in
      (slice (nytimes_top_stories (net w) (lower section)) 0 max_results, w)
    else
      let q := match query with Some q => if nonempty q then Some q else None | None => None end in
      (slice (nytimes_article_search (net w) q) 0 max_results, w).

(** [fetch_from_newsapi] on its search endpoint *)
Definition fetch_from_newsapi (query : string) (page page_size : Z) (w : World)
  : (list article * Z) * World :=
  if negb (newsapi w) then (([], 0), w)
  else
    let w := bump_newsapi w in
    (newsapi_everything (net w) (if nonempty query then query else "news") page page_size, w).

Definition fetch_trending_from_newsapi (category : option string) (page page_size : Z)
  (w : World) : (list article * Z) * World :=
  if negb (newsapi w) then (([], 0), w)
  else
    let w := bump_newsapi w in
    let c := match category with
             | Some c => if nonempty c && existsb (String.eqb (lower c)) NEWS_CATEGORIES
                         then Some (lower c) else None
             | None => None
             end in
    (newsapi_top_headlines (net w) c page page_size, w).

Definition fetch_trending_from_gnews (category : option string) (max_results : Z)
  (w : World) : list article * World :=
  if negb (nonempty (GNEWS_API_KEY w)) then ([], w)
  else
    let w := bump_gnews w in
    let c := match category with
             | Some c => if nonempty c && existsb (String.eqb (lower c)) NEWS_CATEGORIES
                         then Some (lower c) else None
             | None => None
             end in
    (slice (gnews_top_headlines (net w) c max_results) 0 max_results, w).

(** *** The sample set *)

Section Demo.
Context `{Datetime}.

Definition demo_article (i t u s : string) (age : Z) (img sm tp rt : string) (now : Z)
  : article :=
  {| id := i; title := t; url := u; source := s;
     publishedAt := isoformat (now - age);
     imageUrl := "https://via.placeholder.com/720x480?text=" ++ img;
     summary := sm; topic := tp; readTime := rt |}.

Definition demo_articles (now : Z) : list article :=
  [ demo_article "1001" "AI Breakthrough: New Model Achieves Human-Level Understanding"
      "https://example.com/ai-breakthrough" "Tech Daily" 0 "AI+Breakthrough"
      "Researchers have developed a new AI model that achieves unprecedented levels of language understanding and reasoning, potentially revolutionizing how machines learn from data."
      "technology" "4 min read" now;
    demo_article "1002" "Global Climate Summit Reaches Historic Agreement"
      "https://example.com/climate-summit" "World News" (5 * 3600) "Climate+Summit"
      "Leaders from 195 countries have agreed to accelerate carbon emission reduction targets, pledging to cut emissions by 50% by 2030 compared to 2005 levels."
      "science" "6 min read" now;
    demo_article "1003" "New Study Reveals Benefits of Mediterranean Diet"
      "https://example.com/med-diet-study" "Health Reports" 86400 "Mediterranean+Diet"
      "A comprehensive 10-year study confirms that adhering to a Mediterranean diet can significantly reduce the risk of heart disease and improve longevity."
      "health" "3 min read" now;
    demo_article "1004" "Space Tourism Company Announces First Civilian Mission to Mars"
      "https://example.com/mars-tourism" "Space Frontier" (2 * 86400) "Mars+Mission"
      "A leading space tourism company has unveiled plans for the first civilian mission to Mars, scheduled for 2028, with tickets priced at $50 million per person."
      "science" "5 min read" now;
    demo_article "1005" "Major Cybersecurity Breach Affects Millions"
      "https://example.com/cyber-breach" "Tech Security" (12 * 3600) "Cybersecurity"
      "A sophisticated cyber attack has compromised personal data of over 10 million users across multiple platforms, raising concerns about digital security measures."
      "technology" "4 min read" now;
    demo_article "1006" "Renewable Energy Surpasses Fossil Fuels for First Time"
      "https://example.com/renewable-milestone" "Energy Today" (3 * 86400) "Renewable+Energy"
      "In a historic shift, renewable energy sources have generated more electricity than fossil fuels globally for the first time, marking a significant milestone in the transition to clean energy."
      "science" "5 min read" now;
    demo_article "1007" "Major Sports League Announces Expansion Teams"
      "https://example.com/sports-expansion" "Sports Network" (86400 + 8 * 3600) "Sports+League"
      "A major professional sports league has announced three new expansion teams to begin play in the 2025 season, bringing the total number of franchises to 35."
      "sports" "3 min read" now;
    demo_article "1008" "New Breakthrough in Quantum Computing Announced"
      "https://example.com/quantum-breakthrough" "Science Daily" (18 * 3600) "Quantum+Computing"
      "Scientists have achieved a new milestone in quantum computing, demonstrating a 1000-qubit processor capable of solving complex problems that would take classical computers millennia."
      "technology" "6 min read" now;
    demo_article "1009" "Global Economic Forecast Shows Strong Recovery"
      "https://example.com/economic-forecast" "Financial Times" (4 * 86400) "Economic+Forecast"
      "Leading economists predict a robust global economic recovery in the coming year, with growth rates expected to exceed pre-pandemic levels in most developed nations."
      "business" "4 min read" now;
    demo_article "1010" "Archaeologists Discover Ancient Lost City"
      "https://example.com/archaeological-discovery" "History Channel" (5 * 86400)
      "Archaeological+Discovery"
      "An international team of archaeologists has uncovered the ruins of a previously unknown ancient city dating back over 4,000 years, potentially rewriting our understanding of early civilization."
      "general" "5 min read" now ].

Record envelope := {
  articles : list article;
  totalResults : Z;
  page : Z;
  pageSize : Z
}.

(** [get_demo_news] *)
Definition get_demo_news (query category : option string) (page page_size : Z) (now : Z)
  : envelope :=
  let filtered_articles := demo_articles now in
  let filtered_articles :=
    match query with
    | Some q =>
        if nonempty q then
          List.filter (fun a => contains (lower q) (lower (title a))
                                || contains (lower q) (lower (summary a)))
                      filtered_articles
        else filtered_articles
    | None => filtered_articles
    end in
  let filtered_articles :=
    match category with
    | Some c =>
        if nonempty c then
          List.filter (fun a => String.eqb (lower (topic a)) (lower c)) filtered_articles
        else filtered_articles
    | None => filtered_articles
    end in
  let start_idx := (page - 1) * page_size in
  let end_idx := start_idx + page_size in
  {| articles := slice filtered_articles start_idx end_idx;
     totalResults := Z.of_nat (length filtered_articles);
     page := page;
     pageSize := page_size |}.

(** *** The two entry points *)

(** The deduplication loop with its set [seen_urls] *)
Fixpoint unique_by_url (seen_urls : gset string) (l : list article) : list article :=
  match l with
  | [] => []
  | a :: l' =>
      if decide (url a ∈ seen_urls) then unique_by_url seen_urls l'
      else a :: unique_by_url ({[url a]} ∪ seen_urls) l'
  end.

(** The tail both entry points share: cut to the page size, then
    deduplicate. *)
Definition paginate_unique (results : list article) (page_size : Z) : list article :=
  let end_idx := Z.min page_size (Z.of_nat (length results)) in
  unique_by_url ∅ (slice results 0 end_idx).

Definition len (l : list article) : Z := Z.of_nat (length l).

(** The provider calls of [fetch_news_by_query], in priority order:
    [results], [total_results] and the world they leave.  The second
    positional argument of [fetch_from_gnews] and [fetch_from_nytimes] is
    not [max_results], which keeps its default 10. *)
Definition gather_by_query (query : string) (page page_size : Z) (w : World)
  : list article * Z * World :=
  let use_newsapi := below_limit (u_newsapi (api_usage w)) in
  let use_gnews := below_limit (u_gnews (api_usage w)) in
  let use_nytimes := below_limit (u_nytimes (api_usage w)) in
  let use_duckduckgo := below_limit (u_duckduckgo (api_usage w)) in
  let '(results, total_results, w) :=
    if use_newsapi && newsapi w then
      let '((l, t), w) := fetch_from_newsapi query page page_size w in (l, t, w)
    else ([], 0, w) in
  let '(results, total_results, w) :=
    if (len results <? page_size) && use_gnews && nonempty (GNEWS_API_KEY w) then
      let '(l, w) := fetch_from_gnews (Some query) 10 w in
      ((results ++ l)%list, total_results + len l, w)
    else (results, total_results, w) in
  let '(results, total_results, w) :=
    if (len results <? page_size) && use_nytimes && nonempty (NEWYORK_TIMES_API_KEY w) then
      let '(l, w) := fetch_from_nytimes (Some query) None 10 false w in
      ((results ++ l)%list, total_results + len l, w)
    else (results, total_results, w) in
  if (len results <? page_size) && use_duckduckgo then
    let '(l, w) := fetch_from_duckduckgo query (page_size - len results) w in
    ((results ++ l)%list, total_results + len l, w)
  else (results, total_results, w).

Definition fetch_news_by_query (query : string) (page page_size : Z) (w : World)
  : envelope * World :=
  let '(results, total_results, w') := gather_by_query query page page_size w in
  match results with
  | [] => (get_demo_news (Some query) None page page_size (now w'), w')
  | _ =>
      ({| articles := paginate_unique results page_size;
          totalResults := total_results;
          page := page;
          pageSize := page_size |}, w')
  end.

Definition nyt_section (category : option string) : string :=
  match category with
  | Some c =>
      if String.eqb c "business" then "business"
      else if String.eqb c "technology" then "technology"
      else if String.eqb c "entertainment" then "arts"
      else if String.eqb c "sports" then "sports"
      else if String.eqb c "science" then "science"
      else if String.eqb c "health" then "health"
      else "home"
  | None => "home"
  end.

(** The provider calls of [fetch_trending_news] *)
Definition gather_trending (category : option string) (page page_size : Z) (w : World)
  : list article * Z * World :=
  let use_newsapi := below_limit (u_newsapi (api_usage w)) in
  let use_gnews := below_limit (u_gnews (api_usage w)) in
  let use_nytimes := below_limit (u_nytimes (api_usage w)) in
  let '(results, total_results, w) :=
    if use_newsapi && newsapi w then
      let '((l, t), w) := fetch_trending_from_newsapi category page page_size w in (l, t, w)
    else ([], 0, w) in
  let '(results, total_results, w) :=
    if (len results <? page_size) && use_gnews && nonempty (GNEWS_API_KEY w) then
      let '(l, w) := fetch_trending_from_gnews category (page_size - len results) w in
      ((results ++ l)%list, total_results + len l, w)
    else (results, total_results, w) in
  if (len results <? page_size) && use_nytimes && nonempty (NEWYORK_TIMES_API_KEY w) then
    let '(l, w) := fetch_from_nytimes None (Some (nyt_section category))
                     (page_size - len results) true w in
    ((results ++ l)%list, total_results + len l, w)
  else (results, total_results, w).

Definition fetch_trending_news (category : option string) (page page_size : Z) (w : World)
  : envelope * World :=
  let '(results, total_results, w') := gather_trending category page page_size w in
  match results with
  | [] => (get_demo_news None category page page_size (now w'), w')
  | _ =>
      ({| articles := paginate_unique results page_size;
          totalResults := total_results;
          page := page;
          pageSize := page_size |}, w')
  end.




End Demo.

(** *** [get_read_time] *)

(** [round(x)] to an integer: the nearest one, and of two equally near
    ones the even one. *)
Definition py_round (x : Q) : Z :=
  let n := Qnum x in
  let d := Z.pos (Qden x) in
  let q := n / d in
  let r := n mod d in
  if 2 * r <? d then q
  else if d <? 2 * r then q + 1
  else if Z.even q then q else q + 1.

(** The number of minutes in the label *)
Definition read_minutes (content_length : Z) : Z :=
  let words := (inject_Z content_length / 6)%Q in
  let minutes := py_round (words / 225) in
  Z.max 1 minutes.

Definition get_read_time (content_length : Z) : string :=
  str_of_Z (read_minutes content_length) ++ " min read".

(** *** What the statements below speak of *)

(** How one call may move a quota counter: the limit stays, the count
    grows by one at most, and not at all once it has reached the limit. *)
Definition counter_step (c c' : counter) : Prop :=
  limit c' = limit c /\
  calls c <= calls c' <= calls c + 1 /\
  (limit c <= calls c -> calls c' = calls c).

(** Every counter of [api_usage] makes such a step between two worlds. *)
Definition steps (w w' : World) : Prop :=
  counter_step (u_newsapi (api_usage w)) (u_newsapi (api_usage w')) /\
  counter_step (u_gnews (api_usage w)) (u_gnews (api_usage w')) /\
  counter_step (u_nytimes (api_usage w)) (u_nytimes (api_usage w')) /\
  counter_step (u_duckduckgo (api_usage w)) (u_duckduckgo (api_usage w')).

(** The filter of [get_demo_news] on one article *)
Definition demo_match (query category : option string) (a : article) : bool :=
  (match query with
   | Some q => if nonempty q
               then contains (lower q) (lower (title a))
                    || contains (lower q) (lower (summary a))
               else true
   | None => true
   end)
  && (match category with
      | Some c => if nonempty c then String.eqb (lower (topic a)) (lower c) else true
      | None => true
      end).

(** A provider is not asked: it is not configured, or its counter has
    reached the limit. *)
Definition newsapi_idle (w : World) : Prop :=
  newsapi w = false \/ below_limit (u_newsapi (api_usage w)) = false.

Definition gnews_idle (w : World) : Prop :=
  GNEWS_API_KEY w = "" \/ below_limit (u_gnews (api_usage w)) = false.

Definition nytimes_idle (w : World) : Prop :=
  NEWYORK_TIMES_API_KEY w = "" \/ below_limit (u_nytimes (api_usage w)) = false.

Definition duckduckgo_idle (w : World) : Prop :=
  below_limit (u_duckduckgo (api_usage w)) = false.

End NewsFetcher.

(** ** Datastore

    The three tables of [api/db/init_db.py] as lists of rows in insertion
    order.  [ORDER BY] is a stable sort of the rows in table order, so
    rows with equal keys keep their table order; a [NULL] sorts as larger
    than every value. *)

Module Db.

Record article_row := {
  a_id : string;
  a_title : string;
  a_url : string;
  a_source : option string;
  a_published_at : option Z;
  a_content : option string;
  a_summary : option string;
  a_topic : option string;
  a_image_url : option string;
  a_created_at : option Z
}.

Record embedding_row := {
  e_article_id : string;
  e_embedding : option (list Q);
  e_updated_at : Z
}.

Record interaction_row := {
  i_id : string;
  i_user_id : string;
  i_article_id : string;
  i_interaction_type : string;
  i_timestamp : Z;
  i_time_spent_seconds : option Q;
  i_scroll_percentage : option Q;
  i_source_page : option string
}.

(** [db_up = false]: every statement raises. *)
Record DB := {
  articles : list article_row;
  article_embeddings : list embedding_row;
  user_interactions : list interaction_row;
  db_up : bool
}.

(** Stable insertion sort: [before y x] says that [y] has to stay in
    front of [x]. *)
Fixpoint insert_by {A} (before : A -> A -> bool) (x : A) (l : list A) : list A :=
  match l with
  | [] => [x]
  | y :: l' => if before y x then y :: insert_by before x l' else x :: y :: l'
  end.

Definition sort_by {A} (before : A -> A -> bool) (l : list A) : list A :=
  fold_right (insert_by before) [] l.

(** [a > b] *)
Definition Qgtb (a b : Q) : bool := negb (Qle_bool a b).

(** [a > b] on a nullable timestamp, [NULL] the largest. *)
Definition ts_gtb (a b : option Z) : bool :=
  match a, b with
  | None, Some _ => true
  | Some x, Some y => y <? x
  | _, None => false
  end.

(** [SELECT DISTINCT]: the first occurrence of every string is kept. *)
Fixpoint distinct (l : list string) : list string :=
  match l with
  | [] => []
  | x :: l' => x :: List.filter (fun y => negb (String.eqb x y)) (distinct l')
  end.

Definition mem (x : string) (l : list string) : bool :=
  existsb (String.eqb x) l.

(** [a] may stand in front of [b] in a descending order of [key]. *)
Definition desc {A} (key : A -> Q) (a b : A) : Prop := (key b <= key a)%Q.

(** [LIMIT n]: a negative [n] is an error of the statement. *)
Definition limit {A} (n : Z) (l : list A) : option (list A) :=
  if n <? 0 then None else Some (firstn (Z.to_nat n) l).

Definition find_article (d : DB) (aid : string) : option article_row :=
  find (fun a => String.eqb (a_id a) aid) (articles d).

End Db.

(** ** Recommendation engine ([api/services/recommendation.py]) *)

Module Recommendation.

Import Db.

(** What the engine calls and does not implement: the distance operator
    [<=>] of the vector extension, the two sentence-embedding models
    ([true]: the fast one) and the source of [uuid.uuid4]. *)
Class Externals := {
  cosine_distance : list Q -> list Q -> Q;
  encode : bool -> string -> list Q;
  uuid4 : nat -> string
}.

(** The process and its surroundings: the cache world, the datastore, the
    wall clock in seconds, the module global [models] (which of the two
    entries is loaded), whether loading a model succeeds, and how many
    uuids have been drawn. *)
Record World := {
  cw : Cache.World;
  db : DB;
  wall : Z;
  models_default : bool;
  models_fast : bool;
  loadable_default : bool;
  loadable_fast : bool;
  uuid_drawn : nat
}.

Definition set_cw (w : World) (c : Cache.World) : World :=
  {| cw := c; db := db w; wall := wall w;
     models_default := models_default w; models_fast := models_fast w;
     loadable_default := loadable_default w; loadable_fast := loadable_fast w;
     uuid_drawn := uuid_drawn w |}.

Definition set_db (w : World) (d : DB) : World :=
  {| cw := cw w; db := d; wall := wall w;
     models_default := models_default w; models_fast := models_fast w;
     loadable_default := loadable_default w; loadable_fast := loadable_fast w;
     uuid_drawn := uuid_drawn w |}.

Definition set_models (w : World) (d f : bool) : World :=
  {| cw := cw w; db := db w; wall := wall w;
     models_default := d; models_fast := f;
     loadable_default := loadable_default w; loadable_fast := loadable_fast w;
     uuid_drawn := uuid_drawn w |}.

Definition draw_uuid (w : World) : World :=
  {| cw := cw w; db := db w; wall := wall w;
     models_default := models_default w; models_fast := models_fast w;
     loadable_default := loadable_default w; loadable_fast := loadable_fast w;
     uuid_drawn := S (uuid_drawn w) |}.

Section Engine.
Context `{JsonLib} `{Datetime} `{Externals}.

(** [get_cache] and [set_cache] on the engine's world. *)
Definition get_cache (key : string) (w : World) : value * World :=
  let '(v, c) := Cache.get_cache key (cw w) in (v, set_cw w c).

Definition set_cache (key : string) (v : value) (expire : Z) (w : World) : World :=
  let '(_, c) := Cache.set_cache key v expire (cw w) in set_cw w c.

(** *** Rows as dictionaries *)

Definition opt_str (o : option string) : value :=
  match o with Some s => VStr s | None => VNone end.

(** A [datetime] column after [value.isoformat()]. *)
Definition opt_time (o : option Z) : value :=
  match o with Some t => VStr (isoformat t) | None => VNone end.

(** The columns of [a.*] in table order. *)
Definition article_dict (a : article_row) : list (string * value) :=
  [ ("id", VStr (a_id a));
    ("title", VStr (a_title a));
    ("url", VStr (a_url a));
    ("source", opt_str (a_source a));
    ("published_at", opt_time (a_published_at a));
    ("content", opt_str (a_content a));
    ("summary", opt_str (a_summary a));
    ("topic", opt_str (a_topic a));
    ("image_url", opt_str (a_image_url a));
    ("created_at", opt_time (a_created_at a)) ].

(** [str(x)] inside an f-string for an optional string. *)
Definition fmt (o : option string) : string :=
  match o with Some s => s | None => "None" end.

(** *** [initialize_models] with its defaults *)
Definition initialize_models (w : World) : World :=
  if models_default w then w
  else if loadable_default w
       then set_models w true (loadable_fast w)
       else w.

(** *** [record_user_interaction] *)

(** The [INSERT]: the primary key has to be fresh and the article has to
    exist (foreign key). *)
Definition insert_interaction (d : DB) (r : interaction_row) : option DB :=
  if negb (db_up d) then None
  else if existsb (fun x => String.eqb (i_id x) (i_id r)) (user_interactions d) then None
  else match find_article d (i_article_id r) with
       | None => None
       | Some _ =>
           Some {| articles := articles d;
                   article_embeddings := article_embeddings d;
                   user_interactions := user_interactions d ++ [r];
                   db_up := db_up d |}
       end.

Definition record_user_interaction (user_id article_id interaction_type : string)
  (time_spent scroll_percentage : option Q) (source_page : option string)
  (w : World) : bool * World :=
  let interaction_id := uuid4 (uuid_drawn w) in
  let w := draw_uuid w in
  let row := {| i_id := interaction_id;
                i_user_id := user_id;
                i_article_id := article_id;
                i_interaction_type := interaction_type;
                i_timestamp := wall w;
                i_time_spent_seconds := time_spent;
                i_scroll_percentage := scroll_percentage;
                i_source_page := source_page |} in
  match insert_interaction (db w) row with
  | None => (false, w)
  | Some d =>
      let w := set_db w d in
      (* Invalidate any cached recommendations for this user *)
      let '(_, w) := get_cache ("recommendations:user:" ++ user_id) w in
      (true, w)
  end.

(** *** [compute_article_embedding] *)

(** [torch.tensor(v)] on a cached list of numbers; anything else raises. *)
Definition number_of (v : value) : option Q :=
  match v with
  | VFloat q => Some q
  | VInt z => Some (inject_Z z)
  | _ => None
  end.

Fixpoint numbers_of (l : list value) : option (list Q) :=
  match l with
  | [] => Some []
  | v :: l' =>
      match number_of v, numbers_of l' with
      | Some q, Some qs => Some (q :: qs)
      | _, _ => None
      end
  end.

Definition tensor_of (v : value) : option (list Q) :=
  match v with
  | VList l => numbers_of l
  | _ => None
  end.

(** [embedding.tolist()] *)
Definition tolist (e : list Q) : value := VList (map VFloat e).

(** [INSERT ... ON CONFLICT (article_id) DO UPDATE] *)
Fixpoint upsert_embedding (aid : string) (e : list Q) (now : Z)
  (rows : list embedding_row) : list embedding_row :=
  match rows with
  | [] => [ {| e_article_id := aid; e_embedding := Some e; e_updated_at := now |} ]
  | r :: rows' =>
      if String.eqb (e_article_id r) aid
      then {| e_article_id := aid; e_embedding := Some e; e_updated_at := now |} :: rows'
      else r :: upsert_embedding aid e now rows'
  end.

Definition store_embedding (d : DB) (aid : string) (e : list Q) (now : Z) : DB :=
  {| articles := articles d;
     article_embeddings := upsert_embedding aid e now (article_embeddings d);
     user_interactions := user_interactions d;
     db_up := db_up d |}.

(** The outer [None] is the exception of [torch.tensor] on the cached
    value, raised before the [try]; the inner one is Python's [None]. *)
Definition compute_article_embedding (article_id : string) (use_fast_model : bool)
  (w : World) : option (option (list Q)) * World :=
  let cache_key := "embedding:" ++ article_id in
  let '(cached_embedding, w) := get_cache cache_key w in
  if truthy cached_embedding then (option_map Some (tensor_of cached_embedding), w)
  else if negb (db_up (db w)) then (Some None, w)
  else
    let stored :=
      match find (fun r => String.eqb (e_article_id r) article_id)
                 (article_embeddings (db w)) with
      | Some r =>
          match e_embedding r with
          | Some (x :: l) => Some (x :: l)
          | _ => None
          end
      | None => None
      end in
    match stored with
    | Some embedding_list =>
        let w := set_cache cache_key (tolist embedding_list) 3600 w in
        (Some (Some embedding_list), w)
    | None =>
        let w := initialize_models w in
        match find_article (db w) article_id with
        | None => (Some None, w)
        | Some article =>
            let text := a_title article ++ " " ++
                        (match a_summary article with Some s => s | None => "" end) in
            let loaded := if use_fast_model then models_fast w else models_default w in
            if negb loaded then (Some None, w)
            else
              let embedding := encode use_fast_model text in
              let w := set_db w (store_embedding (db w) article_id embedding (wall w)) in
              let w := set_cache cache_key (tolist embedding) 3600 w in
              (Some (Some embedding), w)
        end
    end.

(** *** [content_based_filtering] *)

(** [a JOIN e ON a.id = e.article_id] *)
Definition join_embeddings (d : DB) : list (article_row * embedding_row) :=
  flat_map (fun a =>
    map (fun e => (a, e))
        (List.filter (fun e => String.eqb (a_id a) (e_article_id e))
                     (article_embeddings d)))
    (articles d).

(** [e.embedding <=> :target_embedding], [NULL] on a [NULL] vector. *)
Definition distance_to (target : list Q) (r : article_row * embedding_row) : option Q :=
  match e_embedding (snd r) with
  | Some e => Some (cosine_distance e target)
  | None => None
  end.

(** Ascending order of a nullable distance, [NULL] last. *)
Definition dist_ltb (x y : option Q) : bool :=
  match x, y with
  | Some a, Some b => Qgtb b a
  | Some _, None => true
  | None, _ => false
  end.

(** The similarity query: the rows and their [similarity_score]. *)
Definition similar_articles (d : DB) (target : list Q) (article_id : string)
  (max_results : Z) : option (list (article_row * option Q)) :=
  let rows := List.filter (fun r => negb (String.eqb (a_id (fst r)) article_id))
                          (join_embeddings d) in
  let ordered := sort_by (fun y x => dist_ltb (distance_to target y) (distance_to target x))
                         rows in
  match limit max_results ordered with
  | None => None
  | Some rows =>
      Some (map (fun r => (fst r, option_map (fun dist => 1 - dist)%Q (distance_to target r)))
                rows)
  end.

Definition scored_dict (r : article_row * option Q) : value :=
  VDict (article_dict (fst r) ++
         [("similarity_score",
           match snd r with Some q => VFloat q | None => VNone end)]).

Definition content_key (article_id : string) (max_results : Z) : string :=
  "content_recommendations:" ++ article_id ++ ":" ++ str_of_Z max_results.

(** The function below its cache check *)
Definition content_based_compute (article_id : string) (max_results : Z)
  (w : World) : value * World :=
  let cache_key := content_key article_id max_results in
  match compute_article_embedding article_id false w with
  | (None, w) => (VList [], w)
  | (Some None, w) => (VList [], w)
  | (Some (Some target_embedding), w) =>
      if negb (db_up (db w)) then (VList [], w)
      else
        match similar_articles (db w) target_embedding article_id max_results with
        | None => (VList [], w)
        | Some rows =>
            let recommendations := VList (map scored_dict rows) in
            let w := set_cache cache_key recommendations 3600 w in
            (recommendations, w)
        end
  end.

Definition content_based_filtering (article_id : string) (max_results : Z)
  (w : World) : value * World :=
  let cache_key := content_key article_id max_results in
  let '(cached_results, w) := get_cache cache_key w in
  if truthy cached_results then (cached_results, w)
  else content_based_compute article_id max_results w.

(** *** [collaborative_filtering] *)

(** [SELECT article_id FROM user_interactions WHERE user_id = :user_id] *)
Definition user_articles (d : DB) (user_id : string) : list string :=
  map i_article_id
      (List.filter (fun ui => String.eqb (i_user_id ui) user_id) (user_interactions d)).

Definition count_distinct (l : list string) : Z := Z.of_nat (length (distinct l)).

(** [similar_users_query]: the other users sharing an article with
    [user_id], with [common_articles_count] and [total_articles_count],
    most shared articles first, ten at most. *)
Definition similar_users_query (d : DB) (user_id : string) : list (string * Z * Z) :=
  let cua := user_articles d user_id in
  let joined :=
    List.filter (fun ui => negb (String.eqb (i_user_id ui) user_id)
                           && mem (i_article_id ui) cua)
                (user_interactions d) in
  let rows :=
    map (fun u =>
           (u,
            count_distinct
              (map i_article_id
                   (List.filter (fun ui => String.eqb (i_user_id ui) u) joined)),
            count_distinct (user_articles d u)))
        (distinct (map i_user_id joined)) in
  firstn 10 (sort_by (fun y x => snd (fst x) <? snd (fst y)) rows).

(** Jaccard similarity of one row of [similar_users_query]. *)
Definition jaccard (total_current_user_articles common_count other_total : Z) : Q :=
  let union_size := total_current_user_articles + other_total - common_count in
  if 0 <? union_size then (inject_Z common_count / inject_Z union_size)%Q else 0%Q.

(** [recommendations_query]: the articles some user of [similar_users]
    interacted with and [user_id] did not, newest first. *)
Definition recommendations_query (d : DB) (user_id : string)
  (similar_users : list string) (lim : Z) : option (list article_row) :=
  let cua := user_articles d user_id in
  let rows :=
    List.filter
      (fun a =>
         existsb (fun ui => mem (i_user_id ui) similar_users
                            && String.eqb (i_article_id ui) (a_id a))
                 (user_interactions d)
         && negb (mem (a_id a) cua))
      (articles d) in
  limit lim (sort_by (fun y x => ts_gtb (a_published_at y) (a_published_at x)) rows).

(** [article_check_query] is positive *)
Definition interacted (d : DB) (uid article_id : string) : bool :=
  existsb (fun ui => String.eqb (i_user_id ui) uid
                     && String.eqb (i_article_id ui) article_id)
          (user_interactions d).

(** The inner loop over [user_similarity.items()] *)
Definition article_score (d : DB) (user_similarity : list (string * Q))
  (article_id : string) : Q :=
  fold_left (fun score us =>
               if interacted d (fst us) article_id then (score + snd us)%Q else score)
            user_similarity 0%Q.

Definition with_score (r : article_row * Q) : value :=
  VDict (article_dict (fst r) ++ [("score", VFloat (snd r))]).

(** [recommendations.sort(key=score, reverse=True)] followed by
    [recommendations[:max_results]] *)
Definition top_by_score (recs : list (article_row * Q)) (max_results : Z)
  : list (article_row * Q) :=
  slice (sort_by (fun y x => Qgtb (snd y) (snd x)) recs) 0 max_results.

(** The body of [for row in similar_users_result].  Everything from
    [article_scores = {}] down to the [return] is indented into the loop,
    so the body runs for the first row only: [user_similarity] holds that
    one neighbour when the candidates are fetched and scored.  With no
    row the function falls off its end and the result is [None]. *)
Definition collaborative_rows (d : DB) (user_id : string) (max_results : Z)
  (rows : list (string * Z * Z)) : option (option (list (article_row * Q))) :=
  let total_current_user_articles := count_distinct (user_articles d user_id) in
  match rows with
  | [] => Some None
  | (other_user_id, common_count, other_total) :: _ =>
      let user_similarity :=
        [(other_user_id, jaccard total_current_user_articles common_count other_total)] in
      let similar_user_ids := map fst user_similarity in
      match recommendations_query d user_id similar_user_ids (max_results * 2) with
      | None => None
      | Some found =>
          let recommendations :=
            map (fun a => (a, article_score d user_similarity (a_id a))) found in
          Some (Some (top_by_score recommendations max_results))
      end
  end.

Definition collaborative_key (user_id : string) (max_results : Z) : string :=
  "collaborative_recommendations:" ++ user_id ++ ":" ++ str_of_Z max_results.

(** The function below its cache check *)
Definition collaborative_compute (user_id : string) (max_results : Z)
  (w : World) : value * World :=
  let cache_key := collaborative_key user_id max_results in
  if negb (db_up (db w)) then (VList [], w)
  else if Nat.eqb (length (user_articles (db w) user_id)) 0 then (VList [], w)
  else
    match collaborative_rows (db w) user_id max_results
            (similar_users_query (db w) user_id) with
    | None => (VList [], w)
    | Some None => (VNone, w)
    | Some (Some recs) =>
        let recommendations := VList (map with_score recs) in
        let w := set_cache cache_key recommendations 3600 w in
        (recommendations, w)
    end.

Definition collaborative_filtering (user_id : string) (max_results : Z)
  (w : World) : value * World :=
  let cache_key := collaborative_key user_id max_results in
  let '(cached_results, w) := get_cache cache_key w in
  if truthy cached_results then (cached_results, w)
  else collaborative_compute user_id max_results w.

(** *** [trending_recommendations] *)

(** [interaction_count] of the [article_interactions] subquery *)
Definition interaction_count (d : DB) (cutoff_time : Z) (article_id : string) : Z :=
  Z.of_nat (length (List.filter
                      (fun ui => String.eqb (i_article_id ui) article_id
                                 && (cutoff_time <? i_timestamp ui))
                      (user_interactions d))).

(** [EXTRACT(EPOCH FROM (CURRENT_TIMESTAMP - a.published_at))/3600] *)
Definition hours_since_published (now published_at : Z) : Q :=
  (inject_Z (now - published_at) / 3600)%Q.

(** The [ORDER BY] expression *)
Definition rank (count : Z) (hours : Q) : Q :=
  (inject_Z (count + 1) / (hours + 1))%Q.

Record trending_row := {
  t_article : article_row;
  t_count : Z;
  t_hours : Q
}.

Definition t_rank (r : trending_row) : Q := rank (t_count r) (t_hours r).

(** The rows of the trending query before [ORDER BY] *)
Definition trending_candidates (d : DB) (now cutoff_time : Z) (category : option string)
  : list trending_row :=
  flat_map
    (fun a =>
       match a_published_at a with
       | Some p =>
           if (cutoff_time <? p)
              && (if truthy_str category
                  then match a_topic a, category with
                       | Some t, Some c => String.eqb t c
                       | _, _ => false
                       end
                  else true)
           then [ {| t_article := a;
                     t_count := interaction_count d cutoff_time (a_id a);
                     t_hours := hours_since_published now p |} ]
           else []
       | None => []
       end)
    (articles d).

(** The whole query; a zero divisor in the [ORDER BY] expression is an
    error of the statement. *)
Definition trending_query (d : DB) (now cutoff_time : Z) (category : option string)
  (lim : Z) : option (list trending_row) :=
  let rows := trending_candidates d now cutoff_time category in
  if existsb (fun r => Qeq_bool (t_hours r + 1) 0) rows then None
  else limit lim (sort_by (fun y x => Qgtb (t_rank y) (t_rank x)) rows).

Definition trending_dict (r : trending_row) : value :=
  VDict (article_dict (t_article r) ++
         [("interaction_count", VInt (t_count r));
          ("hours_since_published", VFloat (t_hours r))]).

Definition trending_key (category : option string) (time_window_hours max_results : Z)
  : string :=
  "trending_recommendations:" ++ fmt category ++ ":" ++
  str_of_Z time_window_hours ++ ":" ++ str_of_Z max_results.

(** The function below its cache check *)
Definition trending_compute (category : option string)
  (time_window_hours max_results : Z) (w : World) : value * World :=
  let cache_key := trending_key category time_window_hours max_results in
  let cutoff_time := wall w - time_window_hours * 3600 in
  if negb (db_up (db w)) then (VList [], w)
  else
    match trending_query (db w) (wall w) cutoff_time category max_results with
    | None => (VList [], w)
    | Some rows =>
        let trending_articles := VList (map trending_dict rows) in
        let w := set_cache cache_key trending_articles 1800 w in
        (trending_articles, w)
    end.

Definition trending_recommendations (category : option string)
  (time_window_hours max_results : Z) (w : World) : value * World :=
  let cache_key := trending_key category time_window_hours max_results in
  let '(cached_results, w) := get_cache cache_key w in
  if truthy cached_results then (cached_results, w)
  else trending_compute category time_window_hours max_results w.

(** *** [diverse_recommendations] *)

(** [SELECT DISTINCT topic FROM articles WHERE topic IS NOT NULL], then
    the comprehension's [if row[0]] *)
Definition topics_query (d : DB) : list string :=
  List.filter (fun t => negb (String.eqb t ""))
    (distinct (flat_map (fun a => match a_topic a with Some t => [t] | None => [] end)
                        (articles d))).

Definition newest_first (rows : list article_row) : list article_row :=
  sort_by (fun y x => ts_gtb (a_published_at y) (a_published_at x)) rows.

(** [recent_query] *)
Definition recent_query (d : DB) (lim : Z) : option (list article_row) :=
  limit lim (newest_first (articles d)).

(** [topic_query]: [LIMIT 1] and [fetchone] *)
Definition topic_query (d : DB) (topic : string) : option article_row :=
  hd_error (newest_first
              (List.filter (fun a => match a_topic a with
                                     | Some t => String.eqb t topic
                                     | None => false
                                     end)
                           (articles d))).

(** [for topic in topics], with its [break] *)
Fixpoint one_per_topic (d : DB) (max_results : Z) (topics : list string)
  (diverse_articles : list article_row) : list article_row :=
  match topics with
  | [] => diverse_articles
  | topic :: topics' =>
      if max_results <=? Z.of_nat (length diverse_articles) then diverse_articles
      else
        match topic_query d topic with
        | Some a => one_per_topic d max_results topics' (diverse_articles ++ [a])
        | None => one_per_topic d max_results topics' diverse_articles
        end
  end.

Definition diverse_key (user_id seed_article_id : option string) (max_results : Z) : string :=
  "diverse_recommendations:" ++ fmt user_id ++ ":" ++ fmt seed_article_id ++ ":" ++
  str_of_Z max_results.

(** The two passes over [base_recommendations] are indented into the
    [if not base_recommendations:] block, below its [return]: they are
    never reached, and with a non-empty base the function falls off the
    end of the [try] and returns [None]. *)
Definition diverse_compute (user_id seed_article_id : option string)
  (max_results : Z) (w : World) : value * World :=
  let cache_key := diverse_key user_id seed_article_id max_results in
  let '(base_recommendations, w) :=
    if truthy_str seed_article_id then
      let '(v, w) := content_based_filtering (fmt seed_article_id) (max_results * 2) w in
      (Some v, w)
    else if truthy_str user_id then
      if negb (db_up (db w)) then (None, w)
      else if Nat.ltb 0 (length (user_articles (db w) (fmt user_id)))
      then let '(v, w) := collaborative_filtering (fmt user_id) (max_results * 2) w in
           (Some v, w)
      else (Some (VList []), w)
    else (Some (VList []), w) in
  match base_recommendations with
  | None => (VList [], w)
  | Some base =>
      if truthy base then (VNone, w)
      else if negb (db_up (db w)) then (VList [], w)
      else
        match topics_query (db w) with
        | [] =>
            match recent_query (db w) max_results with
            | None => (VList [], w)
            | Some rows =>
                let diverse_articles := VList (map (fun a => VDict (article_dict a)) rows) in
                let w := set_cache cache_key diverse_articles 3600 w in
                (diverse_articles, w)
            end
        | topics =>
            let diverse_articles := one_per_topic (db w) max_results topics [] in
            let out := VList (map (fun a => VDict (article_dict a))
                                  (slice diverse_articles 0 max_results)) in
            let w := set_cache cache_key out 3600 w in
            (out, w)
        end
  end.

Definition diverse_recommendations (user_id seed_article_id : option string)
  (max_results : Z) (w : World) : value * World :=
  let cache_key := diverse_key user_id seed_article_id max_results in
  let '(cached_results, w) := get_cache cache_key w in
  if truthy cached_results then (cached_results, w)
  else diverse_compute user_id seed_article_id max_results w.

(** *** [hybrid_recommendations] *)

Definition weights (algo : string) : Q :=
  if String.eqb algo "content" then (4 # 10)
  else if String.eqb algo "collaborative" then (3 # 10)
  else if String.eqb algo "trending" then (2 # 10)
  else (1 # 10).

(** [position_score = 1.0 - (i / len(recs))] *)
Definition position_score (i len : nat) : Q :=
  (1 - inject_Z (Z.of_nat i) / inject_Z (Z.of_nat len))%Q.

(** [article_scores[article_id] += x], a new key starting from 0; the
    keys keep their insertion order. *)
Fixpoint add_score (article_id : string) (x : Q) (scores : list (string * Q))
  : list (string * Q) :=
  match scores with
  | [] => [(article_id, (0 + x)%Q)]
  | (k, v) :: scores' =>
      if String.eqb k article_id then (k, (v + x)%Q) :: scores'
      else (k, v) :: add_score article_id x scores'
  end.

(** [article_scores.get(article_id)], 0 for an article without score *)
Fixpoint lookup_score (article_id : string) (scores : list (string * Q)) : Q :=
  match scores with
  | [] => 0%Q
  | (k, v) :: scores' =>
      if String.eqb k article_id then v else lookup_score article_id scores'
  end.

(** What a [for] loop over [v] yields; [None] where [v] is not iterable. *)
Definition iterate (v : value) : option (list value) :=
  match v with
  | VList l => Some l
  | VDict d => Some (map (fun kv => VStr (fst kv)) d)
  | VStr s => Some (map (fun c => VStr (String c EmptyString)) (list_ascii_of_string s))
  | _ => None
  end.

(** [article['id']] as a dictionary key.  The identifiers of every table
    are strings; another kind of identifier is outside the model and is
    treated as a raise. *)
Definition id_of (article : value) : option string :=
  match getitem article "id" with
  | Some (VStr s) => Some s
  | _ => None
  end.

(** [for i, article in enumerate(recs)] from position [i] on *)
Fixpoint score_recs (algo_weight : Q) (len i : nat) (recs : list value)
  (scores : list (string * Q)) : option (list (string * Q)) :=
  match recs with
  | [] => Some scores
  | article :: recs' =>
      match id_of article with
      | None => None
      | Some article_id =>
          score_recs algo_weight len (S i) recs'
            (add_score article_id (algo_weight * position_score i len)%Q scores)
      end
  end.

(** [for algo, recs in results.items()] *)
Fixpoint score_results (results : list (string * value)) (scores : list (string * Q))
  : option (list (string * Q)) :=
  match results with
  | [] => Some scores
  | (algo, recs) :: results' =>
      if negb (truthy recs) then score_results results' scores
      else
        match iterate recs with
        | None => None
        | Some items =>
            match score_recs (weights algo) (length items) 0 items scores with
            | None => None
            | Some scores' => score_results results' scores'
            end
        end
  end.

(** [sorted(article_scores, key=article_scores.get, reverse=True)[:max_results]] *)
Definition ranked_article_ids (scores : list (string * Q)) (max_results : Z) : list string :=
  map fst (slice (sort_by (fun y x => Qgtb (snd y) (snd x)) scores) 0 max_results).

(** [article.get('id') == article_id]; [.get] raises on a non-dictionary. *)
Definition has_id (article_id : string) (article : value) : option bool :=
  match article with
  | VDict d =>
      match assoc "id" d with
      | Some (VStr s) => Some (String.eqb s article_id)
      | _ => Some false
      end
  | _ => None
  end.

(** [for article in recs]: the first article with the identifier.
    [None]: a raise; [Some None]: the loop ended without a match. *)
Fixpoint find_in_recs (article_id : string) (recs : list value) : option (option value) :=
  match recs with
  | [] => Some None
  | article :: recs' =>
      match has_id article_id article with
      | None => None
      | Some true => Some (Some article)
      | Some false => find_in_recs article_id recs'
      end
  end.

(** [for recs in results.values()] *)
Fixpoint find_in_results (article_id : string) (results : list (string * value))
  : option (option value) :=
  match results with
  | [] => Some None
  | (_, recs) :: results' =>
      match iterate recs with
      | None => None
      | Some items =>
          match find_in_recs article_id items with
          | None => None
          | Some (Some article) => Some (Some article)
          | Some None => find_in_results article_id results'
          end
      end
  end.

(** [for article_id in ranked_article_ids] *)
Fixpoint collect (ids : list string) (results : list (string * value))
  (articles_seen : list string) (recommendations : list value) : option (list value) :=
  match ids with
  | [] => Some recommendations
  | article_id :: ids' =>
      if mem article_id articles_seen then collect ids' results articles_seen recommendations
      else
        match find_in_results article_id results with
        | None => None
        | Some (Some article) =>
            collect ids' results (article_id :: articles_seen) (recommendations ++ [article])
        | Some None => collect ids' results articles_seen recommendations
        end
  end.

(** [','.join(user_interests) if user_interests else ''] *)
Fixpoint join_comma (l : list string) : string :=
  match l with
  | [] => ""
  | [x] => x
  | x :: l' => x ++ "," ++ join_comma l'
  end.

Definition hybrid_key (user_id article_id : option string)
  (user_interests : option (list string)) (max_results : Z) : string :=
  "hybrid_recommendations:" ++ fmt user_id ++ ":" ++ fmt article_id ++ ":" ++
  (match user_interests with Some l => join_comma l | None => "" end) ++ ":" ++
  str_of_Z max_results.

(** The dictionary [results] after the four calls, in insertion order. *)
Definition run_algorithms (user_id article_id : option string) (max_results : Z)
  (w : World) : list (string * value) * World :=
  let '(r1, w) :=
    if truthy_str article_id then
      let '(v, w) := content_based_filtering (fmt article_id) (max_results * 2) w in
      ([("content", v)], w)
    else ([], w) in
  let '(r2, w) :=
    if truthy_str user_id then
      let '(v, w) := collaborative_filtering (fmt user_id) (max_results * 2) w in
      ([("collaborative", v)], w)
    else ([], w) in
  let '(v3, w) := trending_recommendations None 24 (max_results * 2) w in
  let '(v4, w) := diverse_recommendations user_id article_id (max_results * 2) w in
  ((r1 ++ r2 ++ [("trending", v3); ("diverse", v4)])%list, w).

(** Everything below the four calls. [None]: an exception. *)
Definition blend (results : list (string * value)) (max_results : Z) : option (list value) :=
  match score_results results [] with
  | None => None
  | Some article_scores =>
      collect (ranked_article_ids article_scores max_results) results [] []
  end.

(** The function below its cache check *)
Definition hybrid_compute (user_id article_id : option string)
  (user_interests : option (list string)) (max_results : Z) (w : World)
  : value * World :=
  let cache_key := hybrid_key user_id article_id user_interests max_results in
  let '(results, w) := run_algorithms user_id article_id max_results w in
  match blend results max_results with
  | None => (VList [], w)
  | Some l =>
      let recommendations := VList l in
      let w := set_cache cache_key recommendations 3600 w in
      (recommendations, w)
  end.

Definition hybrid_recommendations (user_id article_id : option string)
  (user_interests : option (list string)) (max_results : Z) (w : World)
  : value * World :=
  let cache_key := hybrid_key user_id article_id user_interests max_results in
  let '(cached_results, w) := get_cache cache_key w in
  if truthy cached_results then (cached_results, w)
  else hybrid_compute user_id article_id user_interests max_results w.

(** *** [get_recommendations] *)

Definition RECOMMENDATION_ALGORITHMS : list string :=
  ["content_based"; "collaborative"; "hybrid"; "trending"; "diverse"].

Definition recommendations_key (algorithm : string) (user_id : option string)
  (user_interests : option (list string)) (max_results : Z) : string :=
  "recommendations:" ++ algorithm ++ ":" ++ fmt user_id ++ ":" ++
  (match user_interests with Some l => join_comma l | None => "" end) ++ ":" ++
  str_of_Z max_results.

(** The [try] block below the count of the articles *)
Definition dispatch (article_id user_id : option string)
  (user_interests : option (list string)) (algorithm : string) (max_results : Z)
  (w : World) : value * World :=
  if String.eqb algorithm "content_based" && truthy_str article_id
  then content_based_filtering (fmt article_id) max_results w
  else if String.eqb algorithm "collaborative" && truthy_str user_id
  then collaborative_filtering (fmt user_id) max_results w
  else if String.eqb algorithm "trending"
  then trending_recommendations None 24 max_results w
  else if String.eqb algorithm "diverse"
  then diverse_recommendations user_id article_id max_results w
  else if String.eqb algorithm "hybrid" || negb (mem algorithm RECOMMENDATION_ALGORITHMS)
  then hybrid_recommendations user_id article_id user_interests max_results w
  else (VList [], w).

Definition get_recommendations (article_id user_id : option string)
  (user_interests : option (list string)) (algorithm : string) (max_results : Z)
  (w : World) : value * World :=
  let '(cached_results, w) :=
    if negb (String.eqb algorithm "content_based")
    then get_cache (recommendations_key algorithm user_id user_interests max_results) w
    else (VNone, w) in
  if truthy cached_results then (cached_results, w)
  else
    let w := initialize_models w in
    if negb (db_up (db w)) then (VList [], w)
    else if Nat.eqb (length (articles (db w))) 0 then (VList [], w)
    else dispatch article_id user_id user_interests algorithm max_results w.

(** *** [compute_article_embedding] as the interpreter runs it

    The function assigns [text = f"{article.title} ..."] further down, so
    [text] is a local name of the whole function body and the first
    statement of the [try], [query = text("SELECT embedding ...")], raises
    [UnboundLocalError]; the handler rolls back and returns [None].  What
    is left of the function is its cache check.  [compute_article_embedding]
    above is the function with [text] read as the module's import. *)
Definition compute_article_embedding_as_run (article_id : string) (use_fast_model : bool)
  (w : World) : option (option (list Q)) * World :=
  let cache_key := "embedding:" ++ article_id in
  let '(cached_embedding, w) := get_cache cache_key w in
  if truthy cached_embedding then (option_map Some (tensor_of cached_embedding), w)
  else (Some None, w).

(** [content_based_filtering] over it *)
Definition content_based_filtering_as_run (article_id : string) (max_results : Z)
  (w : World) : value * World :=
  let cache_key := content_key article_id max_results in
  let '(cached_results, w) := get_cache cache_key w in
  if truthy cached_results then (cached_results, w)
  else
    match compute_article_embedding_as_run article_id false w with
    | (None, w) => (VList [], w)
    | (Some None, w) => (VList [], w)
    | (Some (Some target_embedding), w) =>
        if negb (db_up (db w)) then (VList [], w)
        else
          match similar_articles (db w) target_embedding article_id max_results with
          | None => (VList [], w)
          | Some rows =>
              let recommendations := VList (map scored_dict rows) in
              let w := set_cache cache_key recommendations 3600 w in
              (recommendations, w)
          end
    end.

(** *** What the statements below speak of *)

(** The blended score of a returned article *)
Definition score_of (scores : list (string * Q)) (article : value) : Q :=
  match id_of article with
  | Some article_id => lookup_score article_id scores
  | None => 0%Q
  end.


(** No other user has interacted with an article of [user_id]. *)
Definition unshared (d : DB) (user_id : string) : Prop :=
  forall ui, In ui (user_interactions d) -> i_user_id ui <> user_id ->
             ~ In (i_article_id ui) (user_articles d user_id).

End Engine.

End Recommendation.

(** ** The algorithms as the design document words them

    Second definitions, written from the document and not from the code,
    to compare the code with. *)

Module Reference.

Import Db Recommendation.














End Reference.

(** ** Worlds and instances the examples run in *)

Module Examples.

(** Timestamps print as their number of seconds. *)
#[export] Instance seconds_clock : Datetime := {
  isoformat := str_of_Z
}.

(** A world whose [redis_client] is an empty in-process cache. *)
Definition mem_world : Cache.World :=
  {| Cache.redis_client :=
       Some (Cache.InMemory {| Cache.cache := ∅; Cache.expiry := ∅ |});
     Cache.REDIS_REST_URL := None;
     Cache.REDIS_REST_TOKEN := None;
     Cache.remote := {| Cache.r_base := "https://cache.example";
                        Cache.r_token := "secret";
                        Cache.r_up := true;
                        Cache.r_store := ∅ |};
     Cache.loop_time := 0 |}.

(** A freshly started process with both credentials in its environment
    and the remote service reachable and empty. *)
Definition upstash_world : Cache.World :=
  {| Cache.redis_client := None;
     Cache.REDIS_REST_URL := Some "https://cache.example";
     Cache.REDIS_REST_TOKEN := Some "secret";
     Cache.remote := {| Cache.r_base := "https://cache.example";
                        Cache.r_token := "secret";
                        Cache.r_up := true;
                        Cache.r_store := ∅ |};
     Cache.loop_time := 0 |}.

Definition news (i u src : string) : NewsFetcher.article :=
  {| NewsFetcher.id := i;
     NewsFetcher.title := "story " ++ i;
     NewsFetcher.url := u;
     NewsFetcher.source := src;
     NewsFetcher.publishedAt := "2024-01-01T00:00:00";
     NewsFetcher.imageUrl := "https://via.placeholder.com/720x480?text=No+Image";
     NewsFetcher.summary := "";
     NewsFetcher.topic := "general";
     NewsFetcher.readTime := "1 min read" |}.

(** The first two providers both supply the story at [https://n.example/2]. *)
Definition two_providers : NewsFetcher.Net :=
  {| NewsFetcher.newsapi_everything := fun _ _ _ =>
       ([news "1" "https://n.example/1" "NewsAPI";
         news "2" "https://n.example/2" "NewsAPI"], 2);
     NewsFetcher.newsapi_top_headlines := fun _ _ _ =>
       ([news "1" "https://n.example/1" "NewsAPI";
         news "2" "https://n.example/2" "NewsAPI"], 2);
     NewsFetcher.gnews_search := fun _ _ =>
       [news "3" "https://n.example/2" "GNews"; news "4" "https://n.example/4" "GNews"];
     NewsFetcher.gnews_top_headlines := fun _ _ =>
       [news "3" "https://n.example/2" "GNews"; news "4" "https://n.example/4" "GNews"];
     NewsFetcher.nytimes_article_search := fun _ => [];
     NewsFetcher.nytimes_top_stories := fun _ => [];
     NewsFetcher.duckduckgo_news := fun _ => [] |}.

Definition fresh_usage : NewsFetcher.usage :=
  {| NewsFetcher.u_newsapi := {| NewsFetcher.calls := 0; NewsFetcher.limit := 100 |};
     NewsFetcher.u_gnews := {| NewsFetcher.calls := 0; NewsFetcher.limit := 100 |};
     NewsFetcher.u_nytimes := {| NewsFetcher.calls := 0; NewsFetcher.limit := 500 |};
     NewsFetcher.u_duckduckgo := {| NewsFetcher.calls := 0; NewsFetcher.limit := 100 |} |}.

Definition fetch_world : NewsFetcher.World :=
  {| NewsFetcher.api_usage := fresh_usage;
     NewsFetcher.newsapi := true;
     NewsFetcher.GNEWS_API_KEY := "key";
     NewsFetcher.NEWYORK_TIMES_API_KEY := "";
     NewsFetcher.net := two_providers;
     NewsFetcher.now := 0 |}.

(** Every quota is used up. *)
Definition spent_usage : NewsFetcher.usage :=
  {| NewsFetcher.u_newsapi := {| NewsFetcher.calls := 100; NewsFetcher.limit := 100 |};
     NewsFetcher.u_gnews := {| NewsFetcher.calls := 100; NewsFetcher.limit := 100 |};
     NewsFetcher.u_nytimes := {| NewsFetcher.calls := 500; NewsFetcher.limit := 500 |};
     NewsFetcher.u_duckduckgo := {| NewsFetcher.calls := 100; NewsFetcher.limit := 100 |} |}.

Definition spent_world : NewsFetcher.World :=
  {| NewsFetcher.api_usage := spent_usage;
     NewsFetcher.newsapi := true;
     NewsFetcher.GNEWS_API_KEY := "key";
     NewsFetcher.NEWYORK_TIMES_API_KEY := "";
     NewsFetcher.net := two_providers;
     NewsFetcher.now := 0 |}.

(** Unit vectors are compared by [1 - dot product]; every text embeds as
    the same one-dimensional vector; the n-th uuid is ["uuid-n"]. *)
Fixpoint dot (a b : list Q) : Q :=
  match a, b with
  | x :: a', y :: b' => (x * y + dot a' b')%Q
  | _, _ => 0%Q
  end.

#[export] Instance toy_externals : Recommendation.Externals := {
  Recommendation.cosine_distance := fun a b => (1 - dot a b)%Q;
  Recommendation.encode := fun _ _ => [1%Q];
  Recommendation.uuid4 := fun n => "uuid-" ++ str_of_Z (Z.of_nat n)
}.

Definition art (i t : string) (published : Z) : Db.article_row :=
  {| Db.a_id := i;
     Db.a_title := "title " ++ i;
     Db.a_url := "https://example.com/" ++ i;
     Db.a_source := None;
     Db.a_published_at := Some published;
     Db.a_content := None;
     Db.a_summary := Some ("about " ++ i);
     Db.a_topic := Some t;
     Db.a_image_url := None;
     Db.a_created_at := Some published |}.

Definition act (i u a : string) (t : Z) : Db.interaction_row :=
  {| Db.i_id := i;
     Db.i_user_id := u;
     Db.i_article_id := a;
     Db.i_interaction_type := "view";
     Db.i_timestamp := t;
     Db.i_time_spent_seconds := None;
     Db.i_scroll_percentage := None;
     Db.i_source_page := None |}.

Definition emb (a : string) (e : list Q) : Db.embedding_row :=
  {| Db.e_article_id := a; Db.e_embedding := Some e; Db.e_updated_at := 0 |}.

(** User [u] has read [a1] and [a2]; [v1] shares both and has read [b1];
    [v2] shares [a1] and has read [b2]. *)
Definition readers_db : Db.DB :=
  {| Db.articles := [art "a1" "science" 10; art "a2" "sports" 20;
                     art "b1" "science" 30; art "b2" "health" 40];
     Db.article_embeddings := [emb "a1" [1%Q; 0%Q]; emb "b1" [1%Q; 0%Q];
                               emb "b2" [0%Q; 1%Q]];
     Db.user_interactions :=
       [act "i1" "u" "a1" 1; act "i2" "u" "a2" 2;
        act "i3" "v1" "a1" 3; act "i4" "v1" "a2" 4; act "i5" "v1" "b1" 5;
        act "i6" "v2" "a1" 6; act "i7" "v2" "b2" 7];
     Db.db_up := true |}.

Definition engine_world (d : Db.DB) (now : Z) : Recommendation.World :=
  {| Recommendation.cw := mem_world;
     Recommendation.db := d;
     Recommendation.wall := now;
     Recommendation.models_default := false;
     Recommendation.models_fast := false;
     Recommendation.loadable_default := true;
     Recommendation.loadable_fast := true;
     Recommendation.uuid_drawn := 0 |}.

(** The identifiers of a returned list *)
Definition ids_of (v : value) : list (option string) :=
  match v with
  | VList l => map Recommendation.id_of l
  | _ => []
  end.

(** An article dictionary with an identifier only *)
Definition item (i : string) : value := VDict [("id", VStr i)].

(** [n] interactions with article [a] at time [t] *)
Fixpoint acts (n : nat) (a : string) (t : Z) : list Db.interaction_row :=
  match n with
  | O => []
  | S n' => act (a ++ "-" ++ str_of_Z (Z.of_nat n)) "reader" a t :: acts n' a t
  end.

(** At hour 100: [p1] is one hour old with 10 interactions in the last 24
    hours, [p2] is 20 hours old with 2. *)
Definition trending_db : Db.DB :=
  {| Db.articles := [art "p2" "science" (80 * 3600); art "p1" "science" (99 * 3600)];
     Db.article_embeddings := [];
     Db.user_interactions := (acts 2 "p2" (90 * 3600) ++ acts 10 "p1" (99 * 3600 + 60))%list;
     Db.db_up := true |}.

(** User [u] has read [a1], which nobody else has read; [v] has read
    [b1]. *)
Definition lonely_db : Db.DB :=
  {| Db.articles := [art "a1" "science" (90 * 3600); art "b1" "health" (95 * 3600)];
     Db.article_embeddings := [];
     Db.user_interactions := [act "i1" "u" "a1" (96 * 3600); act "i2" "v" "b1" (97 * 3600)];
     Db.db_up := true |}.

(** A freshly started process without cache credentials. *)
Definition bare_world : Cache.World :=
  {| Cache.redis_client := None;
     Cache.REDIS_REST_URL := None;
     Cache.REDIS_REST_TOKEN := None;
     Cache.remote := {| Cache.r_base := "https://cache.example";
                        Cache.r_token := "secret";
                        Cache.r_up := true;
                        Cache.r_store := ∅ |};
     Cache.loop_time := 0 |}.

End Examples.

(** ** Properties of the cache layer *)

Module CacheProps.

Import Cache.

(** *** Strings *)

Lemma append_assoc_r (a b c : string) : (a ++ b) ++ c = a ++ (b ++ c).
Proof.
  induction a as [|x a IH]; [reflexivity|].
  change (String x ((a ++ b) ++ c) = String x (a ++ (b ++ c))). rewrite IH. reflexivity.
Qed.

Lemma strip_prefix_app (p s : string) : strip_prefix p (p ++ s) = Some s.
Proof.
  induction p as [|a p IH]; [destruct s; reflexivity|].
  change (strip_prefix (String a p) (String a (p ++ s)) = Some s).
  simpl. rewrite Ascii.eqb_refl. exact IH.
Qed.

Lemma split_char_free (c : ascii) (a : string) :
  free_of c a -> split_char c a = [a].
Proof.
  unfold free_of. induction a as [|x a IH]; simpl; [reflexivity|].
  intros Hf. destruct (Ascii.eqb_spec x c) as [-> | Hne]; [exfalso; apply Hf; auto|].
  rewrite IH; [reflexivity|]. intros Hin. apply Hf. auto.
Qed.

Lemma split_char_app (c : ascii) (a b : string) :
  free_of c a -> split_char c (a ++ String c b) = a :: split_char c b.
Proof.
  unfold free_of. induction a as [|x a IH].
  - intros _. change (split_char c (String c b) = "" :: split_char c b).
    simpl. rewrite Ascii.eqb_refl. reflexivity.
  - intros Hf. change (split_char c (String x (a ++ String c b)) = String x a :: split_char c b).
    simpl in *. destruct (Ascii.eqb_spec x c) as [-> | Hne]; [exfalso; apply Hf; auto|].
    rewrite IH; [reflexivity|]. intros Hin. apply Hf. auto.
Qed.

Lemma replace_slash_free (s : string) : free_of "/" (replace_char "/" "_SLASH_" s).
Proof.
  unfold free_of. induction s as [|a s IH]; simpl; [tauto|].
  destruct (Ascii.eqb_spec a "/") as [-> | Hne]; simpl.
  - intros H. repeat (destruct H as [H | H]; [discriminate H|]). exact (IH H).
  - intros [H | H]; [congruence | exact (IH H)].
Qed.


Lemma string_of_uint_free (d : Decimal.uint) : free_of "/" (NilEmpty.string_of_uint d).
Proof.
  unfold free_of. induction d; simpl; try tauto;
    intros [E | Hin]; try discriminate E; exact (IHd Hin).
Qed.

Lemma str_of_Z_free (z : Z) : 0 < z -> free_of "/" (str_of_Z z).
Proof.
  intros Hz. destruct z as [|p|p]; try lia.
  unfold str_of_Z. simpl. unfold NilZero.string_of_uint.
  destruct (Pos.to_uint p); try apply string_of_uint_free.
  unfold free_of. simpl. intros [E | []]. discriminate E.
Qed.

Lemma Z_of_str_of_Z (z : Z) : 0 < z -> Z_of_str (str_of_Z z) = Some z.
Proof.
  intros Hz. unfold Z_of_str, str_of_Z.
  rewrite NilZero.isi.
  - rewrite DecimalZ.of_to. reflexivity.
  - destruct z as [|p|p]; try lia. simpl. intros [= E].
    exact (Unsigned.to_uint_nonnil p E).
  - destruct z as [|p|p]; try lia. simpl. discriminate.
Qed.

Lemma append_cons (a : ascii) (s t : string) : String a s ++ t = String a (s ++ t).
Proof. reflexivity. Qed.

Section Generic.
Context `{JsonLib}.

Lemma set_cache_in_memory (k : string) (v : value) (ttl : Z) (w : World)
  (m : InMemoryCache) (s : string) :
  redis_client w = Some (InMemory m) ->
  serialize v = Some s ->
  ttl <> 0 ->
  set_cache k v ttl w =
  (true,
   with_client w
     (Some (InMemory {| cache := <[k := s]> (cache m);
                        expiry := <[k := (loop_time w + inject_Z ttl)%Q]> (expiry m) |}))).
Proof.
  intros Hc Hs Httl.
  unfold set_cache, get_redis_client. rewrite Hc.
  change (match v with VStr s0 => Some s0 | _ => json_dumps v end) with (serialize v).
  rewrite Hs. unfold client_set, mem_set.
  destruct (Z.eqb_spec ttl 0) as [E | _]; [contradiction | reflexivity].
Qed.

Lemma get_cache_in_memory (k : string) (w : World) (m : InMemoryCache) :
  redis_client w = Some (InMemory m) ->
  fst (get_cache k w) =
  match fst (mem_get m k (loop_time w)) with
  | Some (Some s) => if String.eqb s "" then VNone else deserialize s
  | _ => VNone
  end.
Proof.
  intros Hc. unfold get_cache, get_redis_client. rewrite Hc.
  unfold client_get.
  destruct (mem_get m k (loop_time w)) as [[[s|]|] m']; simpl; try reflexivity.
  unfold deserialize.
  destruct (String.eqb s ""); simpl; [reflexivity|].
  destruct (json_loads s); reflexivity.
Qed.

Lemma mem_get_fresh (c : gmap string string) (e : gmap string Q) (k s : string) (d now : Q) :
  (now <= d)%Q ->
  fst (mem_get {| cache := <[k := s]> c; expiry := <[k := d]> e |} k now) = Some (Some s).
Proof.
  intros Hle. unfold mem_get. simpl.
  rewrite !lookup_insert_eq.
  apply Qle_bool_iff in Hle. rewrite Hle. simpl. reflexivity.
Qed.

Lemma mem_get_expired (c : gmap string string) (e : gmap string Q) (k s : string) (d now : Q) :
  (d < now)%Q ->
  fst (mem_get {| cache := <[k := s]> c; expiry := <[k := d]> e |} k now) = Some None.
Proof.
  intros Hlt. unfold mem_get. simpl.
  rewrite !lookup_insert_eq.
  destruct (Qle_bool now d) eqn:E.
  - apply Qle_bool_iff in E. exfalso. apply (Qlt_not_le _ _ Hlt E).
  - reflexivity.
Qed.

Lemma advance_client (t : Q) (w : World) : redis_client (advance t w) = redis_client w.
Proof. reflexivity. Qed.

(** C2 (amended).  On the in-process cache, for every key [k], every
    value [v] that the serialization gives back (its payload is not empty
    and decodes to [v]) and every [ttl > 0]: [set(k, v, ttl)] succeeds, a
    [get(k)] that follows immediately returns [v], so does a [get(k)] at
    any moment up to and including [ttl] seconds after the [set], and once
    the clock has advanced by strictly more than [ttl] seconds [get(k)]
    returns absent. *)
Theorem set_then_get_in_memory (k : string) (v : value) (ttl : Z) (w : World)
  (m : InMemoryCache) :
  redis_client w = Some (InMemory m) ->
  0 < ttl ->
  round_trips v ->
  fst (set_cache k v ttl w) = true /\
  fst (get_cache k (snd (set_cache k v ttl w))) = v /\
  (forall t : Q, (0 <= t)%Q -> (t <= inject_Z ttl)%Q ->
     fst (get_cache k (advance t (snd (set_cache k v ttl w)))) = v) /\
  (forall t : Q, (inject_Z ttl < t)%Q ->
     fst (get_cache k (advance t (snd (set_cache k v ttl w)))) = VNone).
Proof.
  intros Hc Httl (s & Hs & Hne & Hd).
  assert (Hnz : ttl <> 0) by lia.
  rewrite (set_cache_in_memory k v ttl w m s Hc Hs Hnz). simpl.
  assert (Hs' : String.eqb s "" = false) by (apply String.eqb_neq; exact Hne).
  assert (Hpos : (0 <= inject_Z ttl)%Q).
  { change 0%Q with (inject_Z 0). rewrite <- Zle_Qle. lia. }
  split; [reflexivity|]. split; [|split].
  - erewrite get_cache_in_memory by reflexivity.
    rewrite mem_get_fresh.
    + rewrite Hs'. exact Hd.
    + simpl. rewrite <- (Qplus_0_r (loop_time w)) at 1.
      apply Qplus_le_r. exact Hpos.
  - intros t _ Ht.
    erewrite get_cache_in_memory by reflexivity.
    rewrite mem_get_fresh.
    + rewrite Hs'. exact Hd.
    + simpl. apply Qplus_le_r. exact Ht.
  - intros t Ht.
    erewrite get_cache_in_memory by reflexivity.
    rewrite mem_get_expired; [reflexivity|].
    simpl. apply Qplus_lt_r. exact Ht.
Qed.


(** The world a lookup leaves behind on the in-process cache. *)
Lemma get_cache_in_memory_state (k : string) (w : World) (m : InMemoryCache) :
  redis_client w = Some (InMemory m) ->
  snd (get_cache k w)
  = with_client w (Some (InMemory (snd (mem_get m k (loop_time w))))).
Proof.
  intros Hc. unfold get_cache, get_redis_client. rewrite Hc.
  unfold client_get.
  destruct (mem_get m k (loop_time w)) as [[[s|]|] m']; simpl; try reflexivity.
  destruct (negb (String.eqb s "")); [|reflexivity].
  destruct (json_loads s); reflexivity.
Qed.

(** Reading one key does not change what another key reads. *)
Lemma mem_get_other (m : InMemoryCache) (k1 k2 : string) (now : Q) :
  k1 <> k2 ->
  fst (mem_get (snd (mem_get m k1 now)) k2 now) = fst (mem_get m k2 now).
Proof.
  intros Hne. unfold mem_get at 2.
  destruct (expiry m !! k1) as [d|]; [|reflexivity].
  destruct (negb (Qle_bool now d)); [|reflexivity].
  destruct (cache m !! k1); [|reflexivity].
  unfold mem_get. simpl.
  rewrite !lookup_delete_ne by exact Hne.
  destruct (expiry m !! k2) as [d2|]; [|reflexivity].
  destruct (negb (Qle_bool now d2)); [|reflexivity].
  destruct (cache m !! k2); reflexivity.
Qed.

Lemma get_cache_other (k1 k2 : string) (w : World) (m : InMemoryCache) :
  redis_client w = Some (InMemory m) ->
  k1 <> k2 ->
  fst (get_cache k2 (snd (get_cache k1 w))) = fst (get_cache k2 w).
Proof.
  intros Hc Hne.
  rewrite (get_cache_in_memory_state k1 w m Hc).
  erewrite get_cache_in_memory by reflexivity.
  rewrite (get_cache_in_memory k2 w m Hc). simpl.
  rewrite (mem_get_other m k1 k2 (loop_time w) Hne). reflexivity.
Qed.

(** A value with a slash is not what [UpstashRedisClient.set] puts into
    the url. *)
Lemma replace_slash_differs (s : string) :
  In "/"%char (list_ascii_of_string s) -> replace_char "/" "_SLASH_" s <> s.
Proof.
  induction s as [|a s IH]; simpl; [intros []|].
  destruct (Ascii.eqb_spec a "/") as [-> | Hne].
  - intros _ E. discriminate E.
  - intros [E | Hin]; [congruence|].
    intros E. injection E as E. exact (IH Hin E).
Qed.

Lemma rest_set (r : Remote) (now : Q) (key enc : string) (ttl : Z) :
  r_up r = true ->
  free_of "/" key -> free_of "/" enc -> 0 < ttl ->
  rest r now ((r_base r ++ "/set/" ++ key ++ "/" ++ enc) ++ "/ex/" ++ str_of_Z ttl)
       ("Bearer " ++ r_token r)
  = (Some {| status := 200; result := VStr "OK" |},
     with_store r (<[key := (enc, Some (now + inject_Z ttl)%Q)]> (r_store r))).
Proof.
  intros Hup Hk He Httl. unfold rest. rewrite Hup. simpl negb. cbv iota.
  rewrite String.eqb_refl. simpl negb. cbv iota.
  replace ((r_base r ++ "/set/" ++ key ++ "/" ++ enc) ++ "/ex/" ++ str_of_Z ttl)
    with ((r_base r ++ "/") ++
          ("set" ++ String "/" (key ++ String "/" (enc ++ String "/"
             ("ex" ++ String "/" (str_of_Z ttl)))))).
  2:{ rewrite !append_assoc_r. reflexivity. }
  rewrite strip_prefix_app.
  rewrite (split_char_app "/" "set"); [|unfold free_of; simpl; intuition discriminate].
  rewrite (split_char_app "/" key) by exact Hk.
  rewrite (split_char_app "/" enc) by exact He.
  rewrite (split_char_app "/" "ex"); [|unfold free_of; simpl; intuition discriminate].
  rewrite (split_char_free "/" (str_of_Z ttl)) by (apply str_of_Z_free; exact Httl).
  simpl. rewrite (Z_of_str_of_Z ttl Httl).
  destruct (Z.ltb_spec 0 ttl); [reflexivity | lia].
Qed.

Lemma rest_get (r : Remote) (now : Q) (key : string) :
  r_up r = true ->
  free_of "/" key ->
  fst (rest r now (r_base r ++ "/get/" ++ key) ("Bearer " ++ r_token r))
  = Some {| status := 200;
            result := match r_store r !! key with
                      | Some e => if live now e then VStr (fst e) else VNone
                      | None => VNone
                      end |}.
Proof.
  intros Hup Hk. unfold rest. rewrite Hup. simpl negb. cbv iota.
  rewrite String.eqb_refl. simpl negb. cbv iota.
  replace (r_base r ++ "/get/" ++ key)
    with ((r_base r ++ "/") ++ ("get" ++ String "/" key)).
  2:{ rewrite !append_assoc_r. reflexivity. }
  rewrite strip_prefix_app.
  rewrite (split_char_app "/" "get"); [|unfold free_of; simpl; intuition discriminate].
  rewrite (split_char_free "/" key) by exact Hk.
  simpl. destruct (r_store r !! key) as [e|]; [|reflexivity].
  destruct (live now e); reflexivity.
Qed.

(** With the remote service behind [redis_client], what [get] hands back
    after [set(key, value)] is the value with every slash replaced. *)
Lemma upstash_set_then_get (key value : string) (ttl : Z) (w : World) (b t : string) :
  redis_client w = Some (Upstash {| base_url := Some b; token := Some t |}) ->
  b <> "" -> t <> "" ->
  r_base (remote w) = b -> r_token (remote w) = t -> r_up (remote w) = true ->
  free_of "/" key ->
  0 < ttl ->
  fst (set_cache key (VStr value) ttl w) = true /\
  r_store (remote (snd (set_cache key (VStr value) ttl w))) !! key
  = Some (replace_char "/" "_SLASH_" value, Some (loop_time w + inject_Z ttl)%Q) /\
  fst (get_cache key (snd (set_cache key (VStr value) ttl w)))
  = if String.eqb (replace_char "/" "_SLASH_" value) ""
    then VNone else deserialize (replace_char "/" "_SLASH_" value).
Proof.
  intros Hc Hb Ht Hrb Hrt Hup Hk Httl.
  apply String.eqb_neq in Hb, Ht.
  assert (Hh : headers {| base_url := Some b; token := Some t |} = Some ("Bearer " ++ t)).
  { unfold headers. simpl. rewrite Hb, Ht. reflexivity. }
  set (enc := replace_char "/" "_SLASH_" value).
  assert (Hset : set_cache key (VStr value) ttl w
                 = (true, with_remote w
                      (with_store (remote w)
                         (<[key := (enc, Some (loop_time w + inject_Z ttl)%Q)]>
                            (r_store (remote w)))))).
  { unfold set_cache, get_redis_client. rewrite Hc. unfold client_set, upstash_set.
    rewrite Hh. cbn [base_url fmt_opt].
    destruct (Z.eqb_spec ttl 0) as [E|_]; [lia|]. simpl negb. cbv iota.
    fold enc. rewrite <- Hrb at 1. rewrite <- Hrt.
    rewrite (rest_set (remote w) (loop_time w) key enc ttl Hup Hk
               (replace_slash_free value) Httl).
    reflexivity. }
  rewrite Hset. split; [reflexivity|]. simpl snd.
  split; [cbn [remote with_remote r_store with_store]; apply lookup_insert_eq|].
  unfold get_cache, get_redis_client. cbn [redis_client with_remote]. rewrite Hc.
  unfold client_get, upstash_get. rewrite Hh. cbn [base_url fmt_opt remote with_remote loop_time].
  pose proof (rest_get (with_store (remote w)
                (<[key := (enc, Some (loop_time w + inject_Z ttl)%Q)]> (r_store (remote w))))
              (loop_time w) key Hup Hk) as Hg.
  cbn [r_base r_token with_store r_store] in Hg. rewrite Hrb, Hrt in Hg.
  rewrite lookup_insert_eq in Hg.
  assert (Hlive : live (loop_time w) (enc, Some (loop_time w + inject_Z ttl)%Q) = true).
  { unfold live. simpl. apply negb_true_iff.
    destruct (Qle_bool _ _) eqn:E; [|reflexivity].
    apply Qle_bool_iff in E. exfalso.
    assert (Hlt : (loop_time w + 0 < loop_time w + inject_Z ttl)%Q).
    { apply Qplus_lt_r. change 0%Q with (inject_Z 0). rewrite <- Zlt_Qlt. exact Httl. }
    rewrite Qplus_0_r in Hlt. exact (Qlt_not_le _ _ Hlt E). }
  rewrite Hlive in Hg. simpl fst in Hg.
  destruct (rest _ _ _ _) as [resp r']. simpl in Hg. subst resp. simpl.
  unfold deserialize. destruct (String.eqb enc ""); simpl; [reflexivity|].
  destruct (json_loads enc); reflexivity.
Qed.
End Generic.

Section Concrete.
Import Examples.
Local Existing Instance Json.python_json.

Lemma set_then_get_in_memory_witness :
  fst (set_cache "k" (VList [VInt 1; VStr "a/b"]) 60 mem_world) = true /\
  fst (get_cache "k" (snd (set_cache "k" (VList [VInt 1; VStr "a/b"]) 60 mem_world)))
  = VList [VInt 1; VStr "a/b"] /\
  (forall t : Q, (0 <= t)%Q -> (t <= inject_Z 60)%Q ->
     fst (get_cache "k"
            (advance t (snd (set_cache "k" (VList [VInt 1; VStr "a/b"]) 60 mem_world))))
     = VList [VInt 1; VStr "a/b"]) /\
  (forall t : Q, (inject_Z 60 < t)%Q ->
     fst (get_cache "k"
            (advance t (snd (set_cache "k" (VList [VInt 1; VStr "a/b"]) 60 mem_world))))
     = VNone).
Proof.
  apply (set_then_get_in_memory "k" (VList [VInt 1; VStr "a/b"]) 60 mem_world
           {| cache := ∅; expiry := ∅ |}).
  - reflexivity.
  - lia.
  - exists (Json.dumps (VList [VInt 1; VStr "a/b"])).
    split; [reflexivity|]. split; [vm_compute; discriminate|reflexivity].
Defined.

(** C2, as stated, fails twice on the in-process cache: a string whose
    text is JSON comes back as the decoded number, and an entry is still
    served when exactly [ttl] seconds have passed. *)
Lemma set_then_get_counterexample :
  fst (get_cache "k" (snd (set_cache "k" (VStr "1") 60 mem_world))) = VInt 1 /\
  VInt 1 <> VStr "1" /\
  fst (get_cache "k"
         (advance (inject_Z 60) (snd (set_cache "k" (VList [VInt 1]) 60 mem_world))))
  = VList [VInt 1] /\
  VList [VInt 1] <> VNone.
Proof.
  split; [vm_compute; reflexivity|]. split; [discriminate|].
  split; [vm_compute; reflexivity|discriminate].
Qed.

(** C3, at the failing input: with the remote service behind
    [redis_client], [set("k", "a/b")] succeeds and the [get] that follows
    returns another string. *)
Lemma upstash_set_corrupts_slash :
  fst (set_cache "k" (VStr "a/b") 3600 upstash_world) = true /\
  fst (get_cache "k" (snd (set_cache "k" (VStr "a/b") 3600 upstash_world)))
  = VStr "a_SLASH_b".
Proof.
  split; vm_compute; reflexivity.
Qed.


End Concrete.

End CacheProps.

(** ** Properties of the provider aggregator *)

Module FetcherProps.

Import NewsFetcher.





Lemma sublist_In {A} (l1 l2 : list A) (x : A) :
  l1 `sublist_of` l2 -> In x l1 -> In x l2.
Proof.
  intros Hs Hin. apply list_elem_of_In. apply list_elem_of_In in Hin.
  eapply elem_of_sublist; eassumption.
Qed.




(** *** The deduplication loop *)

Lemma unique_by_url_sublist (seen : gset string) (l : list article) :
  unique_by_url seen l `sublist_of` l.
Proof.
  revert seen. induction l as [|x l IH]; intros seen; simpl; [constructor|].
  destruct (decide (url x ∈ seen)); [apply sublist_cons | apply sublist_skip]; apply IH.
Qed.





Section Demo.
Context `{Datetime}.




End Demo.

Section Concrete.
Import Examples.


(** The story two providers supply is kept once, from the provider of
    higher priority. *)
Example fetch_keeps_first_provider :
  map (fun a => (id a, source a))
      (articles (fst (fetch_news_by_query "ai" 1 10 fetch_world)))
  = [("1", "NewsAPI"); ("2", "NewsAPI"); ("4", "GNews")].
Proof. vm_compute. reflexivity. Qed.

End Concrete.

End FetcherProps.

(** ** Properties of the datastore's sorting and limiting *)

Module DbProps.

Import Db.

Lemma insert_by_In {A} (before : A -> A -> bool) (x y : A) (l : list A) :
  In x (insert_by before y l) <-> x = y \/ In x l.
Proof.
  induction l as [|z l IH]; simpl; [intuition|].
  destruct (before z y); simpl; rewrite ?IH; intuition.
Qed.

Lemma sort_by_In {A} (before : A -> A -> bool) (x : A) (l : list A) :
  In x (sort_by before l) <-> In x l.
Proof.
  induction l as [|z l IH]; simpl; [reflexivity|].
  rewrite insert_by_In, IH. intuition.
Qed.

Lemma insert_by_perm {A} (before : A -> A -> bool) (y : A) (l : list A) :
  Permutation (insert_by before y l) (y :: l).
Proof.
  induction l as [|z l IH]; simpl; [reflexivity|].
  destruct (before z y); [|reflexivity].
  rewrite IH. apply perm_swap.
Qed.

Lemma sort_by_perm {A} (before : A -> A -> bool) (l : list A) :
  Permutation (sort_by before l) l.
Proof.
  induction l as [|z l IH]; simpl; [reflexivity|].
  rewrite insert_by_perm. constructor. exact IH.
Qed.

Lemma Qgtb_true (a b : Q) : Qgtb a b = true <-> (b < a)%Q.
Proof.
  unfold Qgtb. destruct (Qle_bool a b) eqn:E; simpl.
  - apply Qle_bool_iff in E. split; [discriminate|].
    intros Hlt. exfalso. exact (Qlt_not_le _ _ Hlt E).
  - split; [intros _|reflexivity].
    apply Qnot_le_lt. intros Hle. apply Qle_bool_iff in Hle. congruence.
Qed.

Lemma Qgtb_false (a b : Q) : Qgtb a b = false <-> (a <= b)%Q.
Proof.
  unfold Qgtb. destruct (Qle_bool a b) eqn:E; simpl.
  - apply Qle_bool_iff in E. intuition.
  - split; [discriminate|]. intros Hle. apply Qle_bool_iff in Hle. congruence.
Qed.

Section Descending.
Context {A : Type} (key : A -> Q).

Local Abbreviation desc := (Db.desc key).

Lemma insert_desc_sorted (x : A) (l : list A) :
  StronglySorted desc l ->
  StronglySorted desc (insert_by (fun y x => Qgtb (key y) (key x)) x l).
Proof.
  induction 1 as [|z l Hs IH Hall]; simpl.
  - constructor; constructor.
  - destruct (Qgtb (key z) (key x)) eqn:E.
    + constructor; [exact IH|].
      apply Forall_forall. intros y Hy. apply list_elem_of_In in Hy.
      apply insert_by_In in Hy. destruct Hy as [-> | Hy].
      * apply Qgtb_true in E. unfold desc. apply Qlt_le_weak. exact E.
      * rewrite Forall_forall in Hall. apply Hall. apply list_elem_of_In. exact Hy.
    + apply Qgtb_false in E.
      constructor; [constructor; assumption|].
      constructor; [exact E|].
      rewrite Forall_forall in *. intros y Hy. unfold desc in *.
      eapply Qle_trans; [apply Hall; exact Hy | exact E].
Qed.

Lemma sort_desc_sorted (l : list A) :
  StronglySorted desc (sort_by (fun y x => Qgtb (key y) (key x)) l).
Proof.
  induction l as [|x l IH]; simpl; [constructor|].
  apply insert_desc_sorted. exact IH.
Qed.



End Descending.


Lemma firstn_sorted {A} (R : A -> A -> Prop) (n : nat) (l : list A) :
  StronglySorted R l -> StronglySorted R (firstn n l).
Proof.
  intros Hs. revert n. induction Hs as [|z l Hs IH Hall]; intros [|n]; simpl;
    try constructor.
  - apply IH.
  - apply Forall_take. exact Hall.
Qed.

End DbProps.

(** ** Properties of the recommendation engine *)

Module EngineProps.

Import Db Recommendation.

Section Generic.
Context `{JsonLib} `{Datetime} `{Externals}.











(** *** What the early exits lose *)

(** On the in-process cache, a successful append leaves the entry of
    [collaborative(U, k)] where it is, and the next call returns it. *)
Lemma append_keeps_collaborative_entry (user_id article_id interaction_type : string)
  (time_spent scroll : option Q) (source_page : option string) (k : Z)
  (w : World) (m : Cache.InMemoryCache) :
  Cache.redis_client (cw w) = Some (Cache.InMemory m) ->
  truthy (fst (get_cache (collaborative_key user_id k) w)) = true ->
  fst (record_user_interaction user_id article_id interaction_type
         time_spent scroll source_page w) = true ->
  fst (collaborative_filtering user_id k
         (snd (record_user_interaction user_id article_id interaction_type
                 time_spent scroll source_page w)))
  = fst (get_cache (collaborative_key user_id k) w).
Proof.
  intros Hc Hhit Hok.
  unfold record_user_interaction in *.
  destruct (insert_interaction _ _) as [d|]; [|discriminate Hok]. clear Hok.
  set (key1 := "recommendations:user:" ++ user_id).
  set (key2 := collaborative_key user_id k) in *.
  assert (Hne : key1 <> key2) by (subst key1 key2; unfold collaborative_key; discriminate).
  assert (Hsame : fst (Cache.get_cache key2 (snd (Cache.get_cache key1 (cw w))))
                  = fst (Cache.get_cache key2 (cw w))).
  { eapply CacheProps.get_cache_other; eassumption. }
  unfold collaborative_filtering. fold key2.
  unfold get_cache in *. simpl.
  destruct (Cache.get_cache key1 (cw w)) as [v1 c1]. simpl in *.
  destruct (Cache.get_cache key2 c1) as [v2 c2]. simpl in *.
  destruct (Cache.get_cache key2 (cw w)) as [v3 c3]. simpl in *.
  subst v2. rewrite Hhit. reflexivity.
Qed.

(** The neighbours after the first never enter the computation. *)
Lemma collaborative_rows_first_only (d : DB) (user_id : string) (k : Z)
  (row : string * Z * Z) (rows : list (string * Z * Z)) :
  collaborative_rows d user_id k (row :: rows) = collaborative_rows d user_id k [row].
Proof. destruct row as [[u c] t]. reflexivity. Qed.

(** Whenever the base pool is not empty, [diverse] computes [None]. *)
Lemma diverse_compute_nonempty_seed_pool (user_id : option string) (seed : string)
  (k : Z) (w : World) :
  seed <> "" ->
  truthy (fst (content_based_filtering seed (k * 2) w)) = true ->
  fst (diverse_compute user_id (Some seed) k w) = VNone.
Proof.
  intros Hseed Hpool. unfold diverse_compute. cbn [truthy_str fmt].
  apply String.eqb_neq in Hseed. rewrite Hseed. simpl.
  destruct (content_based_filtering seed (k * 2) w) as [v w1]. simpl in *.
  rewrite Hpool. reflexivity.
Qed.

(** *** The blended score *)










(** *** The articles [hybrid] returns have a score *)

Lemma find_in_recs_id (x : string) (recs : list value) (a : value) :
  find_in_recs x recs = Some (Some a) -> id_of a = Some x.
Proof.
  induction recs as [|b recs IH]; simpl; [discriminate|].
  destruct (has_id x b) as [[|]|] eqn:Hb; try discriminate.
  - intros [= <-]. unfold has_id in Hb. destruct b; try discriminate.
    unfold id_of, getitem.
    destruct (assoc "id" d) as [[]|]; try discriminate.
    injection Hb as Hb. apply String.eqb_eq in Hb. subst. reflexivity.
  - exact IH.
Qed.

Lemma find_in_results_id (x : string) (results : list (string * value)) (a : value) :
  find_in_results x results = Some (Some a) -> id_of a = Some x.
Proof.
  induction results as [|[algo recs] results IH]; simpl; [discriminate|].
  destruct (iterate recs) as [items|]; [|discriminate].
  destruct (find_in_recs x items) as [[b|]|] eqn:Hf; try discriminate.
  - intros [= <-]. eapply find_in_recs_id. exact Hf.
  - exact IH.
Qed.




End Generic.

Section Concrete.
Import Examples.
Local Existing Instance Json.python_json.


(** The same with the remote service behind [redis_client]. *)
Example stale_collaborative_after_append_remote :
  let w0 := set_cw (engine_world readers_db 100) upstash_world in
  let w1 := snd (collaborative_filtering "u" 5 w0) in
  let w2 := snd (record_user_interaction "u" "b1" "like" None None None w1) in
  fst (record_user_interaction "u" "b1" "like" None None None w1) = true /\
  ids_of (fst (collaborative_filtering "u" 5 w2)) = [Some "b1"] /\
  fst (collaborative_compute "u" 5 w2) = VList [].
Proof.
  repeat split; vm_compute; reflexivity.
Qed.




(** The two articles of the document's example, as the code returns
    them: [p1] (rank 11/2) in front of [p2] (rank 1/7). *)
Example trending_p1_before_p2 :
  ids_of (fst (trending_recommendations None 24 5 (engine_world trending_db (100 * 3600))))
  = [Some "p1"; Some "p2"] /\
  match trending_query trending_db (100 * 3600) (100 * 3600 - 24 * 3600) None 5 with
  | Some rows => map (fun r => (t_count r, Qred (t_hours r), Qred (t_rank r))) rows
  | None => []
  end = [(10, 1%Q, 11 # 2); (2, 20 # 1, 1 # 7)].
Proof. split; vm_compute; reflexivity. Qed.




(** The scores of the example: [b] has 0.4 * 1/2 + 0.2 = 2/5 when it is
    second in the content list and 0.4 + 0.2 = 3/5 when it is first. *)
Example hybrid_scores_of_b :
  option_map (fun s => Qred (lookup_score "b" s))
    (score_results [("content", VList [item "a"; item "b"]);
                    ("trending", VList [item "b"])] []) = Some (2 # 5) /\
  option_map (fun s => Qred (lookup_score "b" s))
    (score_results [("content", VList [item "b"; item "a"]);
                    ("trending", VList [item "b"])] []) = Some (3 # 5).
Proof. split; vm_compute; reflexivity. Qed.

End Concrete.

End EngineProps.

(** ** Further properties of the cache layer *)

Module CacheExtras.

Import Cache.

(** X1.  The in-process cache keeps every key that has a deadline among
    the keys that have a payload, through [get], [set] and [delete]; with
    that, [get] never raises. *)
Theorem in_memory_keys_invariant (m : InMemoryCache) (k v : string) (ex : Z) (now : Q) :
  mem_ok m ->
  mem_ok (snd (mem_get m k now)) /\
  mem_ok (snd (mem_set m k v ex now)) /\
  mem_ok (snd (mem_delete m k)) /\
  fst (mem_get m k now) <> None.
Proof.
  unfold mem_ok. intros Hok. repeat split.
  - unfold mem_get. destruct (expiry m !! k) as [d|]; [|exact Hok].
    destruct (negb (Qle_bool now d)); [|exact Hok].
    destruct (cache m !! k); [|exact Hok].
    simpl. rewrite !dom_delete_L. set_solver.
  - unfold mem_set. destruct (negb (ex =? 0)); simpl; rewrite ?dom_insert_L; set_solver.
  - unfold mem_delete. destruct (cache m !! k); [|exact Hok].
    simpl. rewrite !dom_delete_L. set_solver.
  - unfold mem_get. destruct (expiry m !! k) as [d|] eqn:He; [|discriminate].
    destruct (negb (Qle_bool now d)); [|discriminate].
    destruct (cache m !! k) eqn:Hc; [discriminate|].
    exfalso. assert (Hin : k ∈ dom (expiry m)) by (apply elem_of_dom; eauto).
    apply Hok in Hin. apply elem_of_dom in Hin. rewrite Hc in Hin.
    destruct Hin as [? [=]].
Qed.

Lemma in_memory_keys_invariant_witness :
  let m := {| cache := {["a" := "1"]}; expiry := {["a" := 5%Q]} |} in
  mem_ok (snd (mem_get m "a" 9%Q)) /\
  mem_ok (snd (mem_set m "a" "2" 0 9%Q)) /\
  mem_ok (snd (mem_delete m "a")) /\
  fst (mem_get m "a" 9%Q) <> None.
Proof.
  apply (in_memory_keys_invariant {| cache := {["a" := "1"]}; expiry := {["a" := 5%Q]} |}
           "a" "2" 0 9%Q).
  unfold mem_ok. simpl. rewrite !dom_singleton_L. set_solver.
Defined.

Section Generic.
Context `{JsonLib}.

Lemma set_cache_in_memory_any (k : string) (v : value) (ttl : Z) (w : World)
  (m : InMemoryCache) (s : string) :
  redis_client w = Some (InMemory m) ->
  serialize v = Some s ->
  set_cache k v ttl w
  = (true, with_client w (Some (InMemory (snd (mem_set m k s ttl (loop_time w)))))).
Proof.
  intros Hc Hs. unfold set_cache, get_redis_client. rewrite Hc.
  change (match v with VStr s0 => Some s0 | _ => json_dumps v end) with (serialize v).
  rewrite Hs. unfold client_set.
  destruct (mem_set m k s ttl (loop_time w)) as [b m'] eqn:E.
  assert (b = true) by (unfold mem_set in E; destruct (negb (ttl =? 0)); congruence).
  subst. reflexivity.
Qed.

Lemma set_cache_in_memory_fails (k : string) (v : value) (ttl : Z) (w : World)
  (m : InMemoryCache) :
  redis_client w = Some (InMemory m) ->
  serialize v = None ->
  set_cache k v ttl w = (false, w).
Proof.
  intros Hc Hs. unfold set_cache, get_redis_client. rewrite Hc.
  change (match v with VStr s0 => Some s0 | _ => json_dumps v end) with (serialize v).
  rewrite Hs. reflexivity.
Qed.

Lemma delete_cache_in_memory (k : string) (w : World) (m : InMemoryCache) :
  redis_client w = Some (InMemory m) ->
  delete_cache k w
  = (match cache m !! k with Some _ => true | None => false end,
     with_client w (Some (InMemory (snd (mem_delete m k))))).
Proof.
  intros Hc. unfold delete_cache, get_redis_client. rewrite Hc.
  unfold client_delete, mem_delete. destruct (cache m !! k); reflexivity.
Qed.

(** X2.  On the in-process cache, [delete] after [set] reports a removed
    entry, after which [get] returns absent at any time and a second
    [delete] reports nothing removed. *)
Theorem set_delete_get_in_memory (k : string) (v : value) (ttl : Z) (w : World)
  (m : InMemoryCache) (s : string) :
  redis_client w = Some (InMemory m) ->
  serialize v = Some s ->
  let w1 := snd (set_cache k v ttl w) in
  let w2 := snd (delete_cache k w1) in
  fst (delete_cache k w1) = true /\
  (forall t : Q, fst (get_cache k (advance t w2)) = VNone) /\
  fst (delete_cache k w2) = false.
Proof.
  intros Hc Hs. cbv zeta.
  rewrite (set_cache_in_memory_any k v ttl w m s Hc Hs). simpl snd.
  set (m1 := snd (mem_set m k s ttl (loop_time w))).
  assert (Hk : cache m1 !! k = Some s).
  { subst m1. unfold mem_set. destruct (negb (ttl =? 0)); simpl; apply lookup_insert_eq. }
  erewrite delete_cache_in_memory by reflexivity. rewrite Hk. simpl.
  set (m2 := snd (mem_delete m1 k)).
  assert (Hc2 : cache m2 !! k = None /\ expiry m2 !! k = None).
  { subst m2. unfold mem_delete. rewrite Hk. simpl. split; apply lookup_delete_eq. }
  destruct Hc2 as [Hc2 He2].
  split; [reflexivity|]. split.
  - intros t. erewrite CacheProps.get_cache_in_memory by reflexivity.
    unfold mem_get. rewrite He2, Hc2. reflexivity.
  - erewrite delete_cache_in_memory by reflexivity. rewrite Hc2. reflexivity.
Qed.


Lemma mem_get_set_other (m : InMemoryCache) (k1 k2 s : string) (ttl : Z) (t t' : Q) :
  k1 <> k2 ->
  fst (mem_get (snd (mem_set m k1 s ttl t)) k2 t') = fst (mem_get m k2 t').
Proof.
  intros Hne. unfold mem_set, mem_get.
  destruct (negb (ttl =? 0)); simpl; rewrite ?lookup_insert_ne by exact Hne;
    destruct (expiry m !! k2) as [d|]; try reflexivity;
    destruct (negb (Qle_bool t' d)); try reflexivity;
    destruct (cache m !! k2); reflexivity.
Qed.

Lemma mem_get_delete_other (m : InMemoryCache) (k1 k2 : string) (t : Q) :
  k1 <> k2 ->
  fst (mem_get (snd (mem_delete m k1)) k2 t) = fst (mem_get m k2 t).
Proof.
  intros Hne. unfold mem_delete.
  destruct (cache m !! k1); [|reflexivity].
  unfold mem_get. simpl. rewrite !lookup_delete_ne by exact Hne.
  destruct (expiry m !! k2) as [d|]; try reflexivity.
  destruct (negb (Qle_bool t d)); try reflexivity.
  destruct (cache m !! k2); reflexivity.
Qed.

(** X3.  On the in-process cache, a [set], a [delete] or a [get] of one
    key never changes what a [get] of another key returns. *)
Theorem other_keys_unchanged_in_memory (k1 k2 : string) (v : value) (ttl : Z)
  (w : World) (m : InMemoryCache) :
  redis_client w = Some (InMemory m) ->
  k1 <> k2 ->
  fst (get_cache k2 (snd (set_cache k1 v ttl w))) = fst (get_cache k2 w) /\
  fst (get_cache k2 (snd (delete_cache k1 w))) = fst (get_cache k2 w) /\
  fst (get_cache k2 (snd (get_cache k1 w))) = fst (get_cache k2 w).
Proof.
  intros Hc Hne. split; [|split].
  - destruct (serialize v) as [s|] eqn:Hs.
    + rewrite (set_cache_in_memory_any k1 v ttl w m s Hc Hs). simpl snd.
      erewrite CacheProps.get_cache_in_memory by reflexivity.
      rewrite (CacheProps.get_cache_in_memory k2 w m Hc). simpl.
      rewrite mem_get_set_other by exact Hne. reflexivity.
    + rewrite (set_cache_in_memory_fails k1 v ttl w m Hc Hs). reflexivity.
  - rewrite (delete_cache_in_memory k1 w m Hc). simpl snd.
    erewrite CacheProps.get_cache_in_memory by reflexivity.
    rewrite (CacheProps.get_cache_in_memory k2 w m Hc). simpl.
    rewrite mem_get_delete_other by exact Hne. reflexivity.
  - eapply CacheProps.get_cache_other; eassumption.
Qed.

Lemma mem_set_zero (m : InMemoryCache) (k s : string) (t : Q) :
  snd (mem_set m k s 0 t) = {| cache := <[k := s]> (cache m); expiry := expiry m |}.
Proof. reflexivity. Qed.

Lemma mem_set_ttl (m : InMemoryCache) (k s : string) (ttl : Z) (t : Q) :
  ttl <> 0 ->
  snd (mem_set m k s ttl t)
  = {| cache := <[k := s]> (cache m);
       expiry := <[k := (t + inject_Z ttl)%Q]> (expiry m) |}.
Proof.
  intros Hz. unfold mem_set. destruct (Z.eqb_spec ttl 0); [contradiction | reflexivity].
Qed.

Lemma mem_get_no_deadline (m : InMemoryCache) (k : string) (t : Q) :
  expiry m !! k = None -> fst (mem_get m k t) = Some (cache m !! k).
Proof. intros He. unfold mem_get. rewrite He. reflexivity. Qed.

Lemma mem_get_before (m : InMemoryCache) (k : string) (d t : Q) :
  expiry m !! k = Some d -> (t <= d)%Q -> fst (mem_get m k t) = Some (cache m !! k).
Proof.
  intros He Hle. unfold mem_get. rewrite He.
  apply Qle_bool_iff in Hle. rewrite Hle. reflexivity.
Qed.

Lemma mem_get_after (m : InMemoryCache) (k s : string) (d t : Q) :
  expiry m !! k = Some d -> cache m !! k = Some s -> (d < t)%Q ->
  fst (mem_get m k t) = Some None.
Proof.
  intros He Hc Hlt. unfold mem_get. rewrite He, Hc.
  destruct (Qle_bool t d) eqn:E; [|reflexivity].
  apply Qle_bool_iff in E. exfalso. exact (Qlt_not_le _ _ Hlt E).
Qed.

(** X4.  [InMemoryCache.set] writes a deadline only for a truthy [ex].
    An entry set with [ex = 0] on a key without deadline never expires;
    set on a key that had a deadline, it keeps that old deadline and is
    gone once the old one has passed. *)
Theorem set_without_ttl_keeps_deadline (k : string) (v1 v2 : value) (ttl : Z)
  (w : World) (m : InMemoryCache) (s1 : string) :
  redis_client w = Some (InMemory m) ->
  serialize v1 = Some s1 ->
  round_trips v2 ->
  0 < ttl ->
  (expiry m !! k = None ->
   forall t : Q, fst (get_cache k (advance t (snd (set_cache k v2 0 w)))) = v2) /\
  (forall t : Q, (t <= inject_Z ttl)%Q ->
     fst (get_cache k (advance t (snd (set_cache k v2 0 (snd (set_cache k v1 ttl w))))))
     = v2) /\
  (forall t : Q, (inject_Z ttl < t)%Q ->
     fst (get_cache k (advance t (snd (set_cache k v2 0 (snd (set_cache k v1 ttl w))))))
     = VNone).
Proof.
  intros Hc Hs1 (s2 & Hs2 & Hne & Hd) Httl.
  assert (Hs2' : String.eqb s2 "" = false) by (apply String.eqb_neq; exact Hne).
  assert (Hz : ttl <> 0) by lia.
  split; [|split].
  - intros He t.
    rewrite (set_cache_in_memory_any k v2 0 w m s2 Hc Hs2). cbn [snd].
    erewrite CacheProps.get_cache_in_memory by reflexivity.
    rewrite mem_set_zero, mem_get_no_deadline by exact He.
    cbn [cache]. rewrite lookup_insert_eq, Hs2'. exact Hd.
  - intros t Ht.
    rewrite (set_cache_in_memory_any k v1 ttl w m s1 Hc Hs1). cbn [snd].
    erewrite set_cache_in_memory_any by (try reflexivity; exact Hs2). cbn [snd].
    erewrite CacheProps.get_cache_in_memory by reflexivity.
    rewrite mem_set_zero, (mem_set_ttl _ _ _ _ _ Hz). cbn [cache expiry].
    erewrite mem_get_before; [| cbn [expiry]; apply lookup_insert_eq |].
    + cbn [cache]. rewrite lookup_insert_eq, Hs2'. exact Hd.
    + simpl. apply Qplus_le_r. exact Ht.
  - intros t Ht.
    rewrite (set_cache_in_memory_any k v1 ttl w m s1 Hc Hs1). cbn [snd].
    erewrite set_cache_in_memory_any by (try reflexivity; exact Hs2). cbn [snd].
    erewrite CacheProps.get_cache_in_memory by reflexivity.
    rewrite mem_set_zero, (mem_set_ttl _ _ _ _ _ Hz). cbn [cache expiry].
    erewrite mem_get_after; [reflexivity | cbn [expiry]; apply lookup_insert_eq
                             | cbn [cache]; apply lookup_insert_eq |].
    simpl. apply Qplus_lt_r. exact Ht.
Qed.

(** *** A cache that cannot be used *)

Lemma upstash_off (c : UpstashRedisClient) (r : Remote) (now : Q) (k v : string) (ex : Z) :
  headers c = None \/ r_up r = false ->
  upstash_get c k r now = (None, r) /\
  upstash_set c k v ex r now = (None, r) /\
  upstash_delete c k r now = (None, r).
Proof.
  intros Hoff. unfold upstash_get, upstash_set, upstash_delete.
  destruct (headers c) as [h|]; [|repeat split; reflexivity].
  destruct Hoff as [Hoff | Hoff]; [discriminate|].
  unfold rest. rewrite Hoff. repeat split; reflexivity.
Qed.

(** The client [get_redis_client] hands out when the cache is off. *)
Lemma cache_off_client (w : World) :
  cache_off w ->
  exists c, get_redis_client w = (Upstash c, with_client w (Some (Upstash c))) /\
            (headers c = None \/ r_up (remote w) = false).
Proof.
  unfold cache_off, uncredentialed, remote_backed, get_redis_client.
  destruct (redis_client w) as [[c|m]|] eqn:Hc.
  - intros Hoff. exists c. split.
    + f_equal. destruct w; simpl in *. subst. reflexivity.
    + destruct Hoff as [Hoff | [_ Hoff]]; auto.
  - intros [[] | [[] _]].
  - intros Hoff. eexists. split; [reflexivity|].
    destruct Hoff as [Hoff | [_ Hoff]]; [left | right; exact Hoff].
    unfold headers. simpl. rewrite Hoff. reflexivity.
Qed.

Lemma cache_off_installed (w : World) (c : UpstashRedisClient) :
  cache_off w ->
  headers c = None \/ r_up (remote w) = false ->
  get_redis_client w = (Upstash c, with_client w (Some (Upstash c))) ->
  cache_off (with_remote (with_client w (Some (Upstash c))) (remote w)).
Proof.
  intros _ Hoff _. unfold cache_off, uncredentialed, remote_backed. simpl.
  destruct Hoff as [Hoff | Hoff]; [left; exact Hoff | right; split; [exact I | exact Hoff]].
Qed.

Section Off.
Context `{JsonLib}.

(** All three operations miss, and leave a world in which the cache is
    still off and the service's store is what it was. *)
Lemma cache_off_operations (k : string) (v : value) (ttl : Z) (w : World) :
  cache_off w ->
  (fst (get_cache k w) = VNone /\ cache_off (snd (get_cache k w))
   /\ remote (snd (get_cache k w)) = remote w) /\
  (fst (set_cache k v ttl w) = false /\ cache_off (snd (set_cache k v ttl w))
   /\ remote (snd (set_cache k v ttl w)) = remote w) /\
  (fst (delete_cache k w) = false /\ cache_off (snd (delete_cache k w))
   /\ remote (snd (delete_cache k w)) = remote w).
Proof.
  intros Hoff.
  destruct (cache_off_client w Hoff) as (c & Hg & Hc).
  pose proof (cache_off_installed w c Hoff Hc Hg) as Hoff'.
  assert (Hoff'' : cache_off (with_client w (Some (Upstash c)))).
  { unfold cache_off, uncredentialed, remote_backed in *. simpl in *. exact Hoff'. }
  split; [|split].
  - unfold get_cache. rewrite Hg. unfold client_get.
    destruct (upstash_off c (remote (with_client w (Some (Upstash c))))
                (loop_time (with_client w (Some (Upstash c)))) k "" 0 Hc) as (-> & _ & _).
    simpl. repeat split; [exact Hoff'].
  - unfold set_cache. rewrite Hg.
    destruct (match v with VStr s => Some s | _ => json_dumps v end) as [s|].
    + unfold client_set.
      destruct (upstash_off c (remote (with_client w (Some (Upstash c))))
                  (loop_time (with_client w (Some (Upstash c)))) k s ttl Hc) as (_ & -> & _).
      simpl. repeat split; [exact Hoff'].
    + simpl. repeat split; [exact Hoff''].
  - unfold delete_cache. rewrite Hg. unfold client_delete.
    destruct (upstash_off c (remote (with_client w (Some (Upstash c))))
                (loop_time (with_client w (Some (Upstash c)))) k "" 0 Hc) as (_ & _ & ->).
    simpl. repeat split; [exact Hoff'].
Qed.

(** X5.  When the remote cache cannot be used, because a credential is
    missing or because the service cannot be reached, [get_cache] returns
    absent, [set_cache] and [delete_cache] return [False], the service's
    store is untouched, and the in-process cache is not switched to: a
    value that was just set is not read back. *)
Theorem cache_off_is_a_miss (k : string) (v : value) (ttl : Z) (w : World) :
  cache_off w ->
  fst (get_cache k w) = VNone /\
  fst (set_cache k v ttl w) = false /\
  fst (delete_cache k w) = false /\
  remote (snd (set_cache k v ttl w)) = remote w /\
  fst (get_cache k (snd (set_cache k v ttl w))) = VNone.
Proof.
  intros Hoff.
  destruct (cache_off_operations k v ttl w Hoff)
    as ((Hg & _ & _) & (Hs & Hoff' & Hr) & (Hd & _ & _)).
  repeat split; try assumption.
  destruct (cache_off_operations k v ttl _ Hoff') as ((Hg' & _ & _) & _). exact Hg'.
Qed.

End Off.

End Generic.

Section Concrete.
Import Examples.
Local Existing Instance Json.python_json.

Lemma set_delete_get_in_memory_witness :
  let w1 := snd (set_cache "k" (VList [VInt 1]) 60 mem_world) in
  let w2 := snd (delete_cache "k" w1) in
  fst (delete_cache "k" w1) = true /\
  (forall t : Q, fst (get_cache "k" (advance t w2)) = VNone) /\
  fst (delete_cache "k" w2) = false.
Proof.
  apply (set_delete_get_in_memory "k" (VList [VInt 1]) 60 mem_world
           {| cache := ∅; expiry := ∅ |} (Json.dumps (VList [VInt 1])));
    reflexivity.
Defined.

Lemma other_keys_unchanged_in_memory_witness :
  let w := snd (set_cache "b" (VInt 7) 60 mem_world) in
  fst (get_cache "b" (snd (set_cache "a" (VInt 1) 60 w))) = fst (get_cache "b" w) /\
  fst (get_cache "b" (snd (delete_cache "a" w))) = fst (get_cache "b" w) /\
  fst (get_cache "b" (snd (get_cache "a" w))) = fst (get_cache "b" w).
Proof.
  eapply (other_keys_unchanged_in_memory "a" "b" (VInt 1) 60
            (snd (set_cache "b" (VInt 7) 60 mem_world))).
  - vm_compute. reflexivity.
  - discriminate.
Defined.

Lemma set_without_ttl_keeps_deadline_witness :
  (expiry {| cache := ∅; expiry := ∅ |} !! "k" = None ->
   forall t : Q,
     fst (get_cache "k" (advance t (snd (set_cache "k" (VInt 2) 0 mem_world)))) = VInt 2) /\
  (forall t : Q, (t <= inject_Z 60)%Q ->
     fst (get_cache "k"
            (advance t (snd (set_cache "k" (VInt 2) 0
                               (snd (set_cache "k" (VInt 1) 60 mem_world))))))
     = VInt 2) /\
  (forall t : Q, (inject_Z 60 < t)%Q ->
     fst (get_cache "k"
            (advance t (snd (set_cache "k" (VInt 2) 0
                               (snd (set_cache "k" (VInt 1) 60 mem_world))))))
     = VNone).
Proof.
  apply (set_without_ttl_keeps_deadline "k" (VInt 1) (VInt 2) 60 mem_world
           {| cache := ∅; expiry := ∅ |} (Json.dumps (VInt 1))).
  - reflexivity.
  - reflexivity.
  - exists (Json.dumps (VInt 2)). split; [reflexivity|].
    split; [vm_compute; discriminate | reflexivity].
  - lia.
Defined.

Lemma cache_off_is_a_miss_witness :
  fst (get_cache "k" bare_world) = VNone /\
  fst (set_cache "k" (VInt 1) 60 bare_world) = false /\
  fst (delete_cache "k" bare_world) = false /\
  remote (snd (set_cache "k" (VInt 1) 60 bare_world)) = remote bare_world /\
  fst (get_cache "k" (snd (set_cache "k" (VInt 1) 60 bare_world))) = VNone.
Proof.
  apply (cache_off_is_a_miss "k" (VInt 1) 60 bare_world).
  left. reflexivity.
Defined.

End Concrete.

End CacheExtras.

(** ** Further properties of the provider aggregator *)

Module FetcherExtras.

Import NewsFetcher.

(** *** Read time *)

(** Rounding [n / 1350] to the nearest integer, ties to even *)
Lemma read_minutes_unfold (n : Z) :
  read_minutes n
  = Z.max 1 (if 2 * (n mod 1350) <? 1350 then n / 1350
             else if 1350 <? 2 * (n mod 1350) then n / 1350 + 1
             else if Z.even (n / 1350) then n / 1350 else n / 1350 + 1).
Proof.
  unfold read_minutes, py_round. cbn [Qnum Qden Qdiv Qmult Qinv inject_Z].
  cbn. rewrite !Z.mul_1_r. reflexivity.
Qed.

(** X6.  The read-time label counts at least one minute, never fewer
    minutes for a longer text, exactly one minute below 2025 characters,
    and from 675 characters on the minutes are within half a minute of
    [content_length / 1350].  (Lengths below [2 ^ 52]: there the float
    quotient of the source rounds as the exact one.) *)
Theorem read_minutes_bounds (n m : Z) :
  0 <= n -> n <= m -> m < 2 ^ 52 ->
  1 <= read_minutes n /\
  read_minutes n <= read_minutes m /\
  (read_minutes n = 1 <-> n < 2025) /\
  (675 <= n -> -675 <= 1350 * read_minutes n - n <= 675).
Proof.
  intros Hn Hnm _. rewrite !read_minutes_unfold.
  pose proof (Z.div_mod n 1350 ltac:(lia)) as Dn.
  pose proof (Z.mod_pos_bound n 1350 ltac:(lia)) as Bn.
  pose proof (Z.div_mod m 1350 ltac:(lia)) as Dm.
  pose proof (Z.mod_pos_bound m 1350 ltac:(lia)) as Bm.
  assert (Hq : 0 <= n / 1350) by (apply Z.div_pos; lia).
  assert (Hqm : n / 1350 <= m / 1350) by (apply Z.div_le_mono; lia).
  assert (He : n / 1350 = m / 1350 -> Z.even (n / 1350) = Z.even (m / 1350))
    by (intros ->; reflexivity).
  assert (Hodd : n / 1350 = 1 -> Z.even (n / 1350) = false) by (intros ->; reflexivity).
  assert (Hzero : n / 1350 = 0 -> Z.even (n / 1350) = true) by (intros ->; reflexivity).
  set (qn := n / 1350) in *. set (rn := n mod 1350) in *.
  set (qm := m / 1350) in *. set (rm := m mod 1350) in *.
  destruct (Z.ltb_spec (2 * rn) 1350), (Z.ltb_spec 1350 (2 * rn)),
           (Z.ltb_spec (2 * rm) 1350), (Z.ltb_spec 1350 (2 * rm)),
           (Z.even qn) eqn:En, (Z.even qm) eqn:Em;
    repeat split; intros; try lia;
    try (destruct (Z.eq_dec qn qm) as [E|E]; [specialize (He E); congruence | lia]);
    try (destruct (Z.eq_dec qn 1) as [E|E]; [specialize (Hodd E); congruence | lia]);
    try (destruct (Z.eq_dec qn 0) as [E|E]; [specialize (Hzero E); congruence | lia]).
Qed.


(** *** Quota counters *)

Lemma counter_step_refl (c : counter) : counter_step c c.
Proof. unfold counter_step. lia. Qed.

Lemma counter_step_bump (c : counter) : below_limit c = true -> counter_step c (bump c).
Proof.
  unfold counter_step, below_limit, bump. intros Hb. apply Z.ltb_lt in Hb. simpl. lia.
Qed.

Local Ltac step_if :=
  match goal with
  | |- context [if ?b then _ else _] => destruct b eqn:?
  end.

Local Ltac guards :=
  repeat match goal with
         | H : _ && _ = true |- _ => apply andb_prop in H; destruct H
         end;
  try match goal with
      | H : negb ?x = true, H' : ?x = true |- _ => rewrite H' in H; discriminate H
      end.

Local Ltac walk :=
  repeat (step_if; cbn -[slice Z.ltb len below_limit nonempty bump]);
  guards;
  (split; [|split; [|split]]);
  first [ apply counter_step_refl | apply counter_step_bump; assumption ].

Section Generic.
Context `{Datetime}.

Lemma gather_by_query_steps (query : string) (page page_size : Z) (w : World) :
  steps w (snd (gather_by_query query page page_size w)).
Proof.
  unfold steps, gather_by_query.
  unfold fetch_from_newsapi, fetch_from_gnews, fetch_from_nytimes, fetch_from_duckduckgo.
  cbn -[slice Z.ltb len below_limit nonempty bump].
  destruct (newsapi_everything (net w) (if nonempty query then query else "news")
              page page_size) as [l0 t0].
  walk.
Qed.

Lemma gather_trending_steps (category : option string) (page page_size : Z) (w : World) :
  steps w (snd (gather_trending category page page_size w)).
Proof.
  unfold steps, gather_trending.
  unfold fetch_trending_from_newsapi, fetch_trending_from_gnews, fetch_from_nytimes.
  cbn -[slice Z.ltb len below_limit nonempty bump NEWS_CATEGORIES valid_sections].
  match goal with
  | |- context [newsapi_top_headlines ?n ?c ?p ?s] =>
      destruct (newsapi_top_headlines n c p s) as [l0 t0]
  end.
  walk.
Qed.

Lemma gather_trending_duckduckgo (category : option string) (page page_size : Z)
  (w : World) :
  u_duckduckgo (api_usage (snd (gather_trending category page page_size w)))
  = u_duckduckgo (api_usage w).
Proof.
  unfold gather_trending.
  unfold fetch_trending_from_newsapi, fetch_trending_from_gnews, fetch_from_nytimes.
  cbn -[slice Z.ltb len below_limit nonempty bump NEWS_CATEGORIES valid_sections].
  match goal with
  | |- context [newsapi_top_headlines ?n ?c ?p ?s] =>
      destruct (newsapi_top_headlines n c p s) as [l0 t0]
  end.
  repeat (step_if; cbn -[slice Z.ltb len below_limit nonempty bump]); reflexivity.
Qed.

(** X7.  One call of either entry point leaves every limit as it was,
    raises every counter by one at most, and raises no counter that had
    reached its limit; [fetch_trending_news] leaves the DuckDuckGo counter
    alone. *)
Theorem entry_points_respect_quota (query : string) (category : option string)
  (page page_size : Z) (w : World) :
  steps w (snd (fetch_news_by_query query page page_size w)) /\
  steps w (snd (fetch_trending_news category page page_size w)) /\
  u_duckduckgo (api_usage (snd (fetch_trending_news category page page_size w)))
  = u_duckduckgo (api_usage w).
Proof.
  split; [|split].
  - pose proof (gather_by_query_steps query page page_size w) as Hs.
    unfold fetch_news_by_query.
    destruct (gather_by_query query page page_size w) as [[results total] w'].
    destruct results; exact Hs.
  - pose proof (gather_trending_steps category page page_size w) as Hs.
    unfold fetch_trending_news.
    destruct (gather_trending category page page_size w) as [[results total] w'].
    destruct results; exact Hs.
  - pose proof (gather_trending_duckduckgo category page page_size w) as Hs.
    unfold fetch_trending_news.
    destruct (gather_trending category page page_size w) as [[results total] w'].
    destruct results; exact Hs.
Qed.

(** *** No provider to ask *)

Lemma idle_newsapi (w : World) :
  newsapi_idle w -> below_limit (u_newsapi (api_usage w)) && newsapi w = false.
Proof. intros [-> | ->]; [apply andb_false_r | reflexivity]. Qed.

Lemma idle_gnews (w : World) (b : bool) :
  gnews_idle w ->
  b && below_limit (u_gnews (api_usage w)) && nonempty (GNEWS_API_KEY w) = false.
Proof.
  intros [-> | ->]; [apply andb_false_r | rewrite andb_false_r; reflexivity].
Qed.

Lemma idle_nytimes (w : World) (b : bool) :
  nytimes_idle w ->
  b && below_limit (u_nytimes (api_usage w)) && nonempty (NEWYORK_TIMES_API_KEY w) = false.
Proof.
  intros [-> | ->]; [apply andb_false_r | rewrite andb_false_r; reflexivity].
Qed.

(** X8.  When no provider can be asked, a search answers with the page of
    the sample set that [get_demo_news] gives for the query, and changes
    nothing. *)
Theorem search_falls_back_to_samples (query : string) (page page_size : Z) (w : World) :
  newsapi_idle w -> gnews_idle w -> nytimes_idle w -> duckduckgo_idle w ->
  fetch_news_by_query query page page_size w
  = (get_demo_news (Some query) None page page_size (now w), w).
Proof.
  intros H1 H2 H3 H4. unfold fetch_news_by_query, gather_by_query.
  rewrite (idle_newsapi w H1).
  rewrite (idle_gnews w _ H2).
  rewrite (idle_nytimes w _ H3).
  rewrite H4, andb_false_r. reflexivity.
Qed.

(** X9.  When none of its three providers can be asked, the trending
    feed answers with the page of the sample set that [get_demo_news]
    gives for the category, and changes nothing. *)
Theorem trending_falls_back_to_samples (category : option string) (page page_size : Z)
  (w : World) :
  newsapi_idle w -> gnews_idle w -> nytimes_idle w ->
  fetch_trending_news category page page_size w
  = (get_demo_news None category page page_size (now w), w).
Proof.
  intros H1 H2 H3. unfold fetch_trending_news, gather_trending.
  rewrite (idle_newsapi w H1).
  rewrite (idle_gnews w _ H2).
  rewrite (idle_nytimes w _ H3). reflexivity.
Qed.

(** *** A first provider that fills the page *)


(** *** The sample set, filtered and cut into pages *)

Lemma filter_true {A} (l : list A) : List.filter (fun _ => true) l = l.
Proof. induction l as [|x l IH]; simpl; [|rewrite IH]; reflexivity. Qed.

Lemma filter_filter {A} (f g : A -> bool) (l : list A) :
  List.filter g (List.filter f l) = List.filter (fun a => f a && g a) l.
Proof.
  induction l as [|x l IH]; simpl; [reflexivity|].
  destruct (f x); simpl; [destruct (g x)|]; rewrite IH; reflexivity.
Qed.

Lemma slice_window {A} (l : list A) (s e : Z) :
  0 <= s <= e ->
  slice l s e = firstn (Z.to_nat (e - s)) (skipn (Z.to_nat s) l).
Proof.
  intros Hse. unfold slice, clamp_index.
  destruct (Z.ltb_spec s 0), (Z.ltb_spec e 0); try lia.
  destruct (Z_lt_le_dec s (Z.of_nat (length l))) as [Hs | Hs].
  - rewrite (Z.min_r _ s) by lia.
    destruct (Z_lt_le_dec e (Z.of_nat (length l))) as [He | He].
    + rewrite (Z.min_r _ e) by lia. reflexivity.
    + rewrite (Z.min_l _ e) by lia.
      rewrite !firstn_all2; [reflexivity | |]; rewrite length_skipn; lia.
  - rewrite !skipn_all2 by lia. rewrite !firstn_nil. reflexivity.
Qed.

Lemma slice_before_first {A} (l : list A) (n : Z) : 0 <= n -> slice l (- n) 0 = [].
Proof.
  intros Hn. unfold slice, clamp_index.
  destruct (Z.ltb_spec (- n) 0); simpl.
  - replace (Z.to_nat _) with 0%nat by lia. reflexivity.
  - replace (Z.to_nat _) with 0%nat by lia. reflexivity.
Qed.

Lemma get_demo_news_filtered (query category : option string) (page page_size t : Z) :
  let matches := List.filter (demo_match query category) (demo_articles t) in
  get_demo_news query category page page_size t
  = {| articles := slice matches ((page - 1) * page_size)
                     ((page - 1) * page_size + page_size);
       totalResults := len matches;
       page := page; pageSize := page_size |}.
Proof.
  cbv zeta. unfold get_demo_news, len. cbv zeta.
  set (all := demo_articles t).
  assert (E : forall l : list article,
             match category with
             | Some c => if nonempty c
                         then List.filter (fun a => String.eqb (lower (topic a)) (lower c))
                                (match query with
                                 | Some q => if nonempty q
                                             then List.filter
                                                    (fun a => contains (lower q) (lower (title a))
                                                              || contains (lower q) (lower (summary a))) l
                                             else l
                                 | None => l
                                 end)
                         else match query with
                              | Some q => if nonempty q
                                          then List.filter
                                                 (fun a => contains (lower q) (lower (title a))
                                                           || contains (lower q) (lower (summary a))) l
                                          else l
                              | None => l
                              end
             | None => match query with
                       | Some q => if nonempty q
                                   then List.filter
                                          (fun a => contains (lower q) (lower (title a))
                                                    || contains (lower q) (lower (summary a))) l
                                   else l
                       | None => l
                       end
             end = List.filter (demo_match query category) l).
  { intros l. unfold demo_match.
    destruct category as [c|]; [destruct (nonempty c)|];
      (destruct query as [q|]; [destruct (nonempty q)|]);
      rewrite ?filter_filter; cbn [andb];
      try (symmetry; apply filter_true);
      try reflexivity;
      apply filter_ext; intros a; rewrite ?andb_true_r; reflexivity. }
  rewrite E. reflexivity.
Qed.

(** X11.  [get_demo_news] reports as total the number of sample articles
    that pass the query and category filter, whatever the page; page
    [p >= 1] holds the matches from position [(p - 1) * page_size] on,
    [page_size] of them at most, and page 0 holds none. *)
Theorem demo_pages (query category : option string) (page page_size t : Z) :
  0 <= page_size ->
  let matches := List.filter (demo_match query category) (demo_articles t) in
  let e := get_demo_news query category page page_size t in
  totalResults e = len matches /\
  (page = 0 -> articles e = []) /\
  (1 <= page ->
   articles e = firstn (Z.to_nat page_size)
                  (skipn (Z.to_nat ((page - 1) * page_size)) matches)).
Proof.
  intros Hps. cbv zeta. rewrite get_demo_news_filtered. cbv zeta. cbn [totalResults articles].
  split; [reflexivity|]. split.
  - intros ->.
    replace ((0 - 1) * page_size) with (- page_size) by lia.
    replace (- page_size + page_size) with 0 by lia.
    apply slice_before_first. exact Hps.
  - intros Hp. rewrite slice_window by nia.
    f_equal. f_equal. lia.
Qed.

(** *** A page cut before it is deduplicated *)

Lemma unique_by_url_length (seen : gset string) (l : list article) :
  length (unique_by_url seen l) = length l
  <-> NoDup (map url l) /\ forall a, In a l -> url a ∉ seen.
Proof.
  revert seen. induction l as [|x l IH]; intros seen; simpl.
  - split; [intros _; split; [constructor | contradiction] | reflexivity].
  - pose proof (sublist_length _ _ (FetcherProps.unique_by_url_sublist seen l)) as Hle.
    destruct (decide (url x ∈ seen)) as [Hx | Hx].
    + split; [intros E; lia|].
      intros [_ Hall]. exfalso. apply (Hall x); [left; reflexivity | exact Hx].
    + simpl. rewrite NoDup_cons. split.
      * intros E. injection E as E. apply IH in E. destruct E as [Hnd Hall].
        split; [split; [|exact Hnd]|].
        -- rewrite list_elem_of_In. intros Hin. apply in_map_iff in Hin.
           destruct Hin as (a & Hu & Ha). apply (Hall a Ha). rewrite Hu. set_solver.
        -- intros a [<- | Ha]; [exact Hx|].
           specialize (Hall a Ha). set_solver.
      * intros [[Hxl Hnd] Hall]. f_equal. apply IH. split; [exact Hnd|].
        intros a Ha. specialize (Hall a (or_intror Ha)).
        assert (url a <> url x).
        { intros E. apply Hxl. rewrite <- E. apply list_elem_of_In. apply in_map. exact Ha. }
        set_solver.
Qed.

Lemma slice_firstn {A} (l : list A) (n : Z) :
  0 <= n -> slice l 0 (Z.min n (Z.of_nat (length l))) = firstn (Z.to_nat n) l.
Proof.
  intros Hn. rewrite slice_window by lia. simpl skipn. rewrite Z.sub_0_r.
  destruct (Z_lt_le_dec n (Z.of_nat (length l))).
  - rewrite Z.min_l by lia. reflexivity.
  - rewrite Z.min_r by lia.
    transitivity l; [|symmetry]; apply firstn_all2; lia.
Qed.

(** X12.  The page both entry points build from the supplied articles is
    the deduplicated list of the first [page_size] of them: it has
    [min page_size (len results)] articles exactly when those first
    articles have pairwise distinct urls, and is shorter otherwise,
    however many more articles were supplied. *)
Theorem page_is_cut_before_deduplication (results : list article) (page_size : Z) :
  0 <= page_size ->
  paginate_unique results page_size
  = unique_by_url ∅ (firstn (Z.to_nat page_size) results) /\
  (len (paginate_unique results page_size) = Z.min page_size (len results)
   <-> NoDup (map url (firstn (Z.to_nat page_size) results))) /\
  (~ NoDup (map url (firstn (Z.to_nat page_size) results)) ->
   len (paginate_unique results page_size) < Z.min page_size (len results)).
Proof.
  intros Hps. unfold paginate_unique. rewrite slice_firstn by exact Hps.
  set (cut := firstn (Z.to_nat page_size) results).
  assert (Hcut : Z.of_nat (length cut) = Z.min page_size (len results)).
  { subst cut. unfold len. rewrite length_firstn. lia. }
  assert (Hiff : len (unique_by_url ∅ cut) = Z.min page_size (len results)
                 <-> NoDup (map url cut)).
  { rewrite <- Hcut. unfold len. rewrite Nat2Z.inj_iff, unique_by_url_length.
    split; [intros [Hnd _]; exact Hnd | intros Hnd; split; [exact Hnd | set_solver]]. }
  split; [reflexivity|]. split; [exact Hiff|].
  intros Hdup.
  pose proof (sublist_length _ _ (FetcherProps.unique_by_url_sublist ∅ cut)) as Hle.
  destruct (Z.eq_dec (len (unique_by_url ∅ cut)) (Z.min page_size (len results))) as [E | E].
  - exfalso. apply Hdup, Hiff, E.
  - unfold len in *. lia.
Qed.

End Generic.

Section Concrete.
Import Examples.

Lemma read_minutes_bounds_witness :
  1 <= read_minutes 2025 /\
  read_minutes 2025 <= read_minutes 3000 /\
  (read_minutes 2025 = 1 <-> 2025 < 2025) /\
  (675 <= 2025 -> -675 <= 1350 * read_minutes 2025 - 2025 <= 675).
Proof. apply (read_minutes_bounds 2025 3000); [lia | lia | reflexivity]. Defined.

Lemma search_falls_back_to_samples_witness :
  fetch_news_by_query "ai" 1 10 spent_world
  = (get_demo_news (Some "ai") None 1 10 (now spent_world), spent_world).
Proof.
  apply (search_falls_back_to_samples "ai" 1 10 spent_world);
    [right; reflexivity | right; reflexivity | left; reflexivity | reflexivity].
Defined.

Lemma trending_falls_back_to_samples_witness :
  fetch_trending_news (Some "science") 1 10 spent_world
  = (get_demo_news None (Some "science") 1 10 (now spent_world), spent_world).
Proof.
  apply (trending_falls_back_to_samples (Some "science") 1 10 spent_world);
    [right; reflexivity | right; reflexivity | left; reflexivity].
Defined.


Lemma demo_pages_witness :
  let matches := List.filter (demo_match (Some "new") None) (demo_articles 0) in
  let e := get_demo_news (Some "new") None 2 2 0 in
  totalResults e = len matches /\
  (2 = 0 -> articles e = []) /\
  (1 <= 2 -> articles e = firstn (Z.to_nat 2) (skipn (Z.to_nat ((2 - 1) * 2)) matches)).
Proof. apply (demo_pages (Some "new") None 2 2 0). lia. Defined.

Lemma page_is_cut_before_deduplication_witness :
  let results := [news "1" "https://n.example/1" "NewsAPI";
                  news "3" "https://n.example/1" "GNews";
                  news "4" "https://n.example/4" "GNews"] in
  paginate_unique results 2 = unique_by_url ∅ (firstn (Z.to_nat 2) results) /\
  (len (paginate_unique results 2) = Z.min 2 (len results)
   <-> NoDup (map url (firstn (Z.to_nat 2) results))) /\
  (~ NoDup (map url (firstn (Z.to_nat 2) results)) ->
   len (paginate_unique results 2) < Z.min 2 (len results)).
Proof.
  apply (page_is_cut_before_deduplication
           [news "1" "https://n.example/1" "NewsAPI";
            news "3" "https://n.example/1" "GNews";
            news "4" "https://n.example/4" "GNews"] 2).
  lia.
Defined.

End Concrete.

End FetcherExtras.

(** ** Further properties of the recommendation engine *)

Module EngineExtras.

Import Db Recommendation.

Section Generic.
Context `{JsonLib} `{Datetime} `{Externals}.

(** *** What a read of the cache leaves alone *)

Lemma get_cache_keeps (key : string) (w : World) :
  db (snd (get_cache key w)) = db w /\
  wall (snd (get_cache key w)) = wall w /\
  uuid_drawn (snd (get_cache key w)) = uuid_drawn w /\
  models_default (snd (get_cache key w)) = models_default w /\
  models_fast (snd (get_cache key w)) = models_fast w.
Proof.
  unfold get_cache. destruct (Cache.get_cache key (cw w)). repeat split.
Qed.

(** *** [record_user_interaction] *)

(** X13.  [record_user_interaction] never touches the articles and the
    embeddings and always draws one uuid.  It returns [True] exactly when
    the datastore answers, the article exists and the uuid is not yet an
    interaction id; then the interactions are the old ones followed by the
    one new row, stamped with the current time.  When it returns [False]
    the interactions are unchanged. *)
Theorem record_user_interaction_appends (user_id article_id interaction_type : string)
  (time_spent scroll_percentage : option Q) (source_page : option string) (w : World) :
  let r := record_user_interaction user_id article_id interaction_type
             time_spent scroll_percentage source_page w in
  articles (db (snd r)) = articles (db w) /\
  article_embeddings (db (snd r)) = article_embeddings (db w) /\
  uuid_drawn (snd r) = S (uuid_drawn w) /\
  (fst r = true <->
   db_up (db w) = true /\ find_article (db w) article_id <> None /\
   ~ In (uuid4 (uuid_drawn w)) (map i_id (user_interactions (db w)))) /\
  (fst r = true ->
   user_interactions (db (snd r))
   = (user_interactions (db w)
      ++ [ {| i_id := uuid4 (uuid_drawn w);
              i_user_id := user_id;
              i_article_id := article_id;
              i_interaction_type := interaction_type;
              i_timestamp := wall w;
              i_time_spent_seconds := time_spent;
              i_scroll_percentage := scroll_percentage;
              i_source_page := source_page |} ])%list) /\
  (fst r = false -> user_interactions (db (snd r)) = user_interactions (db w)).
Proof.
  cbv zeta. unfold record_user_interaction, insert_interaction.
  cbn [db draw_uuid wall i_id i_article_id].
  assert (Hfresh : forall x l,
             existsb (fun r : interaction_row => String.eqb (i_id r) x) l = false
             <-> ~ In x (map i_id l)).
  { intros x l. rewrite <- not_true_iff_false, existsb_exists. split.
    - intros Hn Hin. apply in_map_iff in Hin. destruct Hin as (r & <- & Hr).
      apply Hn. exists r. split; [exact Hr | apply String.eqb_refl].
    - intros Hn (r & Hr & E). apply String.eqb_eq in E. apply Hn. rewrite <- E.
      apply in_map. exact Hr. }
  destruct (db_up (db w)) eqn:Hup; cbn [negb].
  2:{ cbn. repeat split; try reflexivity; try discriminate.
      intros (Hf & _). discriminate. }
  destruct (existsb _ (user_interactions (db w))) eqn:Hex.
  { cbn. repeat split; try reflexivity; try discriminate.
    intros (_ & _ & Hn). apply Hfresh in Hn. congruence. }
  apply Hfresh in Hex.
  destruct (find_article (db w) article_id) as [a|] eqn:Hfa.
  2:{ cbn. repeat split; try reflexivity; try discriminate.
      intros (_ & Hn & _). congruence. }
  match goal with
  | |- context [get_cache ?k ?w0] =>
      pose proof (get_cache_keeps k w0) as (Hd & Hw & Hu & _);
      destruct (get_cache k w0) as [v w1]
  end.
  cbn [fst snd] in *. rewrite Hd, Hu. cbn.
  repeat split; try reflexivity; try discriminate; try assumption.
Qed.

(** *** [collaborative_filtering] without neighbours *)

Lemma mem_In (x : string) (l : list string) : mem x l = true <-> In x l.
Proof.
  unfold mem. rewrite existsb_exists. split.
  - intros (y & Hy & E). apply String.eqb_eq in E. subst. exact Hy.
  - intros Hin. exists x. split; [exact Hin | apply String.eqb_refl].
Qed.

Lemma filter_nil {A} (f : A -> bool) (l : list A) :
  (forall x, In x l -> f x = false) -> List.filter f l = [].
Proof.
  induction l as [|x l IH]; simpl; intros Hall; [reflexivity|].
  rewrite (Hall x (or_introl eq_refl)). apply IH. intros y Hy. apply Hall. right. exact Hy.
Qed.

Lemma unshared_no_neighbour (d : DB) (user_id : string) :
  unshared d user_id -> similar_users_query d user_id = [].
Proof.
  intros Hun. unfold similar_users_query.
  rewrite (filter_nil _ (user_interactions d)); [reflexivity|].
  intros ui Hui. destruct (String.eqb_spec (i_user_id ui) user_id) as [E | Hne];
    [reflexivity|]. cbn [negb andb].
  apply not_true_iff_false. rewrite mem_In. apply Hun; assumption.
Qed.

Lemma collaborative_compute_edges (user_id : string) (max_results : Z) (w : World) :
  (db_up (db w) = false -> collaborative_compute user_id max_results w = (VList [], w)) /\
  (db_up (db w) = true -> user_articles (db w) user_id = [] ->
   collaborative_compute user_id max_results w = (VList [], w)) /\
  (db_up (db w) = true -> user_articles (db w) user_id <> [] -> unshared (db w) user_id ->
   collaborative_compute user_id max_results w = (VNone, w)).
Proof.
  unfold collaborative_compute. split; [|split].
  - intros ->. reflexivity.
  - intros -> ->. reflexivity.
  - intros -> Hne Hun. cbn [negb].
    destruct (user_articles (db w) user_id) as [|a l] eqn:E; [congruence|].
    cbn [length Nat.eqb].
    rewrite (unshared_no_neighbour _ _ Hun). reflexivity.
Qed.

Lemma collaborative_without_neighbours_aux (user_id : string) (max_results : Z)
  (w : World) :
  truthy (fst (get_cache (collaborative_key user_id max_results) w)) = false ->
  (db_up (db w) = false ->
   collaborative_filtering user_id max_results w
   = (VList [], snd (get_cache (collaborative_key user_id max_results) w))) /\
  (db_up (db w) = true -> user_articles (db w) user_id = [] ->
   collaborative_filtering user_id max_results w
   = (VList [], snd (get_cache (collaborative_key user_id max_results) w))) /\
  (db_up (db w) = true -> user_articles (db w) user_id <> [] -> unshared (db w) user_id ->
   collaborative_filtering user_id max_results w
   = (VNone, snd (get_cache (collaborative_key user_id max_results) w))).
Proof.
  intros Hmiss. unfold collaborative_filtering.
  pose proof (get_cache_keeps (collaborative_key user_id max_results) w) as (Hd & _).
  destruct (get_cache (collaborative_key user_id max_results) w) as [c w1].
  cbn [fst snd] in *. rewrite Hmiss.
  destruct (collaborative_compute_edges user_id max_results w1) as (Ha & Hb & Hc).
  rewrite Hd in Ha, Hb, Hc. auto.
Qed.

(** X14.  On a cache miss, [collaborative_filtering] gives [] when the
    datastore does not answer and when the user has no interaction; for a
    user who has interactions but shares no article with another user it
    gives [None], not a list.  Nothing is stored in any of the three
    cases. *)
Theorem collaborative_without_neighbours (user_id : string) (max_results : Z) (w : World) :
  truthy (fst (get_cache (collaborative_key user_id max_results) w)) = false ->
  let w1 := snd (get_cache (collaborative_key user_id max_results) w) in
  (db_up (db w) = false ->
   collaborative_filtering user_id max_results w = (VList [], w1)) /\
  (db_up (db w) = true -> user_articles (db w) user_id = [] ->
   collaborative_filtering user_id max_results w = (VList [], w1)) /\
  (db_up (db w) = true -> user_articles (db w) user_id <> [] -> unshared (db w) user_id ->
   collaborative_filtering user_id max_results w = (VNone, w1)).
Proof.
  intros Hmiss. cbv zeta. apply collaborative_without_neighbours_aux. exact Hmiss.
Qed.

(** *** [SELECT DISTINCT] *)

Lemma distinct_In (x : string) (l : list string) : In x (distinct l) <-> In x l.
Proof.
  induction l as [|y l IH]; simpl; [reflexivity|].
  rewrite filter_In, IH.
  destruct (String.eqb_spec y x) as [-> | Hne]; simpl; [tauto|].
  split; [tauto|]. intros [E | Hin]; [congruence | tauto].
Qed.

Lemma distinct_NoDup (l : list string) : List.NoDup (distinct l).
Proof.
  induction l as [|y l IH]; simpl; constructor.
  - rewrite filter_In. intros [_ E]. rewrite String.eqb_refl in E. discriminate.
  - apply List.NoDup_filter. exact IH.
Qed.

(** *** The neighbours of [collaborative_filtering] *)

Lemma count_distinct_incl (l1 l2 : list string) :
  incl l1 l2 -> count_distinct l1 <= count_distinct l2.
Proof.
  intros Hincl. unfold count_distinct. apply inj_le.
  apply List.NoDup_incl_length; [apply distinct_NoDup|].
  intros x Hx. apply distinct_In. apply Hincl. apply distinct_In. exact Hx.
Qed.

Lemma count_distinct_pos (x : string) (l : list string) : In x l -> 1 <= count_distinct l.
Proof.
  intros Hin. apply (proj2 (distinct_In _ _)) in Hin. unfold count_distinct.
  destruct (distinct l); [contradiction | simpl; lia].
Qed.

Lemma jaccard_bounds (total common other : Z) :
  1 <= common -> common <= other -> common <= total ->
  (0 < jaccard total common other <= 1)%Q.
Proof.
  intros Ha Hb Hc. unfold jaccard.
  destruct (Z.ltb_spec 0 (total + other - common)) as [Hpos | Hneg]; [|lia].
  destruct (total + other - common) as [|p|p] eqn:E; try lia.
  unfold Qdiv, Qinv, Qmult, Qlt, Qle, inject_Z. simpl. split; lia.
Qed.

(** X20.  The neighbour query of [collaborative_filtering] gives ten rows
    at most; every row is another user, who shares at least one article
    with the user and no more than either of them has, so that the
    Jaccard similarity computed from the row lies in (0, 1]. *)
Theorem neighbours_are_others_with_positive_similarity (d : DB) (user_id : string) :
  (length (similar_users_query d user_id) <= 10)%nat /\
  forall other common total,
    In (other, common, total) (similar_users_query d user_id) ->
    other <> user_id /\
    1 <= common /\ common <= total /\
    common <= count_distinct (user_articles d user_id) /\
    total = count_distinct (user_articles d other) /\
    (0 < jaccard (count_distinct (user_articles d user_id)) common total <= 1)%Q.
Proof.
  unfold similar_users_query.
  set (cua := user_articles d user_id).
  set (joined := List.filter
                   (fun ui => negb (String.eqb (i_user_id ui) user_id)
                              && mem (i_article_id ui) cua) (user_interactions d)).
  split; [rewrite length_firstn; lia|].
  intros other common total Hin.
  apply (FetcherProps.sublist_In _ _ _ (sublist_take _ _)) in Hin.
  apply DbProps.sort_by_In in Hin. apply in_map_iff in Hin.
  destruct Hin as (v & [= <- <- <-] & Hv).
  apply (proj1 (distinct_In _ _)) in Hv. apply in_map_iff in Hv.
  destruct Hv as (ui & Hu & Hui).
  assert (Hj : forall x, In x joined ->
                 In x (user_interactions d) /\ i_user_id x <> user_id
                 /\ In (i_article_id x) cua).
  { intros x Hx. apply filter_In in Hx. destruct Hx as [Hx Hc].
    apply andb_prop in Hc. destruct Hc as [Hne Hm].
    apply negb_true_iff, String.eqb_neq in Hne. apply mem_In in Hm. auto. }
  set (shared := map i_article_id
                   (List.filter (fun x => String.eqb (i_user_id x) v) joined)).
  assert (Hshared : In (i_article_id ui) shared).
  { apply in_map. apply filter_In. split; [exact Hui|]. rewrite Hu. apply String.eqb_refl. }
  assert (Ha : 1 <= count_distinct shared) by (eapply count_distinct_pos; exact Hshared).
  assert (Hb : count_distinct shared <= count_distinct (user_articles d v)).
  { apply count_distinct_incl. intros x Hx. apply in_map_iff in Hx.
    destruct Hx as (y & <- & Hy). apply filter_In in Hy. destruct Hy as [Hy Hyv].
    apply in_map. apply filter_In. split; [apply Hj; exact Hy | exact Hyv]. }
  assert (Hc : count_distinct shared <= count_distinct cua).
  { apply count_distinct_incl. intros x Hx. apply in_map_iff in Hx.
    destruct Hx as (y & <- & Hy). apply filter_In in Hy. apply Hj, Hy. }
  split; [rewrite <- Hu; apply Hj; exact Hui|].
  repeat split; try assumption; apply jaccard_bounds; assumption.
Qed.

(** *** [hybrid_recommendations] over a result that is [None] *)

Lemma blend_none_first (algo : string) (rest : list (string * value)) (k : Z) :
  blend ((algo, VNone) :: rest) k = None \/ blend ((algo, VNone) :: rest) k = Some [].
Proof.
  unfold blend. cbn [score_results truthy negb].
  destruct (score_results rest []) as [scores|]; [|left; reflexivity].
  destruct (ranked_article_ids scores k) as [|x ids]; [right; reflexivity|].
  left. reflexivity.
Qed.

Lemma hybrid_compute_none_first (u : string) (interests : option (list string))
  (k : Z) (w : World) :
  u <> "" ->
  fst (collaborative_filtering u (k * 2) w) = VNone ->
  fst (hybrid_compute (Some u) None interests k w) = VList [].
Proof.
  intros Hu Hc. apply String.eqb_neq in Hu.
  unfold hybrid_compute, run_algorithms. cbn [truthy_str fmt]. rewrite Hu. cbn [negb].
  destruct (collaborative_filtering u (k * 2) w) as [v w1]. cbn [fst] in Hc. subst v.
  destruct (trending_recommendations None 24 (k * 2) w1) as [v3 w2].
  destruct (diverse_recommendations (Some u) None (k * 2) w2) as [v4 w3].
  cbn [app].
  destruct (blend_none_first "collaborative" [("trending", v3); ("diverse", v4)] k)
    as [-> | ->]; reflexivity.
Qed.

(** X15.  For a user who has interactions but shares no article with
    another user, and no seed article, [hybrid_recommendations] returns []
    on a cache miss, whatever the trending and the diverse algorithm
    return: the collaborative result is [None], which the scoring loop
    skips and the collecting loop cannot iterate. *)
Theorem hybrid_empty_without_neighbours (u : string) (interests : option (list string))
  (k : Z) (w : World) :
  let w1 := snd (get_cache (hybrid_key (Some u) None interests k) w) in
  u <> "" ->
  truthy (fst (get_cache (hybrid_key (Some u) None interests k) w)) = false ->
  truthy (fst (get_cache (collaborative_key u (k * 2)) w1)) = false ->
  db_up (db w) = true ->
  user_articles (db w) u <> [] ->
  unshared (db w) u ->
  fst (hybrid_recommendations (Some u) None interests k w) = VList [].
Proof.
  cbv zeta. intros Hu Hm1 Hm2 Hup Hne Hun. unfold hybrid_recommendations.
  pose proof (get_cache_keeps (hybrid_key (Some u) None interests k) w) as (Hd & _).
  destruct (get_cache (hybrid_key (Some u) None interests k) w) as [c w1].
  cbn [fst snd] in *. rewrite Hm1.
  apply hybrid_compute_none_first; [exact Hu|].
  rewrite <- Hd in Hup, Hne, Hun.
  destruct (collaborative_without_neighbours_aux u (k * 2) w1 Hm2) as (_ & _ & Hc).
  rewrite (Hc Hup Hne Hun). reflexivity.
Qed.

(** *** [content_based_filtering] as the interpreter runs it *)

Lemma set_cache_keeps (key : string) (v : value) (expire : Z) (w : World) :
  db (set_cache key v expire w) = db w /\
  wall (set_cache key v expire w) = wall w /\
  uuid_drawn (set_cache key v expire w) = uuid_drawn w /\
  models_default (set_cache key v expire w) = models_default w /\
  models_fast (set_cache key v expire w) = models_fast w.
Proof.
  unfold set_cache. destruct (Cache.set_cache key v expire (cw w)). repeat split.
Qed.

(** X16.  As the interpreter runs it, [content_based_filtering] never
    writes the datastore and never loads a model; when the cache holds
    neither a result for the call nor an embedding of the article, it
    returns [] and stores nothing, whatever the datastore holds. *)
Theorem content_based_as_run_never_computes (article_id : string) (k : Z) (w : World) :
  let r := content_based_filtering_as_run article_id k w in
  let w1 := snd (get_cache (content_key article_id k) w) in
  let w2 := snd (get_cache ("embedding:" ++ article_id) w1) in
  (db (snd r) = db w /\
   models_default (snd r) = models_default w /\
   models_fast (snd r) = models_fast w) /\
  (truthy (fst (get_cache (content_key article_id k) w)) = false ->
   truthy (fst (get_cache ("embedding:" ++ article_id) w1)) = false ->
   r = (VList [], w2)).
Proof.
  cbv zeta. unfold content_based_filtering_as_run, compute_article_embedding_as_run.
  pose proof (get_cache_keeps (content_key article_id k) w) as (Hd1 & _ & _ & Hm1 & Hf1).
  destruct (get_cache (content_key article_id k) w) as [c w1]. cbn [fst snd] in *.
  pose proof (get_cache_keeps ("embedding:" ++ article_id) w1) as (Hd2 & _ & _ & Hm2 & Hf2).
  destruct (get_cache ("embedding:" ++ article_id) w1) as [e w2]. cbn [fst snd] in *.
  split.
  - destruct (truthy c); [cbn; auto|].
    destruct (truthy e); cbn [fst snd].
    + destruct (tensor_of e) as [t|]; cbn [option_map fst snd];
        [|repeat split; congruence].
      destruct (negb (db_up (db w2))); cbn [fst snd]; [repeat split; congruence|].
      destruct (similar_articles (db w2) t article_id k) as [rows|]; cbn [fst snd];
        [|repeat split; congruence].
      match goal with
      | |- context [set_cache ?key ?v ?ex ?w0] =>
          pose proof (set_cache_keeps key v ex w0) as (Hd3 & _ & _ & Hm3 & Hf3)
      end.
      repeat split; congruence.
    + repeat split; congruence.
  - intros -> ->. reflexivity.
Qed.

(** *** [get_recommendations] *)

(** X17.  On a cache miss [get_recommendations] loads the models and then
    returns [] without running an algorithm when the datastore does not
    answer or holds no article, when content-based is asked for without an
    article, and when collaborative is asked for without a user; an
    algorithm name it does not know is served by the hybrid algorithm. *)
Theorem get_recommendations_dispatch (article_id user_id : option string)
  (user_interests : option (list string)) (algorithm : string) (max_results : Z)
  (w : World) :
  let key := recommendations_key algorithm user_id user_interests max_results in
  let w1 := if String.eqb algorithm "content_based" then w else snd (get_cache key w) in
  let w2 := initialize_models w1 in
  let r := get_recommendations article_id user_id user_interests algorithm max_results w in
  (algorithm <> "content_based" -> truthy (fst (get_cache key w)) = false) ->
  (db_up (db w) = false \/ articles (db w) = [] -> r = (VList [], w2)) /\
  (algorithm = "content_based" -> truthy_str article_id = false -> r = (VList [], w2)) /\
  (algorithm = "collaborative" -> truthy_str user_id = false -> r = (VList [], w2)) /\
  (mem algorithm RECOMMENDATION_ALGORITHMS = false ->
   db_up (db w) = true -> articles (db w) <> [] ->
   r = hybrid_recommendations user_id article_id user_interests max_results w2).
Proof.
  cbv zeta. intros Hmiss. unfold get_recommendations.
  set (key := recommendations_key algorithm user_id user_interests max_results) in *.
  assert (Hstart :
            (let '(cached_results, w0) :=
               if negb (String.eqb algorithm "content_based")
               then get_cache key w else (VNone, w) in
             (truthy cached_results, w0))
            = (false, if String.eqb algorithm "content_based"
                      then w else snd (get_cache key w))).
  { destruct (String.eqb_spec algorithm "content_based") as [E | E]; cbn [negb].
    - reflexivity.
    - specialize (Hmiss E). destruct (get_cache key w) as [c w0]. cbn [fst snd] in *.
      rewrite Hmiss. reflexivity. }
  assert (Hdb : db (initialize_models
                      (if String.eqb algorithm "content_based"
                       then w else snd (get_cache key w))) = db w).
  { pose proof (get_cache_keeps key w) as (Hd & _).
    destruct (String.eqb algorithm "content_based");
      unfold initialize_models;
      repeat match goal with |- context [if ?b then _ else _] => destruct b end;
      cbn; congruence. }
  set (w1 := if String.eqb algorithm "content_based" then w else snd (get_cache key w)) in *.
  assert (Hrun : get_recommendations article_id user_id user_interests algorithm
                   max_results w
                 = if negb (db_up (db (initialize_models w1))) then (VList [], initialize_models w1)
                   else if Nat.eqb (length (articles (db (initialize_models w1)))) 0
                        then (VList [], initialize_models w1)
                        else dispatch article_id user_id user_interests algorithm
                               max_results (initialize_models w1)).
  { unfold get_recommendations. fold key.
    destruct (if negb (String.eqb algorithm "content_based")
              then get_cache key w else (VNone, w)) as [c w0].
    injection Hstart as -> ->. reflexivity. }
  unfold get_recommendations in Hrun. fold key in Hrun. rewrite Hrun. clear Hrun Hstart.
  rewrite Hdb. set (w2 := initialize_models w1).
  split; [|split; [|split]].
  - intros [-> | ->]; [reflexivity|]. destruct (negb (db_up (db w))); reflexivity.
  - intros -> Ha. destruct (negb (db_up (db w))); [reflexivity|].
    destruct (Nat.eqb (length (articles (db w))) 0); [reflexivity|].
    unfold dispatch. rewrite Ha. reflexivity.
  - intros -> Hu. destruct (negb (db_up (db w))); [reflexivity|].
    destruct (Nat.eqb (length (articles (db w))) 0); [reflexivity|].
    unfold dispatch. rewrite Hu. reflexivity.
  - intros Hmem -> Hne. cbn [negb].
    destruct (articles (db w)) as [|a l]; [congruence|]. cbn [length Nat.eqb].
    unfold dispatch.
    unfold RECOMMENDATION_ALGORITHMS, mem in Hmem. cbn [existsb] in Hmem.
    rewrite !orb_false_iff in Hmem.
    destruct Hmem as (E1 & E2 & E3 & E4 & E5 & _).
    unfold RECOMMENDATION_ALGORITHMS, mem. cbn [existsb].
    rewrite E1, E2, E3, E4, E5. reflexivity.
Qed.

(** *** The fallback of [diverse_recommendations] *)



Section Head.
Context {A : Type} (before : A -> A -> bool).
Hypothesis asym : forall x y, before x y = true -> before y x = false.
Hypothesis negtrans :
  forall x y z, before x y = false -> before y z = false -> before x z = false.




End Head.







(** *** What [hybrid_recommendations] returns *)

Lemma add_score_keys (a x : string) (q : Q) (scores : list (string * Q)) :
  In x (map fst (add_score a q scores)) <-> x = a \/ In x (map fst scores).
Proof.
  induction scores as [|[k v] scores IH]; simpl; [intuition|].
  destruct (String.eqb_spec k a) as [-> | Hne]; simpl; [intuition|].
  rewrite IH. intuition.
Qed.

Lemma add_score_NoDup (a : string) (q : Q) (scores : list (string * Q)) :
  List.NoDup (map fst scores) -> List.NoDup (map fst (add_score a q scores)).
Proof.
  induction scores as [|[k v] scores IH]; simpl; intros Hnd.
  - constructor; [intros [] | constructor].
  - inversion Hnd as [|? ? Hk Hnd']; subst.
    destruct (String.eqb_spec k a) as [-> | Hne]; simpl.
    + constructor; assumption.
    + constructor; [|apply IH; exact Hnd'].
      rewrite add_score_keys. intros [E | Hin]; [congruence | contradiction].
Qed.

Lemma score_recs_NoDup (wt : Q) (len i : nat) (recs : list value)
  (scores scores' : list (string * Q)) :
  score_recs wt len i recs scores = Some scores' ->
  List.NoDup (map fst scores) -> List.NoDup (map fst scores').
Proof.
  revert i scores. induction recs as [|a recs IH]; intros i scores; simpl.
  - intros [= <-]. trivial.
  - destruct (id_of a) as [x|]; [|discriminate].
    intros Hs Hnd. eapply IH; [exact Hs|]. apply add_score_NoDup. exact Hnd.
Qed.

Lemma score_results_NoDup (results : list (string * value))
  (scores scores' : list (string * Q)) :
  score_results results scores = Some scores' ->
  List.NoDup (map fst scores) -> List.NoDup (map fst scores').
Proof.
  revert scores. induction results as [|[algo recs] results IH]; intros scores; simpl.
  - intros [= <-]. trivial.
  - destruct (negb (truthy recs)); [apply IH|].
    destruct (iterate recs) as [items|]; [|discriminate].
    destruct (score_recs (weights algo) (length items) 0 items scores) as [s1|] eqn:Hr;
      [|discriminate].
    intros Hs Hnd. eapply IH; [exact Hs|]. eapply score_recs_NoDup; eassumption.
Qed.

Lemma lookup_score_In (x : string) (v : Q) (scores : list (string * Q)) :
  List.NoDup (map fst scores) -> In (x, v) scores -> lookup_score x scores = v.
Proof.
  induction scores as [|[k u] scores IH]; simpl; intros Hnd Hin; [contradiction|].
  inversion Hnd as [|? ? Hk Hnd']; subst.
  destruct Hin as [[= -> ->] | Hin].
  - rewrite String.eqb_refl. reflexivity.
  - destruct (String.eqb_spec k x) as [-> | _]; [|apply IH; assumption].
    exfalso. apply Hk. change x with (fst (x, v)). apply in_map. exact Hin.
Qed.

Lemma sublist_sorted {A} (R : A -> A -> Prop) (l1 l2 : list A) :
  l1 `sublist_of` l2 -> StronglySorted R l2 -> StronglySorted R l1.
Proof.
  induction 1 as [|x l1 l2 Hsub IH|x l1 l2 Hsub IH]; intros Hs.
  - constructor.
  - inversion Hs as [|? ? Hs' Hall]; subst. constructor; [apply IH; exact Hs'|].
    rewrite List.Forall_forall in *. intros y Hy. apply Hall.
    eapply FetcherProps.sublist_In; eassumption.
  - inversion Hs; subst. apply IH. assumption.
Qed.

Lemma Forall2_sorted {A B} (P : A -> B -> Prop) (R1 : A -> A -> Prop) (R2 : B -> B -> Prop)
  (l1 : list A) (l2 : list B) :
  (forall x y a b, P x a -> P y b -> R1 x y -> R2 a b) ->
  Forall2 P l1 l2 -> StronglySorted R1 l1 -> StronglySorted R2 l2.
Proof.
  intros Hrel. induction 1 as [|x a l1 l2 Hxa Hf IH]; intros Hs; [constructor|].
  inversion Hs as [|? ? Hs' Hall]; subst. constructor; [apply IH; exact Hs'|].
  rewrite List.Forall_forall in *. intros b Hb.
  assert (Hex : exists y, In y l1 /\ P y b).
  { clear -Hf Hb. induction Hf as [|y c l1 l2 Hyc Hf IH]; [contradiction|].
    destruct Hb as [<- | Hb].
    - exists y. split; [left; reflexivity | exact Hyc].
    - destruct (IH Hb) as (z & Hz & Hzb). exists z. split; [right; exact Hz | exact Hzb]. }
  destruct Hex as (y & Hy & Hyb). eapply Hrel; [exact Hxa | exact Hyb | apply Hall; exact Hy].
Qed.

(** The ranked identifiers: at most [k], pairwise distinct, in order of
    score. *)
Lemma ranked_article_ids_spec (scores : list (string * Q)) (k : Z) :
  0 <= k ->
  List.NoDup (map fst scores) ->
  (length (ranked_article_ids scores k) <= Z.to_nat k)%nat /\
  List.NoDup (ranked_article_ids scores k) /\
  StronglySorted (fun x y => lookup_score y scores <= lookup_score x scores)%Q
    (ranked_article_ids scores k).
Proof.
  intros Hk Hnd. unfold ranked_article_ids.
  rewrite FetcherExtras.slice_window by lia. rewrite Z.sub_0_r.
  change (Z.to_nat 0) with 0%nat. rewrite skipn_O.
  set (sorted := sort_by (fun y x : string * Q => Qgtb (snd y) (snd x)) scores).
  assert (Hperm : Permutation sorted scores) by apply DbProps.sort_by_perm.
  assert (Hsorted : StronglySorted (desc snd) sorted) by apply DbProps.sort_desc_sorted.
  assert (Hnd' : List.NoDup (map fst sorted)).
  { eapply Permutation_NoDup; [|exact Hnd]. apply Permutation_map. symmetry. exact Hperm. }
  split; [|split].
  - rewrite length_map, length_firstn. lia.
  - rewrite <- firstn_map. rewrite <- (firstn_skipn (Z.to_nat k) (map fst sorted)) in Hnd'.
    eapply List.NoDup_app_remove_r. exact Hnd'.
  - apply (DbProps.firstn_sorted _ (Z.to_nat k)) in Hsorted.
    assert (Hin : forall e, In e (firstn (Z.to_nat k) sorted) -> In e scores).
    { intros e He. apply (Permutation_in _ Hperm).
      eapply FetcherProps.sublist_In; [apply sublist_take | exact He]. }
    set (entries := firstn (Z.to_nat k) sorted) in *. clearbody entries.
    induction Hsorted as [|e l Hs IH Hall]; simpl; constructor.
    + apply IH. intros e' He'. apply Hin. right. exact He'.
    + rewrite List.Forall_forall in *. intros y Hy. apply in_map_iff in Hy.
      destruct Hy as (e' & <- & He').
      destruct e as [x v], e' as [x' v']. cbn [fst].
      rewrite (lookup_score_In x v scores Hnd (Hin _ (or_introl eq_refl))).
      rewrite (lookup_score_In x' v' scores Hnd (Hin _ (or_intror He'))).
      exact (Hall _ He').
Qed.

(** The collecting loop: the articles it adds stand for a sublist of the
    identifiers, each found in the results under its identifier. *)
Lemma collect_sublist (ids : list string) (results : list (string * value))
  (seen : list string) (acc out : list value) :
  collect ids results seen acc = Some out ->
  exists sub found,
    out = (acc ++ found)%list /\
    sub `sublist_of` ids /\
    Forall2 (fun x a => find_in_results x results = Some (Some a)) sub found /\
    (forall x, In x sub -> ~ In x seen) /\
    List.NoDup sub.
Proof.
  revert seen acc. induction ids as [|x ids IH]; intros seen acc; simpl.
  - intros [= <-]. exists [], []. rewrite app_nil_r.
    repeat split; [constructor | constructor | intros ? [] | constructor].
  - destruct (mem x seen) eqn:Hm.
    + intros Hc. destruct (IH _ _ Hc) as (sub & found & E & Hsub & Hf & Hseen & Hnd).
      exists sub, found. repeat split; try assumption. apply sublist_cons. exact Hsub.
    + destruct (find_in_results x results) as [[a|]|] eqn:Hfind; [| |discriminate].
      * intros Hc. destruct (IH _ _ Hc) as (sub & found & E & Hsub & Hf & Hseen & Hnd).
        exists (x :: sub), (a :: found). rewrite E, <- app_assoc.
        split; [reflexivity|]. split; [apply sublist_skip; exact Hsub|].
        split; [constructor; assumption|]. split.
        -- intros y [<- | Hy].
           ++ intros Hin. apply mem_In in Hin. congruence.
           ++ intros Hin. apply (Hseen y Hy). right. exact Hin.
        -- constructor; [|exact Hnd]. intros Hin. apply (Hseen x Hin). left. reflexivity.
      * intros Hc. destruct (IH _ _ Hc) as (sub & found & E & Hsub & Hf & Hseen & Hnd).
        exists sub, found. repeat split; try assumption. apply sublist_cons. exact Hsub.
Qed.

(** X19.  What [hybrid_recommendations] computes when its loops do not
    raise: at most [max_results] articles, no identifier twice, each the
    first article with its identifier that the results of the algorithms
    hold, in order of non-increasing blended score. *)
Theorem blend_bounded_distinct_ranked (results : list (string * value)) (k : Z)
  (scores : list (string * Q)) (out : list value) :
  0 <= k ->
  score_results results [] = Some scores ->
  blend results k = Some out ->
  Z.of_nat (length out) <= k /\
  NoDup (map id_of out) /\
  (forall a, In a out ->
     exists x, id_of a = Some x /\ find_in_results x results = Some (Some a)) /\
  StronglySorted (fun a b => score_of scores b <= score_of scores a)%Q out.
Proof.
  intros Hk Hs Hb. unfold blend in Hb. rewrite Hs in Hb.
  assert (Hnd : List.NoDup (map fst scores)).
  { eapply score_results_NoDup; [exact Hs | constructor]. }
  destruct (ranked_article_ids_spec scores k Hk Hnd) as (Hlen & Hnd_ids & Hsorted).
  destruct (collect_sublist _ _ _ _ _ Hb) as (sub & found & E & Hsub & Hf & _ & Hnd_sub).
  simpl in E. subst found.
  assert (Hid : Forall2 (fun x a => id_of a = Some x) sub out).
  { eapply Forall2_impl; [exact Hf|]. intros x a. apply EngineProps.find_in_results_id. }
  assert (Hmap : map id_of out = map Some sub).
  { clear -Hid. induction Hid as [|x a l1 l2 Hxa Hf IH]; simpl; [reflexivity|].
    rewrite Hxa, IH. reflexivity. }
  split; [|split; [|split]].
  - pose proof (Forall2_length _ _ _ Hf) as E1.
    pose proof (sublist_length _ _ Hsub) as E2. lia.
  - rewrite Hmap. apply (NoDup_fmap_2 Some). apply NoDup_ListNoDup. exact Hnd_sub.
  - intros a Ha. clear -Hf Hid Ha.
    induction Hf as [|x b l1 l2 Hxb Hf IH]; [contradiction|].
    inversion Hid; subst. destruct Ha as [<- | Ha].
    + exists x. split; assumption.
    + apply IH; assumption.
  - eapply (Forall2_sorted (fun x a => id_of a = Some x));
      [| exact Hid | eapply sublist_sorted; [exact Hsub | exact Hsorted]].
    intros x y a b Hxa Hyb Hle. unfold score_of. rewrite Hxa, Hyb. exact Hle.
Qed.

End Generic.

Section Concrete.
Import Examples.
Local Existing Instance Json.python_json.

Lemma collaborative_without_neighbours_witness :
  let w := engine_world lonely_db (100 * 3600) in
  let w1 := snd (get_cache (collaborative_key "u" 5) w) in
  (db_up (db w) = false -> collaborative_filtering "u" 5 w = (VList [], w1)) /\
  (db_up (db w) = true -> user_articles (db w) "u" = [] ->
   collaborative_filtering "u" 5 w = (VList [], w1)) /\
  (db_up (db w) = true -> user_articles (db w) "u" <> [] -> unshared (db w) "u" ->
   collaborative_filtering "u" 5 w = (VNone, w1)).
Proof.
  apply (collaborative_without_neighbours "u" 5 (engine_world lonely_db (100 * 3600))).
  reflexivity.
Defined.

Lemma lonely_unshared : unshared lonely_db "u".
Proof.
  intros ui Hin Hne Hmem. simpl in Hin.
  destruct Hin as [<- | [<- | []]]; simpl in *; [congruence|].
  destruct Hmem as [E | []]. discriminate E.
Defined.

Lemma hybrid_empty_without_neighbours_witness :
  fst (hybrid_recommendations (Some "u") None None 5 (engine_world lonely_db (100 * 3600)))
  = VList [].
Proof.
  apply (hybrid_empty_without_neighbours "u" None 5 (engine_world lonely_db (100 * 3600)));
    [discriminate | reflexivity | reflexivity | reflexivity | discriminate
    | exact lonely_unshared].
Defined.

Lemma get_recommendations_dispatch_witness :
  let w := engine_world readers_db 100 in
  let key := recommendations_key "collaborative" None None 5 in
  let w1 := if String.eqb "collaborative" "content_based" then w else snd (get_cache key w) in
  let w2 := initialize_models w1 in
  let r := get_recommendations None None None "collaborative" 5 w in
  (db_up (db w) = false \/ articles (db w) = [] -> r = (VList [], w2)) /\
  ("collaborative" = "content_based" -> truthy_str None = false -> r = (VList [], w2)) /\
  ("collaborative" = "collaborative" -> truthy_str None = false -> r = (VList [], w2)) /\
  (mem "collaborative" RECOMMENDATION_ALGORITHMS = false ->
   db_up (db w) = true -> articles (db w) <> [] ->
   r = hybrid_recommendations None None None 5 w2).
Proof.
  apply (get_recommendations_dispatch None None None "collaborative" 5
           (engine_world readers_db 100)).
  intros _. reflexivity.
Defined.


Lemma blend_bounded_distinct_ranked_witness :
  let results := [("trending", VList [item "p1"; item "p2"]);
                  ("diverse", VList [item "p2"; item "p3"])] in
  let scores := default [] (score_results results []) in
  let out := default [] (blend results 2) in
  Z.of_nat (length out) <= 2 /\
  NoDup (map id_of out) /\
  (forall a, In a out ->
     exists x, id_of a = Some x /\ find_in_results x results = Some (Some a)) /\
  StronglySorted (fun a b => score_of scores b <= score_of scores a)%Q out.
Proof.
  apply (blend_bounded_distinct_ranked
           [("trending", VList [item "p1"; item "p2"]);
            ("diverse", VList [item "p2"; item "p3"])] 2);
    [lia | reflexivity | reflexivity].
Defined.

Lemma record_user_interaction_appends_witness :
  let r := record_user_interaction "u" "b2" "like" None None None
             (engine_world readers_db 100) in
  fst r = true /\
  user_interactions (db (snd r))
  = (user_interactions readers_db
     ++ [ {| i_id := uuid4 0; i_user_id := "u"; i_article_id := "b2";
             i_interaction_type := "like"; i_timestamp := 100;
             i_time_spent_seconds := None; i_scroll_percentage := None;
             i_source_page := None |} ])%list.
Proof.
  destruct (record_user_interaction_appends "u" "b2" "like" None None None
              (engine_world readers_db 100)) as (_ & _ & _ & Hiff & Happ & _).
  assert (Hok : fst (record_user_interaction "u" "b2" "like" None None None
                       (engine_world readers_db 100)) = true).
  { apply Hiff. split; [reflexivity|]. split; [discriminate|].
    vm_compute. intuition discriminate. }
  split; [exact Hok | exact (Happ Hok)].
Defined.

Lemma content_based_as_run_never_computes_witness :
  let w := engine_world readers_db 100 in
  content_based_filtering_as_run "a1" 4 w
  = (VList [],
     snd (get_cache ("embedding:" ++ "a1") (snd (get_cache (content_key "a1" 4) w)))).
Proof.
  apply (proj2 (content_based_as_run_never_computes "a1" 4 (engine_world readers_db 100)));
    reflexivity.
Defined.

Lemma neighbours_are_others_with_positive_similarity_witness :
  "v1" <> "u" /\
  1 <= 2 /\ 2 <= 3 /\
  2 <= count_distinct (user_articles readers_db "u") /\
  3 = count_distinct (user_articles readers_db "v1") /\
  (0 < jaccard (count_distinct (user_articles readers_db "u")) 2 3 <= 1)%Q.
Proof.
  apply (proj2 (neighbours_are_others_with_positive_similarity readers_db "u") "v1" 2 3).
  vm_compute. left. reflexivity.
Defined.

End Concrete.

End EngineExtras.
